(** * flipboard: the cellular automaton of [automata.ts]

    A shallow embedding of the [Automata] class (constructor, [getNeighbors],
    [update], [resize], [board]) and the properties of its grid.

    Conventions of the embedding.
    - A JS [number] that holds a dimension, a coordinate, a count or a ruleset
      entry is an integer of [Z]; fractional numbers, NaN and the infinities
      are outside the model there.  The ceiling of 2^32 - 1 on the length of
      a JS array is not modelled (memory gives out long before).
    - The density and the values of [Math.random()] are the binary64 numbers
      of JS, the primitive floats of [PrimFloat], with their subtraction and
      comparison.
    - A [boolean[][]] is a list of rows, each a list of [bool].  Reading an
      index that is not there gives [undefined] ([None]); [undefined] is falsy.
    - A thrown exception is the [Err] outcome of the [result] monad; the
      object is not observed after a throw. *)

From Stdlib Require Import ZArith Lia Bool PrimFloat.
From stdpp Require Import base tactics option numbers list.

Local Open Scope Z_scope.
Set Warnings "-inexact-float".

(** ** Outcomes *)

Inductive error : Type :=
  | RangeError         (* [new Array(n)] with n not an array length *)
  | TypeError          (* a property read or written on [undefined] *)
  | InvalidRuleset     (* named by the specification; no statement of the source throws it *)
  | InvalidDimensions  (* named by the specification; no statement of the source throws it *)
  | OutOfFuel.         (* not a JS error: the budget of a modelled loop ran out *)

Inductive result (A : Type) : Type :=
  | Ok (a : A)
  | Err (e : error).
Arguments Ok {A} a.
Arguments Err {A} e.

#[global] Instance result_ret : MRet result := λ A a, Ok a.
#[global] Instance result_bind : MBind result := λ A B f m,
  match m with
  | Ok a => f a
  | Err e => Err e
  end.

(** [for (const x of l) s = body(s, x)] *)
Fixpoint foldM {S A : Type} (body : S → A → result S) (s : S) (l : list A) : result S :=
  match l with
  | [] => Ok s
  | x :: l' => s' ← body s x; foldM body s' l'
  end.

(** [l.map(f)] for a callback that may throw *)
Fixpoint mapR {A B : Type} (f : A → result B) (l : list A) : result (list B) :=
  match l with
  | [] => Ok []
  | x :: l' => y ← f x; ys ← mapR f l'; Ok (y :: ys)
  end.

(** [for (let i = 0; i < n; i++) s = body(i, s)], for a bound [n] that the
    body leaves alone *)
Definition for_upto {S : Type} (n : Z) (body : Z → S → result S) (s : S) : result S :=
  foldM (λ s i, body i s) s (seqZ 0 n).

(** ** JS arrays and numbers *)

Module JS.

(** [new Array(n).fill(v)] *)
Definition new_Array_fill {A : Type} (n : Z) (v : A) : result (list A) :=
  if n <? 0 then Err RangeError else Ok (replicate (Z.to_nat n) v).

(** [arr[i]]: [None] is [undefined] *)
Definition get {A : Type} (arr : list A) (i : Z) : option A :=
  if i <? 0 then None else arr !! Z.to_nat i.

(** [arr[i] = v].  A write past the end extends the array; the slots it
    skips are holes, which read as [undefined], and [hole] stands for them.
    A negative index names a property that is no element. *)
Definition set {A : Type} (hole : A) (arr : list A) (i : Z) (v : A) : list A :=
  if i <? 0 then arr
  else if i <? Z.of_nat (length arr) then <[Z.to_nat i := v]> arr
  else arr ++ replicate (Z.to_nat i - length arr) hole ++ [v].

(** [arr.length] *)
Definition length {A : Type} (arr : list A) : Z := Z.of_nat (List.length arr).

(** [arr.slice(0, n)] for [n >= 0] *)
Definition slice0 {A : Type} (arr : list A) (n : Z) : list A := take (Z.to_nat n) arr.

(** truthiness of a possibly undefined boolean *)
Definition truthy (v : option bool) : bool := default false v.

(** ToInt32 of a possibly undefined integer number *)
Definition ToInt32 (v : option Z) : Z :=
  match v with
  | None => 0
  | Some z => (z + 2 ^ 31) mod 2 ^ 32 - 2 ^ 31
  end.

(** [a & b] *)
Definition bitand (a b : option Z) : Z := Z.land (ToInt32 a) (ToInt32 b).

End JS.

(** ** The class *)

Inductive AutomataNeighborhood : Type := moore | von_neumann.

(** [boolean[][]] *)
Abbreviation Grid := (list (list bool)).

Record Automata : Type := mkAutomata {
  ruleset : list Z;
  neighborhood : AutomataNeighborhood;
  grid : Grid;
}.

(** [grid[0].length] *)
Definition row0_length (g : Grid) : result Z :=
  match JS.get g 0 with
  | None => Err TypeError
  | Some row => Ok (JS.length row)
  end.

(** [grid[y][x]] as a condition *)
Definition read_cell (g : Grid) (y x : Z) : result bool :=
  match JS.get g y with
  | None => Err TypeError
  | Some row => Ok (JS.truthy (JS.get row x))
  end.

(** [grid[y][x] = v] *)
Definition write_cell (g : Grid) (y x : Z) (v : bool) : result Grid :=
  match JS.get g y with
  | None => Err TypeError
  | Some row => Ok (<[Z.to_nat y := JS.set false row x v]> g)
  end.

(** [Math.random() > 1 - density], for the value [r] that [Math.random()]
    returned: the subtraction and the comparison of binary64 numbers;
    [r > t] is [t < r], false when one of them is NaN. *)
Definition seeded (r density : float) : bool :=
  PrimFloat.ltb (PrimFloat.sub 1%float density) r.

(** The constructor.  [random x y] is what [Math.random()] returns when the
    cell (x, y) is seeded. *)
Definition constructor (ruleset : list Z) (neighborhood : AutomataNeighborhood)
    (width height : Z) (initRand : bool) (density : float) (random : Z → Z → float)
    : result Automata :=
  rows ← JS.new_Array_fill height 0;
  g ← mapR (λ _, JS.new_Array_fill width false) rows;
  g ← (if initRand then
         for_upto height (λ y g,
           for_upto width (λ x g, write_cell g y x (seeded (random x y) density)) g) g
       else
         let x := width / 2 in
         let y := height / 2 in
         write_cell g y x true);
  Ok (mkAutomata ruleset neighborhood g).

Definition offsets (nb : AutomataNeighborhood) : list (Z * Z) :=
  [(0, -1); (-1, 0); (1, 0); (0, 1)] ++
  match nb with
  | moore => [(-1, -1); (1, -1); (-1, 1); (1, 1)]
  | von_neumann => []
  end.

(** [getNeighbors(x, y)]; the conjunction is evaluated left to right and
    stops at its first false operand. *)
Definition getNeighbors (a : Automata) (x y : Z) : result Z :=
  foldM (λ count (offset : Z * Z),
    let nx := x + offset.1 in
    let ny := y + offset.2 in
    if nx >=? 0 then
      w ← row0_length (grid a);
      if (nx <? w) && (ny >=? 0) && (ny <? JS.length (grid a)) then
        c ← read_cell (grid a) ny nx;
        Ok (if (c : bool) then count + 1 else count)
      else Ok count
    else Ok count) 0 (offsets (neighborhood a)).

(** [(ruleset[n] & flag) == flag] *)
Definition rule_bit (rs : list Z) (n flag : Z) : bool :=
  JS.bitand (JS.get rs n) (Some flag) =? flag.

(** [update()] *)
Definition update (a : Automata) : result Automata :=
  let g := grid a in
  rows ← JS.new_Array_fill (JS.length g) 0;
  newGrid ← mapR (λ _, w ← row0_length g; JS.new_Array_fill w false) rows;
  newGrid ← for_upto (JS.length g) (λ y newGrid,
    w ← row0_length g;
    for_upto w (λ x newGrid, write_cell newGrid y x false) newGrid) newGrid;
  newGrid ← for_upto (JS.length g) (λ y newGrid,
    w ← row0_length g;
    for_upto w (λ x newGrid,
      neighbors ← getNeighbors a x y;
      c ← read_cell g y x;
      if (c : bool) then write_cell newGrid y x (rule_bit (ruleset a) neighbors 1)
      else write_cell newGrid y x (rule_bit (ruleset a) neighbors 2)) newGrid) newGrid;
  Ok (mkAutomata (ruleset a) (neighborhood a) newGrid).

(** The loop [for (let i = 0; i < height - grid.length; i++) grid.push(row)]
    of [resize]: its bound is read again before every round, after the push
    of the round before.  [fuel] bounds the number of rounds. *)
Fixpoint push_rows (fuel : nat) (i height width : Z) (g : Grid) : result Grid :=
  if i <? height - JS.length g then
    match fuel with
    | O => Err OutOfFuel
    | S fuel' =>
        row ← JS.new_Array_fill width false;
        push_rows fuel' (i + 1) height width (g ++ [row])
    end
  else Ok g.

(** [resize(width, height)] *)
Definition resize (width height : Z) (a : Automata) : result Automata :=
  if (width <? 1) || (height <? 1) then Ok a else
  w0 ← row0_length (grid a);
  if (width =? w0) && (height =? JS.length (grid a)) then Ok a else
  g ← (if width <? w0 then
         Ok ((λ row, JS.slice0 row width) <$> grid a)
       else if width >? w0 then
         mapR (λ row,
           pad ← JS.new_Array_fill (width - JS.length row) false;
           Ok (row ++ pad)) (grid a)
       else Ok (grid a));
  g ← (if height <? JS.length g then
         Ok (JS.slice0 g height)
       else if height >? JS.length g then
         push_rows (Z.to_nat height) 0 height width g
       else Ok g);
  Ok (mkAutomata (ruleset a) (neighborhood a) g).

(** [get board()] *)
Definition board (a : Automata) : Grid := grid a.

(** ** Notions the statements use *)

(** The cell (x, y) as a reader sees it: dead outside the rows *)
Definition cell (g : Grid) (x y : Z) : bool :=
  JS.truthy (JS.get g y ≫= λ row, JS.get row x).

(** [g] has [h] rows, each of [w] cells *)
Definition has_dims (g : Grid) (w h : Z) : Prop :=
  JS.length g = h ∧ Forall (λ row, JS.length row = w) g.


(** the grid whose cell (x, y) is [f x y] *)
Definition tabulate (w h : Z) (f : Z → Z → bool) : Grid :=
  (λ y, (λ x, f x y) <$> seqZ 0 w) <$> seqZ 0 h.

(** The width and the height the loops of the class go by:
    [grid[0].length] (0 here when there is no row) and [grid.length] *)
Definition width (g : Grid) : Z :=
  match g with
  | [] => 0
  | row :: _ => JS.length row
  end.
Definition height (g : Grid) : Z := JS.length g.

(** The condition under which [getNeighbors] counts the cell (nx, ny) *)
Definition counted (g : Grid) (nx ny : Z) : bool :=
  (nx >=? 0) && ((nx <? width g) && (ny >=? 0) && (ny <? height g)) && cell g nx ny.

(** The count [getNeighbors] ends with, offset by offset *)
Definition count_over (g : Grid) (x y : Z) (offs : list (Z * Z)) : Z :=
  foldl (λ count o, if counted g (x + o.1) (y + o.2) then count + 1 else count) 0 offs.

(** What [update] writes in the cell (x, y) of the new grid *)
Definition next_state (a : Automata) (x y : Z) : bool :=
  let neighbors := count_over (grid a) x y (offsets (neighborhood a)) in
  if cell (grid a) x y then rule_bit (ruleset a) neighbors 1
  else rule_bit (ruleset a) neighbors 2.

(** The flags of a ruleset entry, "OR of 1 = s, 2 = b": SURVIVE is the bit
    of value 1, BIRTH the bit of value 2.  An entry that is not there has
    neither. *)
Inductive flag : Type := SURVIVE | BIRTH.
Definition flag_bit (f : flag) : Z :=
  match f with
  | SURVIVE => 0
  | BIRTH => 1
  end.
Definition has_flag (rs : list Z) (n : Z) (f : flag) : bool :=
  match JS.get rs n with
  | Some entry => Z.testbit entry (flag_bit f)
  | None => false
  end.

(** The neighbourhoods in the words of the specification: of the 3 x 3
    square of offsets around (0, 0), Moore keeps all but (0, 0) and von
    Neumann the orthogonal ones; a neighbour outside [0, w) x [0, h) is dead. *)
Definition square_offsets : list (Z * Z) :=
  dy ← [-1; 0; 1]; dx ← [-1; 0; 1]; [(dx, dy)].
Definition in_neighborhood (nb : AutomataNeighborhood) (o : Z * Z) : bool :=
  match nb with
  | moore => negb ((o.1 =? 0) && (o.2 =? 0))
  | von_neumann => Z.abs o.1 + Z.abs o.2 =? 1
  end.
Definition alive_at (g : Grid) (w h x y : Z) : bool :=
  if bool_decide (0 ≤ x < w ∧ 0 ≤ y < h) then cell g x y else false.
Definition live_neighbors (nb : AutomataNeighborhood) (g : Grid) (w h x y : Z) : Z :=
  Z.of_nat (length (filter (λ o, alive_at g w h (x + o.1) (y + o.2) = true)
                           (filter (λ o, in_neighborhood nb o = true) square_offsets))).
Definition max_neighbors (nb : AutomataNeighborhood) : Z :=
  match nb with
  | moore => 8
  | von_neumann => 4
  end.

(** What [resize] leaves of a row and of a grid: a row is cut or padded with
    dead cells to [w] cells; the rows are cut to [h], or rows of dead cells
    are added, one for every two rows that are missing (rounded up). *)
Definition fit_width (w : Z) (row : list bool) : list bool :=
  take (Z.to_nat w) row ++ replicate (Z.to_nat (w - JS.length row)) false.
Definition pushed_rows (h h0 : Z) : Z := (h - h0 + 1) / 2.
Definition resized (w h : Z) (g : Grid) : Grid :=
  take (Z.to_nat h) (fit_width w <$> g)
  ++ replicate (Z.to_nat (pushed_rows h (JS.length g))) (replicate (Z.to_nat w) false).
Definition resized_height (h h0 : Z) : Z :=
  if h <=? h0 then h else h0 + pushed_rows h h0.

(** ** Rulesets and automata the examples run on *)

(** B1357/S1357, the ruleset of [index.ts] *)
Definition replicator : list Z := [0; 3; 0; 3; 0; 3; 0; 3; 0].
(** the same cut to 8 entries and extended to 10 *)
Definition ruleset8 : list Z := [0; 3; 0; 3; 0; 3; 0; 3].
Definition ruleset10 : list Z := [0; 3; 0; 3; 0; 3; 0; 3; 0; 0].
(** B3/S23 *)
Definition life : list Z := [0; 0; 1; 3; 0; 0; 0; 0; 0].
(** B3/S23 cut after the entry of 2 neighbours *)
Definition life3 : list Z := [0; 0; 1].

Definition density_default : float := 0.1%float.
(** [Math.random()] returning 0 at every call, and 0.95 at every call *)
Definition never_random : Z → Z → float := λ _ _, 0%float.
Definition always_random : Z → Z → float := λ _ _, 0.95%float.

Definition seed3x3 : Grid :=
  [[false; false; false]; [false; true; false]; [false; false; false]].
Definition full3x3 : Grid :=
  [[true; true; true]; [true; true; true]; [true; true; true]].
Definition column3 : Grid := [[true]; [true]; [true]].

(** B3/S23: SURVIVE at the counts 2 and 3 only, BIRTH at the count 3 only *)
Definition B3S23 (rs : list Z) : Prop :=
  ∀ n, 0 ≤ n ≤ 8 →
    has_flag rs n SURVIVE = (n =? 2) || (n =? 3) ∧ has_flag rs n BIRTH = (n =? 3).
Definition life_rule (alive : bool) (n : Z) : bool :=
  if alive then (n =? 2) || (n =? 3) else (n =? 3).

(** The w x h grid whose live cells are the 3 of the horizontal line
    centred on (cx, cy), and the one with the vertical line *)
Definition hline (w h cx cy : Z) : Grid :=
  tabulate w h (λ x y, bool_decide (y = cy ∧ cx - 1 ≤ x ≤ cx + 1)).
Definition vline (w h cx cy : Z) : Grid :=
  tabulate w h (λ x y, bool_decide (x = cx ∧ cy - 1 ≤ y ≤ cy + 1)).

(** * The rest of the code *)

(** [n] calls of [resize(width, height)] in a row *)
Fixpoint resize_times (n : nat) (width height : Z) (a : Automata) : result Automata :=
  match n with
  | O => Ok a
  | S n' => a' ← resize width height a; resize_times n' width height a'
  end.

(** The grid seen in a mirror: left and right swapped, top and bottom swapped *)
Definition mirror_columns (g : Grid) : Grid := reverse <$> g.

Definition mirror_rows (g : Grid) : Grid := reverse g.

Module FlipElement.

Record t : Type := mk {
  state : option bool;
  xpos : Z;
  ypos : Z;
  active : bool;
}.

(** [setPosition(xpos, ypos)] *)
Definition setPosition (e : t) (xpos ypos : Z) : t :=
  mk (state e) xpos ypos (active e).

(** [new FlipElement(parent, xpos, ypos)] *)
Definition new (xpos ypos : Z) : t :=
  setPosition (mk (Some false) 0 0 false) xpos ypos.

(** [set(state)]: the element after the call and the value returned;
    [classList.toggle(name, force)] adds the class for [true], removes it for
    [false] and toggles it for [undefined]. *)
Definition set (e : t) (st : option bool) : t * bool :=
  let isChanged := negb (bool_decide (st = state e)) in
  (mk st (xpos e) (ypos e)
      (match st with
       | Some force => force
       | None => negb (active e)
       end),
   isChanged).

(** [flip()] *)
Definition flip (e : t) : t := (set e (Some (negb (JS.truthy (state e))))).1.

End FlipElement.

Module FlipBoard.

Record t : Type := mk {
  board : list FlipElement.t;
  width : Z;
  height : Z;
  displayMatrix : list (list (option bool));
  gridWidth : Z;
  gridHeight : Z;
  cellSize : Z;
}.

(** [get dimensions()] *)
Definition dimensions (b : t) : Z * Z := (gridWidth b, gridHeight b).

(** [setOne(x, y, state, updateMatrix)] *)
Definition setOne (b : t) (x y : Z) (st : option bool) (updateMatrix : bool) : result t :=
  if (x <? 0) || (x >=? gridWidth b) || (y <? 0) || (y >=? gridHeight b) then Ok b else
  let i := y * gridWidth b + x in
  match JS.get (board b) i with
  | None => Err TypeError
  | Some e =>
      let board' := <[Z.to_nat i := (FlipElement.set e st).1]> (board b) in
      if updateMatrix then
        match JS.get (displayMatrix b) x with
        | None => Err TypeError
        | Some column =>
            Ok (mk board' (width b) (height b)
                  (<[Z.to_nat x := JS.set None column y st]> (displayMatrix b))
                  (gridWidth b) (gridHeight b) (cellSize b))
        end
      else
        Ok (mk board' (width b) (height b) (displayMatrix b)
              (gridWidth b) (gridHeight b) (cellSize b))
  end.

(** [displayMatrix[x][y]] as a value: [Err] when there is no column [x] *)
Definition read_display (b : t) (x y : Z) : result (option bool) :=
  match JS.get (displayMatrix b) x with
  | None => Err TypeError
  | Some column => Ok (mjoin (JS.get column y))
  end.

(** [flipOne(x, y)] *)
Definition flipOne (b : t) (x y : Z) : result t :=
  shown ← read_display b x y;
  setOne b x y (Some (negb (JS.truthy shown))) true.

(** [setMatrix(matrix, transposed)] *)
Definition setMatrix (b : t) (matrix : Grid) (transposed : bool) : result t :=
  if transposed then
    for_upto (JS.length matrix) (λ y b,
      w ← row0_length matrix;
      for_upto w (λ x b,
        match JS.get matrix y with
        | None => Err TypeError
        | Some row => setOne b x y (JS.get row x) true
        end) b) b
  else
    for_upto (JS.length matrix) (λ x b,
      h ← row0_length matrix;
      for_upto h (λ y b,
        match JS.get matrix x with
        | None => Err TypeError
        | Some column => setOne b x y (JS.get column y) true
        end) b) b.

(** [Math.ceil(a / b)] for [b > 0] *)
Definition ceil_div (a b : Z) : Z := - (- a / b).

(** [setCellSize()]: the new [cellSize], from the [clientWidth] and the
    [clientHeight] of the parent, two integers that are not negative.  The
    quotient [width / height] is below 0.5 iff [2 * width < height] and above
    2 iff [2 * height < width], also when [height] is 0 and the quotient
    Infinity (for a [width] above 0) or NaN (for the [width] 0). *)
Definition setCellSize (clientWidth clientHeight : Z) : Z :=
  let badAspect := (2 * clientWidth <? clientHeight) || (2 * clientHeight <? clientWidth) in
  let widthCand := clientWidth / 30 in
  let heightCand := clientHeight / 30 in
  let cellSize :=
    if negb badAspect then Z.min widthCand heightCand else Z.max widthCand heightCand in
  cellSize / 10 * 10.

(** [board.pop()?.destroy()] *)
Definition pop (board : list FlipElement.t) : list FlipElement.t :=
  take (length board - 1) board.

(** [xPos < gridWidth && yPos < gridHeight && displayMatrix[xPos][yPos]] *)
Definition old_state (b : t) (xPos yPos : Z) : result (option bool) :=
  if (xPos <? gridWidth b) && (yPos <? gridHeight b) then read_display b xPos yPos
  else Ok (Some false).

(** [reformatCells()], for the [clientWidth] and the [clientHeight] the
    parent has by now.  [None]: the run leaves the integers, for a cell size
    of 0 (the new grid dimensions are Infinity or NaN) and for [i % 0]. *)
Definition reformatCells (b : t) (newWidth newHeight : Z) : option (result t) :=
  let cellSize := setCellSize newWidth newHeight in
  if (newWidth =? width b) && (newHeight =? height b) then
    Some (Ok (mk (board b) (width b) (height b) (displayMatrix b)
                (gridWidth b) (gridHeight b) cellSize))
  else if cellSize =? 0 then None
  else
    let newGridWidth := ceil_div newWidth cellSize in
    let newGridHeight := ceil_div newHeight cellSize in
    let oldCellCount := gridWidth b * gridHeight b in
    let newCellCount := newGridWidth * newGridHeight in
    let cells :=
      if oldCellCount <? newCellCount then
        for_upto (newCellCount - oldCellCount)
          (λ _ board, Ok (board ++ [FlipElement.new 0 0])) (board b)
      else if oldCellCount >? newCellCount then
        for_upto (oldCellCount - newCellCount) (λ _ board, Ok (pop board)) (board b)
      else Ok (board b) in
    match cells with
    | Err e => Some (Err e)
    | Ok board =>
        if (newGridWidth =? 0) && negb (JS.length board =? 0) then None else
        Some (
          board ← for_upto (JS.length board) (λ i board,
            let xPos := i mod newGridWidth in
            let yPos := i / newGridWidth in
            match JS.get board i with
            | None => Err TypeError
            | Some e =>
                let e := FlipElement.setPosition e xPos yPos in
                state ← old_state b xPos yPos;
                Ok (<[Z.to_nat i := (FlipElement.set e state).1]> board)
            end) board;
          displayMatrix ←
            (if newGridWidth >? gridWidth b then
               for_upto (newGridWidth - gridWidth b) (λ _ displayMatrix,
                 column ← JS.new_Array_fill (gridHeight b) (Some false);
                 Ok (displayMatrix ++ [column])) (displayMatrix b)
             else if newGridWidth <? gridWidth b then
               Ok (JS.slice0 (displayMatrix b) newGridWidth)
             else Ok (displayMatrix b));
          displayMatrix ←
            (if newGridHeight >? gridHeight b then
               for_upto newGridWidth (λ x displayMatrix,
                 match JS.get displayMatrix x with
                 | None => Err TypeError
                 | Some column =>
                     pad ← JS.new_Array_fill (newGridHeight - gridHeight b) (Some false);
                     Ok (<[Z.to_nat x := column ++ pad]> displayMatrix)
                 end) displayMatrix
             else if newGridHeight <? gridHeight b then
               for_upto newGridWidth (λ x displayMatrix,
                 match JS.get displayMatrix x with
                 | None => Err TypeError
                 | Some column =>
                     Ok (<[Z.to_nat x := JS.slice0 column newGridHeight]> displayMatrix)
                 end) displayMatrix
             else Ok displayMatrix);
          Ok (mk board newWidth newHeight displayMatrix newGridWidth newGridHeight cellSize))
    end.

(** [new FlipBoard(parent)], for the [clientWidth] and the [clientHeight]
    of the parent.  With a cell size of 0 the grid dimensions are Infinity or
    NaN, and [new Array] throws. *)
Definition constructor (clientWidth clientHeight : Z) : option (result t) :=
  let cellSize := setCellSize clientWidth clientHeight in
  if cellSize =? 0 then Some (Err RangeError) else
  let gridWidth := ceil_div clientWidth cellSize in
  let gridHeight := ceil_div clientHeight cellSize in
  let built :=
    columns ← JS.new_Array_fill gridWidth 0;
    displayMatrix ← mapR (λ _, JS.new_Array_fill gridHeight (Some false)) columns;
    board ← for_upto gridHeight (λ y board,
      for_upto gridWidth (λ x board, Ok (board ++ [FlipElement.new x y])) board) [];
    Ok (mk board clientWidth clientHeight displayMatrix gridWidth gridHeight cellSize) in
  match built with
  | Err e => Some (Err e)
  | Ok b => reformatCells b clientWidth clientHeight
  end.

End FlipBoard.

(** The callback of [setInterval] in [index.ts], one tick of the page:
    [automat.resize(...board.dimensions); board.setMatrix(automat.board, true);
    automat.update()], with [flipBoard] for the page's [board] *)
Definition tick (automat : Automata) (flipBoard : FlipBoard.t)
    : result (Automata * FlipBoard.t) :=
  let dim := FlipBoard.dimensions flipBoard in
  automat ← resize dim.1 dim.2 automat;
  flipBoard ← FlipBoard.setMatrix flipBoard (board automat) true;
  automat ← update automat;
  Ok (automat, flipBoard).

(** What the statements about the board use: the element and the entry of
    the display matrix of the cell (x, y), and a board whose parts fit its
    grid dimensions. *)
Definition element_at (b : FlipBoard.t) (x y : Z) : option FlipElement.t :=
  JS.get (FlipBoard.board b) (y * FlipBoard.gridWidth b + x).

Definition display_at (b : FlipBoard.t) (x y : Z) : option bool :=
  c ← JS.get (FlipBoard.displayMatrix b) x; mjoin (JS.get c y).

Definition well_formed (b : FlipBoard.t) : Prop :=
  0 ≤ FlipBoard.gridWidth b ∧ 0 ≤ FlipBoard.gridHeight b
  ∧ JS.length (FlipBoard.board b) = FlipBoard.gridWidth b * FlipBoard.gridHeight b
  ∧ JS.length (FlipBoard.displayMatrix b) = FlipBoard.gridWidth b
  ∧ Forall (λ column, JS.length column = FlipBoard.gridHeight b) (FlipBoard.displayMatrix b).

(** What a run of [setOne(x, y, v x y, true)] over the cells of [P] leaves
    of a board [b]: the cells of [P] show [v], the others are as in [b]. *)
Definition painted (b b' : FlipBoard.t) (P : Z → Z → Prop) (v : Z → Z → option bool) : Prop :=
  well_formed b'
  ∧ FlipBoard.gridWidth b' = FlipBoard.gridWidth b
  ∧ FlipBoard.gridHeight b' = FlipBoard.gridHeight b
  ∧ FlipBoard.width b' = FlipBoard.width b
  ∧ FlipBoard.height b' = FlipBoard.height b
  ∧ FlipBoard.cellSize b' = FlipBoard.cellSize b
  ∧ ∀ x y, 0 ≤ x < FlipBoard.gridWidth b → 0 ≤ y < FlipBoard.gridHeight b →
      (P x y →
         display_at b' x y = v x y
         ∧ element_at b' x y = (λ e, (FlipElement.set e (v x y)).1) <$> element_at b x y)
      ∧ (¬ P x y →
         display_at b' x y = display_at b x y
         ∧ element_at b' x y = element_at b x y).

(** [matrix[y][x]] and [matrix[x][y]] as [setMatrix] reads them *)
Definition row_major (matrix : Grid) (x y : Z) : option bool :=
  JS.get matrix y ≫= λ row, JS.get row x.

Definition column_major (matrix : Grid) (x y : Z) : option bool :=
  JS.get matrix x ≫= λ column, JS.get column y.

(** A board of 2 x 2 cells of 30 pixels, all off *)
Definition board2x2 : FlipBoard.t :=
  FlipBoard.mk
    [FlipElement.new 0 0; FlipElement.new 1 0; FlipElement.new 0 1; FlipElement.new 1 1]
    60 60 [[Some false; Some false]; [Some false; Some false]] 2 2 30.

(** The cell (x, y) of the board shows [c]: the display matrix holds [c], and
    so does the element, whose CSS class is set accordingly. *)
Definition shows (b : FlipBoard.t) (x y : Z) (c : bool) : Prop :=
  display_at b x y = Some c
  ∧ ∃ e, element_at b x y = Some e
       ∧ FlipElement.state e = Some c ∧ FlipElement.active e = c.

Definition same_cell (b b' : FlipBoard.t) (x y : Z) : Prop :=
  display_at b' x y = display_at b x y ∧ element_at b' x y = element_at b x y.

(** The board fits a parent of [cw] x [ch] pixels: its sizes are those of the
    parent, its cell size the one [setCellSize] computes from them, not 0,
    and its grid dimensions the quotients rounded up. *)
Definition fits (b : FlipBoard.t) (cw ch : Z) : Prop :=
  FlipBoard.width b = cw ∧ FlipBoard.height b = ch
  ∧ FlipBoard.cellSize b = FlipBoard.setCellSize cw ch
  ∧ 0 < FlipBoard.cellSize b
  ∧ FlipBoard.gridWidth b = FlipBoard.ceil_div cw (FlipBoard.cellSize b)
  ∧ FlipBoard.gridHeight b = FlipBoard.ceil_div ch (FlipBoard.cellSize b).

(** What a cell shows after [reformatCells]: what the display matrix held for
    it, and off where the old grid had no such cell *)
Definition carried_over (b : FlipBoard.t) (x y : Z) : option bool :=
  if (x <? FlipBoard.gridWidth b) && (y <? FlipBoard.gridHeight b) then display_at b x y
  else Some false.

(** An array brought from [old] to [new] elements: grown at its end with
    copies of [v], or cut *)
Definition refit {A : Type} (old new : Z) (v : A) (l : list A) : list A :=
  if new >? old then l ++ replicate (Z.to_nat (new - old)) v
  else if new <? old then take (Z.to_nat new) l
  else l.

(** The board [reformatCells] leaves for a parent of a new size, on a
    well-formed board and for a cell size that is not 0 *)
Definition reformatted (b : FlipBoard.t) (newWidth newHeight : Z) : FlipBoard.t :=
  let cellSize := FlipBoard.setCellSize newWidth newHeight in
  let newGridWidth := FlipBoard.ceil_div newWidth cellSize in
  let newGridHeight := FlipBoard.ceil_div newHeight cellSize in
  FlipBoard.mk
    (imap (λ k e,
       (FlipElement.set
          (FlipElement.setPosition e (Z.of_nat k mod newGridWidth) (Z.of_nat k / newGridWidth))
          (carried_over b (Z.of_nat k mod newGridWidth) (Z.of_nat k / newGridWidth))).1)
       (refit (FlipBoard.gridWidth b * FlipBoard.gridHeight b) (newGridWidth * newGridHeight)
          (FlipElement.new 0 0) (FlipBoard.board b)))
    newWidth newHeight
    (refit (FlipBoard.gridHeight b) newGridHeight (Some false) <$>
       refit (FlipBoard.gridWidth b) newGridWidth
         (replicate (Z.to_nat (FlipBoard.gridHeight b)) (Some false))
         (FlipBoard.displayMatrix b))
    newGridWidth newGridHeight cellSize.

(** The board [new FlipBoard(parent)] builds, for a cell size that is not 0 *)
Definition fresh (clientWidth clientHeight : Z) : FlipBoard.t :=
  let cellSize := FlipBoard.setCellSize clientWidth clientHeight in
  let gridWidth := FlipBoard.ceil_div clientWidth cellSize in
  let gridHeight := FlipBoard.ceil_div clientHeight cellSize in
  FlipBoard.mk
    ((λ i, FlipElement.new (i mod gridWidth) (i / gridWidth)) <$> seqZ 0 (gridWidth * gridHeight))
    clientWidth clientHeight
    (replicate (Z.to_nat gridWidth) (replicate (Z.to_nat gridHeight) (Some false)))
    gridWidth gridHeight cellSize.

(** The cells next to (cx, cy): the 8 of the square around it *)
Definition ring (cx cy x y : Z) : bool :=
  bool_decide (Z.abs (x - cx) ≤ 1 ∧ Z.abs (y - cy) ≤ 1 ∧ ¬ (x = cx ∧ y = cy)).

(** ** The monad and the loops *)

Section loops.
Context {S : Type}.

Lemma foldM_app {A} (body : S → A → result S) (l1 l2 : list A) (s : S) :
  foldM body s (l1 ++ l2) = s' ← foldM body s l1; foldM body s' l2.
Proof.
  revert s. induction l1 as [|x l1 IH]; intros s; simpl; [done|].
  destruct (body s x) as [s'|e]; simpl; [apply IH | done].
Qed.

Lemma foldM_inv {A} (I : nat → S → Prop) (body : S → A → result S) (l : list A) (s : S) :
  I 0%nat s →
  (∀ i x s, l !! i = Some x → I i s → ∃ s', body s x = Ok s' ∧ I (Datatypes.S i) s') →
  ∃ s', foldM body s l = Ok s' ∧ I (length l) s'.
Proof.
  revert I s. induction l as [|x l IH]; intros I s H0 Hstep; simpl.
  - eauto.
  - destruct (Hstep 0%nat x s eq_refl H0) as (s1 & -> & H1). simpl.
    apply (IH (λ i, I (Datatypes.S i))); [done|].
    intros i y s2 Hi. apply (Hstep (Datatypes.S i)). done.
Qed.

Lemma for_upto_inv (I : Z → S → Prop) (n : Z) (body : Z → S → result S) (s : S) :
  0 ≤ n →
  I 0 s →
  (∀ i s, 0 ≤ i < n → I i s → ∃ s', body i s = Ok s' ∧ I (i + 1) s') →
  ∃ s', for_upto n body s = Ok s' ∧ I n s'.
Proof.
  intros Hn H0 Hstep. unfold for_upto.
  destruct (foldM_inv (λ k, I (Z.of_nat k)) (λ s i, body i s) (seqZ 0 n) s) as (s' & Hs' & HI).
  - done.
  - intros i x s1 Hx HI. apply lookup_seqZ in Hx as [-> Hlt].
    destruct (Hstep (Z.of_nat i) s1) as (s2 & Hb & H2); [lia|done|].
    exists s2. split; [by rewrite Z.add_0_l|].
    by replace (Z.of_nat (Datatypes.S i)) with (Z.of_nat i + 1) by lia.
  - exists s'. split; [done|]. rewrite length_seqZ in HI.
    by replace (Z.of_nat (Z.to_nat n)) with n in HI by lia.
Qed.

Lemma for_upto_nil (n : Z) (body : Z → S → result S) (s : S) :
  n ≤ 0 → for_upto n body s = Ok s.
Proof. intros. unfold for_upto. by rewrite seqZ_nil. Qed.

Lemma mapR_const {A} (f : A → result S) (v : S) (l : list A) :
  (∀ x, x ∈ l → f x = Ok v) → mapR f l = Ok (replicate (length l) v).
Proof.
  induction l as [|x l IH]; intros Hf; simpl; [done|].
  rewrite Hf by left. simpl. rewrite IH; [done|].
  intros y Hy. apply Hf. by right.
Qed.

Lemma mapR_fmap {A} (f : A → result S) (g : A → S) (l : list A) :
  (∀ x, x ∈ l → f x = Ok (g x)) → mapR f l = Ok (g <$> l).
Proof.
  induction l as [|x l IH]; intros Hf; simpl; [done|].
  rewrite Hf by left. simpl. rewrite IH; [done|].
  intros y Hy. apply Hf. by right.
Qed.

End loops.

(** ** JS arrays *)

Section arrays.
Context {A : Type}.
Implicit Types (arr : list A) (i n : Z).

Lemma new_Array_fill_Ok n (v : A) :
  0 ≤ n → JS.new_Array_fill n v = Ok (replicate (Z.to_nat n) v).
Proof. intros. unfold JS.new_Array_fill. by rewrite (proj2 (Z.ltb_ge n 0)). Qed.

Lemma new_Array_fill_Err n (v : A) :
  n < 0 → JS.new_Array_fill n v = Err RangeError.
Proof. intros. unfold JS.new_Array_fill. by rewrite (proj2 (Z.ltb_lt n 0)). Qed.

Lemma get_in arr i :
  0 ≤ i → JS.get arr i = arr !! Z.to_nat i.
Proof. intros. unfold JS.get. by rewrite (proj2 (Z.ltb_ge i 0)). Qed.

Lemma get_neg arr i : i < 0 → JS.get arr i = None.
Proof. intros. unfold JS.get. by rewrite (proj2 (Z.ltb_lt i 0)). Qed.

Lemma get_beyond arr i : JS.length arr ≤ i → JS.get arr i = None.
Proof.
  intros H. unfold JS.get, JS.length in *. destruct (i <? 0); [done|].
  apply lookup_ge_None. lia.
Qed.

Lemma get_is_Some arr i : 0 ≤ i < JS.length arr → is_Some (JS.get arr i).
Proof.
  intros H. rewrite get_in by lia. apply lookup_lt_is_Some.
  unfold JS.length in H. lia.
Qed.

Lemma get_Some_lt arr i (v : A) : JS.get arr i = Some v → 0 ≤ i < JS.length arr.
Proof.
  unfold JS.get, JS.length. destruct (Z.ltb_spec i 0); [done|].
  intros Hv%lookup_lt_Some. lia.
Qed.

Lemma set_in (hole : A) arr i (v : A) :
  0 ≤ i < JS.length arr → JS.set hole arr i v = <[Z.to_nat i := v]> arr.
Proof.
  intros H. unfold JS.set, JS.length in *.
  rewrite (proj2 (Z.ltb_ge i 0)) by lia.
  by rewrite (proj2 (Z.ltb_lt i _)) by lia.
Qed.

Lemma set_push (hole : A) arr (v : A) :
  JS.set hole arr (JS.length arr) v = arr ++ [v].
Proof.
  unfold JS.set, JS.length.
  rewrite (proj2 (Z.ltb_ge _ 0)) by lia.
  rewrite Z.ltb_irrefl.
  replace (Z.to_nat (Z.of_nat (length arr)) - length arr)%nat with 0%nat by lia.
  done.
Qed.

Lemma length_replicate_Z n (v : A) :
  0 ≤ n → JS.length (replicate (Z.to_nat n) v) = n.
Proof. intros. unfold JS.length. rewrite length_replicate. lia. Qed.

End arrays.

(** ** Grids *)

Lemma has_dims_row (g : Grid) (w h : Z) (k : nat) (row : list bool) :
  has_dims g w h → g !! k = Some row → JS.length row = w.
Proof. intros [_ Hrows] Hk. by eapply (proj1 (Forall_lookup _ g) Hrows). Qed.


Lemma row0_length_cons (row : list bool) (g : Grid) :
  row0_length (row :: g) = Ok (JS.length row).
Proof. done. Qed.

Lemma row0_length_dims (g : Grid) (w h : Z) :
  has_dims g w h → 1 ≤ h → row0_length g = Ok w.
Proof.
  intros [Hlen Hrows] Hh. destruct g as [|row g].
  - unfold JS.length in Hlen. simpl in Hlen. lia.
  - rewrite row0_length_cons. f_equal. by inversion Hrows.
Qed.

Lemma has_dims_replicate (w h : Z) (v : bool) :
  0 ≤ w → 0 ≤ h →
  has_dims (replicate (Z.to_nat h) (replicate (Z.to_nat w) v)) w h.
Proof.
  intros Hw Hh. split.
  - by apply length_replicate_Z.
  - apply Forall_replicate. by apply length_replicate_Z.
Qed.

Lemma tabulate_dims (w h : Z) (f : Z → Z → bool) :
  0 ≤ w → 0 ≤ h → has_dims (tabulate w h f) w h.
Proof.
  intros Hw Hh. unfold tabulate, has_dims, JS.length. split.
  - rewrite length_fmap, length_seqZ. lia.
  - apply Forall_fmap, Forall_forall. intros y _. simpl.
    rewrite length_fmap, length_seqZ. lia.
Qed.

Lemma cell_tabulate (w h : Z) (f : Z → Z → bool) (x y : Z) :
  0 ≤ x < w → 0 ≤ y < h → cell (tabulate w h f) x y = f x y.
Proof.
  intros Hx Hy. unfold cell, tabulate. rewrite !get_in by lia.
  rewrite list_lookup_fmap, lookup_seqZ_lt by lia. simpl.
  rewrite get_in by lia.
  rewrite list_lookup_fmap, lookup_seqZ_lt by lia. simpl.
  f_equal; lia.
Qed.

Lemma cell_outside (g : Grid) (w h x y : Z) :
  has_dims g w h → ¬ (0 ≤ x < w ∧ 0 ≤ y < h) → cell g x y = false.
Proof.
  intros Hd Hout. unfold cell.
  destruct (JS.get g y) as [row|] eqn:Hy; simpl; [|done].
  destruct (JS.get row x) as [c|] eqn:Hx; simpl; [|done].
  apply get_Some_lt in Hx. pose proof (get_Some_lt _ _ _ Hy) as Hy'.
  unfold JS.get in Hy. destruct (y <? 0); [done|].
  rewrite (has_dims_row _ _ _ _ _ Hd Hy) in Hx. destruct Hd as [<- _]. exfalso. lia.
Qed.

(** Two grids of the same dimensions with the same cells are the same grid. *)
Lemma grid_ext (g1 g2 : Grid) (w h : Z) :
  has_dims g1 w h → has_dims g2 w h →
  (∀ x y, 0 ≤ x < w → 0 ≤ y < h → cell g1 x y = cell g2 x y) →
  g1 = g2.
Proof.
  intros Hd1 Hd2 Hc. apply list_eq_same_length with (Z.to_nat h).
  - destruct Hd2 as [H _]. unfold JS.length in H. lia.
  - destruct Hd1 as [H _]. unfold JS.length in H. lia.
  - intros j r1 r2 Hj H1 H2.
    pose proof (has_dims_row _ _ _ _ _ Hd1 H1) as L1.
    pose proof (has_dims_row _ _ _ _ _ Hd2 H2) as L2.
    apply list_eq_same_length with (Z.to_nat w).
    + unfold JS.length in L2. lia.
    + unfold JS.length in L1. lia.
    + intros i c1 c2 Hi Hc1 Hc2.
      specialize (Hc (Z.of_nat i) (Z.of_nat j)). unfold cell in Hc.
      rewrite !get_in in Hc by lia. rewrite !Nat2Z.id in Hc.
      rewrite H1, H2 in Hc. simpl in Hc.
      rewrite !get_in in Hc by lia. rewrite !Nat2Z.id in Hc.
      rewrite Hc1, Hc2 in Hc. simpl in Hc. apply Hc; lia.
Qed.

Lemma write_cell_in (g : Grid) (y x : Z) (v : bool) (row : list bool) :
  0 ≤ y → g !! Z.to_nat y = Some row → 0 ≤ x < JS.length row →
  write_cell g y x v = Ok (<[Z.to_nat y := <[Z.to_nat x := v]> row]> g).
Proof.
  intros Hy Hrow Hx. unfold write_cell. rewrite get_in, Hrow by done.
  by rewrite set_in.
Qed.

(** The inner loop of a fill: row [y] is overwritten cell by cell. *)
Lemma fill_row (g : Grid) (y w : Z) (row : list bool)
    (body : Z → Grid → result Grid) (v : Z → bool) :
  0 ≤ y → g !! Z.to_nat y = Some row → JS.length row = w →
  (∀ x s, 0 ≤ x < w → body x s = write_cell s y x (v x)) →
  for_upto w body g = Ok (<[Z.to_nat y := v <$> seqZ 0 w]> g).
Proof.
  intros Hy Hrow Hw Hbody.
  assert (Hlt : (Z.to_nat y < length g)%nat) by (by eapply lookup_lt_Some).
  assert (Hlen : length row = Z.to_nat w) by (unfold JS.length in Hw; lia).
  destruct (for_upto_inv
    (λ x s, s = <[Z.to_nat y := (v <$> seqZ 0 x) ++ drop (Z.to_nat x) row]> g)
    w body g) as (s' & -> & ->).
  - unfold JS.length in Hw. lia.
  - simpl. by rewrite list_insert_id.
  - intros x s Hx ->. eexists. split; [|reflexivity].
    rewrite Hbody by done.
    destruct (lookup_lt_is_Some_2 row (Z.to_nat x)) as [c Hc]; [lia|].
    assert (Hpre : length (v <$> seqZ 0 x) = Z.to_nat x)
      by (by rewrite length_fmap, length_seqZ).
    rewrite (write_cell_in _ _ _ _ ((v <$> seqZ 0 x) ++ drop (Z.to_nat x) row)); [|done| |].
    + rewrite list_insert_insert_eq. do 2 f_equal.
      rewrite insert_app_r_alt by lia. rewrite Hpre, Nat.sub_diag.
      rewrite (drop_S _ _ _ Hc). simpl.
      rewrite (seqZ_app 0 x 1), fmap_app by lia.
      rewrite <- app_assoc. simpl.
      by replace (Z.to_nat (x + 1)) with (Datatypes.S (Z.to_nat x)) by lia.
    + by rewrite list_lookup_insert_eq.
    + unfold JS.length. rewrite length_app, Hpre, length_drop. lia.
  - do 2 f_equal. rewrite drop_ge by lia. by rewrite app_nil_r.
Qed.

(** The outer loop of a fill: the rows are overwritten one by one. *)
Lemma fill_rows (g : Grid) (w h : Z) (body : Z → Grid → result Grid) (v : Z → Z → bool) :
  has_dims g w h →
  (∀ y s row, 0 ≤ y < h → s !! Z.to_nat y = Some row → JS.length row = w →
     body y s = Ok (<[Z.to_nat y := (λ x, v x y) <$> seqZ 0 w]> s)) →
  for_upto h body g = Ok (tabulate w h v).
Proof.
  intros Hd Hbody.
  assert (Hlen : length g = Z.to_nat h)
    by (destruct Hd as [H _]; unfold JS.length in H; lia).
  assert (Hh : 0 ≤ h) by (destruct Hd as [H _]; unfold JS.length in H; lia).
  destruct (for_upto_inv
    (λ y s, s = tabulate w y v ++ drop (Z.to_nat y) g) h body g) as (s' & -> & ->).
  - done.
  - done.
  - intros y s Hy ->. eexists. split; [|reflexivity].
    destruct (lookup_lt_is_Some_2 g (Z.to_nat y)) as [row Hrow]; [lia|].
    assert (Hpre : length (tabulate w y v) = Z.to_nat y)
      by (unfold tabulate; by rewrite length_fmap, length_seqZ).
    rewrite (Hbody y _ row); [| lia | | by eapply has_dims_row].
    + rewrite insert_app_r_alt by lia. rewrite Hpre, Nat.sub_diag.
      rewrite (drop_S _ _ _ Hrow). simpl.
      unfold tabulate at 2. rewrite (seqZ_app 0 y 1), fmap_app by lia.
      rewrite <- app_assoc. simpl.
      by replace (Z.to_nat (y + 1)) with (Datatypes.S (Z.to_nat y)) by lia.
    + rewrite lookup_app_r by lia. rewrite Hpre, Nat.sub_diag.
      by rewrite (drop_S _ _ _ Hrow).
  - f_equal. rewrite drop_ge by lia. by rewrite app_nil_r.
Qed.

(** The two nested loops of a fill compute the table of [v]. *)
Lemma fill_loops (g : Grid) (w h : Z) (body : Z → Z → Grid → result Grid) (v : Z → Z → bool) :
  has_dims g w h →
  (∀ x y s, 0 ≤ x < w → 0 ≤ y < h → body y x s = write_cell s y x (v x y)) →
  for_upto h (λ y s, for_upto w (body y) s) g = Ok (tabulate w h v).
Proof.
  intros Hd Hbody. apply fill_rows; [done|].
  intros y s row Hy Hrow Hw.
  apply (fill_row s y w row (body y) (λ x, v x y)); [lia|done|done|].
  intros x s' Hx. by apply Hbody.
Qed.

(** ** Neighbour counting *)

Lemma width_row0_length (g : Grid) : g ≠ [] → row0_length g = Ok (width g).
Proof. destruct g; [done|]. intros _. apply row0_length_cons. Qed.

Lemma width_dims (g : Grid) (w h : Z) : has_dims g w h → 1 ≤ h → width g = w.
Proof.
  intros Hd Hh. pose proof (row0_length_dims _ _ _ Hd Hh) as H.
  destruct g; [done|]. rewrite row0_length_cons in H. by injection H.
Qed.

Lemma read_cell_in (g : Grid) (y x : Z) :
  0 ≤ y < height g → read_cell g y x = Ok (cell g x y).
Proof.
  intros Hy. unfold read_cell, cell.
  destruct (get_is_Some g y Hy) as [row ->]. done.
Qed.

Lemma getNeighbors_round (g : Grid) (nx ny count : Z) :
  g ≠ [] →
  (if nx >=? 0 then
     w ← row0_length g;
     if (nx <? w) && (ny >=? 0) && (ny <? JS.length g) then
       c ← read_cell g ny nx;
       Ok (if (c : bool) then count + 1 else count)
     else Ok count
   else Ok count)
  = Ok (if counted g nx ny then count + 1 else count).
Proof.
  intros Hg. unfold counted, height.
  destruct (nx >=? 0); simpl; [|done].
  rewrite width_row0_length by done. simpl.
  destruct (nx <? width g); simpl; [|done].
  destruct (Z.geb_spec ny 0); simpl; [|done].
  destruct (Z.ltb_spec ny (JS.length g)); simpl; [|done].
  rewrite read_cell_in by (unfold height; lia). done.
Qed.

Lemma getNeighbors_loop (g : Grid) (x y : Z) (offs : list (Z * Z)) (n : Z) :
  g ≠ [] →
  foldM (λ count (offset : Z * Z),
    let nx := x + offset.1 in
    let ny := y + offset.2 in
    if nx >=? 0 then
      w ← row0_length g;
      if (nx <? w) && (ny >=? 0) && (ny <? JS.length g) then
        c ← read_cell g ny nx;
        Ok (if (c : bool) then count + 1 else count)
      else Ok count
    else Ok count) n offs
  = Ok (foldl (λ count o, if counted g (x + o.1) (y + o.2) then count + 1 else count) n offs).
Proof.
  intros Hg. revert n. induction offs as [|o offs IH]; intros n; [done|].
  cbn [foldM foldl]. cbv zeta. rewrite getNeighbors_round by done. apply IH.
Qed.

(** [getNeighbors] returns, and what it returns, on a grid with a row. *)
Lemma getNeighbors_count (a : Automata) (x y : Z) :
  grid a ≠ [] →
  getNeighbors a x y = Ok (count_over (grid a) x y (offsets (neighborhood a))).
Proof. intros Hg. by apply getNeighbors_loop. Qed.

Lemma foldl_count_bounds (P : Z * Z → bool) (offs : list (Z * Z)) (n : Z) :
  n ≤ foldl (λ count o, if P o then count + 1 else count) n offs ≤ n + Z.of_nat (length offs).
Proof.
  revert n. induction offs as [|o offs IH]; intros n; simpl; [lia|].
  pose proof (IH (n + 1)). pose proof (IH n). destruct (P o); lia.
Qed.

Lemma count_over_bounds (g : Grid) (x y : Z) (nb : AutomataNeighborhood) :
  0 ≤ count_over g x y (offsets nb) ≤ max_neighbors nb.
Proof.
  unfold count_over.
  pose proof (foldl_count_bounds (λ o, counted g (x + o.1) (y + o.2)) (offsets nb) 0) as H.
  destruct nb; simpl in *; lia.
Qed.

(** ** Ruleset entries *)

Lemma land_pow2 (a k : Z) :
  0 ≤ k → Z.land a (2 ^ k) = if Z.testbit a k then 2 ^ k else 0.
Proof.
  intros Hk. apply Z.bits_inj'. intros j Hj.
  rewrite Z.land_spec, Z.pow2_bits_eqb by done.
  destruct (Z.eqb_spec k j) as [->|Hne].
  - rewrite andb_true_r. destruct (Z.testbit a j) eqn:Ha.
    + by rewrite Z.pow2_bits_true.
    + by rewrite Z.bits_0.
  - rewrite andb_false_r. destruct (Z.testbit a k).
    + by rewrite Z.pow2_bits_false.
    + by rewrite Z.bits_0.
Qed.

Lemma ToInt32_low_bits (e k : Z) :
  0 ≤ k < 32 → Z.testbit (JS.ToInt32 (Some e)) k = Z.testbit e k.
Proof.
  intros Hk. unfold JS.ToInt32.
  rewrite <- (Z.mod_pow2_bits_low _ 32 k) by lia.
  rewrite <- (Z.mod_pow2_bits_low e 32 k) by lia.
  f_equal. rewrite Zminus_mod_idemp_l. f_equal. lia.
Qed.

Lemma rule_bit_flag (rs : list Z) (n : Z) (f : flag) :
  rule_bit rs n (2 ^ flag_bit f) = has_flag rs n f.
Proof.
  unfold rule_bit, has_flag, JS.bitand.
  assert (Hf : 0 ≤ flag_bit f < 32) by (destruct f; simpl; lia).
  replace (JS.ToInt32 (Some (2 ^ flag_bit f))) with (2 ^ flag_bit f)
    by (destruct f; reflexivity).
  rewrite land_pow2 by lia.
  destruct (JS.get rs n) as [e|].
  - rewrite ToInt32_low_bits by done.
    destruct (Z.testbit e (flag_bit f)); [apply Z.eqb_refl|].
    destruct f; reflexivity.
  - simpl. rewrite Z.bits_0. destruct f; reflexivity.
Qed.

Lemma rule_bit_survive (rs : list Z) (n : Z) : rule_bit rs n 1 = has_flag rs n SURVIVE.
Proof. apply (rule_bit_flag rs n SURVIVE). Qed.

Lemma rule_bit_birth (rs : list Z) (n : Z) : rule_bit rs n 2 = has_flag rs n BIRTH.
Proof. apply (rule_bit_flag rs n BIRTH). Qed.

(** ** [update] *)

(** The loops of [update] over a grid [ng] of the dimensions of [g]. *)
Lemma fill_loops_of (g ng : Grid) (body : Z → Z → Grid → result Grid) (v : Z → Z → bool) :
  g ≠ [] →
  has_dims ng (width g) (height g) →
  (∀ x y s, 0 ≤ x < width g → 0 ≤ y < height g → body y x s = write_cell s y x (v x y)) →
  for_upto (JS.length g) (λ y s, w ← row0_length g; for_upto w (body y) s) ng
  = Ok (tabulate (width g) (height g) v).
Proof.
  intros Hg Hd Hbody. apply (fill_rows ng (width g) (height g)); [done|].
  intros y s row Hy Hrow Hw. rewrite width_row0_length by done. simpl.
  apply (fill_row s y (width g) row (body y) (λ x, v x y)); [lia|done|done|].
  intros x s' Hx. by apply Hbody.
Qed.

Lemma update_round (a : Automata) (x y : Z) (s : Grid) :
  grid a ≠ [] → 0 ≤ y < height (grid a) →
  (neighbors ← getNeighbors a x y;
   c ← read_cell (grid a) y x;
   if (c : bool) then write_cell s y x (rule_bit (ruleset a) neighbors 1)
   else write_cell s y x (rule_bit (ruleset a) neighbors 2))
  = write_cell s y x (next_state a x y).
Proof.
  intros Hg Hy. rewrite getNeighbors_count by done. simpl.
  rewrite read_cell_in by done. simpl. unfold next_state.
  by destruct (cell (grid a) x y).
Qed.

(** [update] returns for every automaton, and the grid it leaves is the
    table of [next_state] over the grid it found. *)
Lemma update_eq (a : Automata) :
  update a = Ok (mkAutomata (ruleset a) (neighborhood a)
                   (tabulate (width (grid a)) (height (grid a)) (next_state a))).
Proof.
  destruct (decide (grid a = [])) as [Hnil|Hg].
  - destruct a as [rs nb g]. simpl in Hnil. subst g. reflexivity.
  - unfold update.
    assert (Hh : 0 ≤ JS.length (grid a)) by (unfold JS.length; lia).
    assert (Hw : 0 ≤ width (grid a))
      by (destruct (grid a); unfold width, JS.length; lia).
    rewrite new_Array_fill_Ok by done. simpl.
    rewrite (mapR_const _ (replicate (Z.to_nat (width (grid a))) false)).
    2:{ intros _ _. rewrite width_row0_length by done. simpl.
        by apply new_Array_fill_Ok. }
    simpl. rewrite length_replicate.
    rewrite (fill_loops_of (grid a) _ _ (λ _ _, false)); [|done| |done].
    2:{ by apply has_dims_replicate. }
    simpl.
    rewrite (fill_loops_of (grid a) _ _ (next_state a)); [done|done| |].
    + by apply tabulate_dims.
    + intros x y s Hx Hy. by apply update_round.
Qed.

Lemma update_grid_dims (a a' : Automata) :
  update a = Ok a' → has_dims (grid a') (width (grid a)) (height (grid a)).
Proof.
  rewrite update_eq. intros [= <-]. simpl. apply tabulate_dims.
  - destruct (grid a); unfold width, JS.length; lia.
  - unfold height, JS.length; lia.
Qed.

(** ** The constructor *)

Section construction.
Variables (rs : list Z) (nb : AutomataNeighborhood) (w h : Z).
Variables (density : float) (random : Z → Z → float).

(** the grid after the allocation, before the seeding *)
Lemma allocation :
  0 ≤ w → 0 ≤ h →
  (rows ← JS.new_Array_fill h 0; mapR (λ _, JS.new_Array_fill w false) rows)
  = Ok (replicate (Z.to_nat h) (replicate (Z.to_nat w) false)).
Proof.
  intros Hw Hh. rewrite (new_Array_fill_Ok h 0) by done. simpl.
  rewrite (mapR_const _ (replicate (Z.to_nat w) false)).
  - by rewrite length_replicate.
  - intros _ _. by apply new_Array_fill_Ok.
Qed.

Lemma constructor_height_negative (initRand : bool) :
  h < 0 → constructor rs nb w h initRand density random = Err RangeError.
Proof. intros Hh. unfold constructor. by rewrite (new_Array_fill_Err h 0). Qed.

Lemma constructor_width_negative (initRand : bool) :
  1 ≤ h → w < 0 → constructor rs nb w h initRand density random = Err RangeError.
Proof.
  intros Hh Hw. unfold constructor. rewrite (new_Array_fill_Ok h 0) by lia. simpl.
  destruct (Z.to_nat h) as [|n] eqn:Hn; [lia|]. simpl.
  by rewrite new_Array_fill_Err.
Qed.

Lemma constructor_height_zero_seed :
  h = 0 → constructor rs nb w h false density random = Err TypeError.
Proof. intros ->. reflexivity. Qed.

Lemma constructor_height_zero_random :
  h = 0 → constructor rs nb w h true density random = Ok (mkAutomata rs nb []).
Proof. intros ->. reflexivity. Qed.

Lemma constructor_random :
  0 ≤ w → 1 ≤ h →
  constructor rs nb w h true density random
  = Ok (mkAutomata rs nb (tabulate w h (λ x y, seeded (random x y) density))).
Proof.
  intros Hw Hh. unfold constructor.
  pose proof (allocation Hw ltac:(lia)) as Ha. simpl in Ha.
  destruct (JS.new_Array_fill h 0) as [rows|]; [|done]. simpl in *.
  rewrite Ha. simpl.
  rewrite (fill_loops _ w h _ (λ x y, seeded (random x y) density)); [done| |done].
  apply has_dims_replicate; lia.
Qed.

Lemma constructor_seed :
  1 ≤ w → 1 ≤ h →
  constructor rs nb w h false density random
  = Ok (mkAutomata rs nb
          (<[Z.to_nat (h / 2) := <[Z.to_nat (w / 2) := true]> (replicate (Z.to_nat w) false)]>
             (replicate (Z.to_nat h) (replicate (Z.to_nat w) false)))).
Proof.
  intros Hw Hh. unfold constructor.
  pose proof (allocation ltac:(lia) ltac:(lia)) as Ha. simpl in Ha.
  destruct (JS.new_Array_fill h 0) as [rows|]; [|done]. simpl in *.
  rewrite Ha. simpl.
  assert (0 ≤ h / 2 < h) by (split; [apply Z.div_pos|apply Z.div_lt_upper_bound]; lia).
  assert (0 ≤ w / 2 < w) by (split; [apply Z.div_pos|apply Z.div_lt_upper_bound]; lia).
  rewrite (write_cell_in _ _ _ _ (replicate (Z.to_nat w) false)); [done|lia| |].
  - apply lookup_replicate_2. lia.
  - rewrite length_replicate_Z; lia.
Qed.

(** With no column, the write of the seed extends its row. *)
Lemma constructor_seed_no_column :
  w = 0 → 1 ≤ h →
  constructor rs nb w h false density random
  = Ok (mkAutomata rs nb (<[Z.to_nat (h / 2) := [true]]> (replicate (Z.to_nat h) []))).
Proof.
  intros Hw Hh. unfold constructor.
  pose proof (allocation ltac:(lia) ltac:(lia)) as Ha. simpl in Ha.
  destruct (JS.new_Array_fill h 0) as [rows|]; [|done]. simpl in *.
  rewrite Ha. simpl.
  assert (0 ≤ h / 2 < h) by (split; [apply Z.div_pos|apply Z.div_lt_upper_bound]; lia).
  unfold write_cell. rewrite get_in by lia.
  rewrite lookup_replicate_2 by lia. by rewrite Hw.
Qed.

Lemma seed_grid_dims :
  1 ≤ w → 1 ≤ h →
  has_dims (<[Z.to_nat (h / 2) := <[Z.to_nat (w / 2) := true]> (replicate (Z.to_nat w) false)]>
              (replicate (Z.to_nat h) (replicate (Z.to_nat w) false))) w h.
Proof.
  intros Hw Hh. split.
  - unfold JS.length. rewrite length_insert, length_replicate. lia.
  - apply Forall_insert.
    + apply Forall_replicate. apply length_replicate_Z. lia.
    + unfold JS.length. rewrite length_insert, length_replicate. lia.
Qed.

(** The constructor returns on positive dimensions, whatever the ruleset,
    and the grid it makes has these dimensions. *)
Lemma constructor_positive (initRand : bool) :
  1 ≤ w → 1 ≤ h →
  ∃ g, constructor rs nb w h initRand density random = Ok (mkAutomata rs nb g)
       ∧ has_dims g w h.
Proof.
  intros Hw Hh. destruct initRand.
  - eexists. split; [apply constructor_random; lia|]. apply tabulate_dims; lia.
  - eexists. split; [by apply constructor_seed|]. by apply seed_grid_dims.
Qed.

(** The only errors of the constructor are those of the runtime. *)
Lemma constructor_errors (initRand : bool) (e : error) :
  constructor rs nb w h initRand density random = Err e →
  e = RangeError ∨ e = TypeError.
Proof.
  destruct (Z.lt_trichotomy h 0) as [Hh|[Hh|Hh]].
  - rewrite constructor_height_negative by done. intros [= <-]. by left.
  - destruct initRand.
    + by rewrite constructor_height_zero_random.
    + rewrite constructor_height_zero_seed by done. intros [= <-]. by right.
  - destruct (Z.lt_trichotomy w 0) as [Hw|[Hw|Hw]].
    + rewrite constructor_width_negative by lia. intros [= <-]. by left.
    + destruct initRand.
      * by rewrite constructor_random by lia.
      * by rewrite constructor_seed_no_column by lia.
    + destruct (constructor_positive initRand) as (g & -> & _); [lia|lia|done].
Qed.

End construction.

(** ** [resize] *)

Lemma resize_ignored (width height : Z) (a : Automata) :
  width < 1 ∨ height < 1 → resize width height a = Ok a.
Proof.
  intros H. unfold resize.
  destruct (Z.ltb_spec width 1), (Z.ltb_spec height 1); simpl; try done. lia.
Qed.

Lemma resize_same (a : Automata) :
  resize (width (grid a)) (height (grid a)) a = Ok a.
Proof.
  destruct (decide (grid a = [])) as [Hg|Hg].
  - apply resize_ignored. rewrite Hg. right. unfold height, JS.length. simpl. lia.
  - unfold resize. destruct (_ || _); [done|].
    rewrite width_row0_length by done. simpl. unfold height.
    by rewrite !Z.eqb_refl.
Qed.

(** The loop that adds rows stops within its budget, short of the height it
    was asked for: every round adds one row and one to [i]. *)
Lemma push_rows_eq (fuel : nat) (i h w : Z) (g : Grid) :
  0 ≤ w → 0 ≤ i → h - JS.length g - i ≤ Z.of_nat fuel →
  push_rows fuel i h w g
  = Ok (g ++ replicate (Z.to_nat ((h - JS.length g - i + 1) / 2)) (replicate (Z.to_nat w) false)).
Proof.
  intros Hw. revert i g. induction fuel as [|fuel IH]; intros i g Hi Hfuel.
  - simpl. rewrite (proj2 (Z.ltb_ge i (h - JS.length g))) by lia.
    replace (Z.to_nat _) with 0%nat; [by rewrite app_nil_r|].
    assert ((h - JS.length g - i + 1) / 2 ≤ 0); [|lia].
    apply Z.lt_succ_r, Z.div_lt_upper_bound; lia.
  - simpl. destruct (Z.ltb_spec i (h - JS.length g)) as [Hlt|Hge].
    + rewrite new_Array_fill_Ok by done. simpl.
      assert (Hlen : JS.length (g ++ [replicate (Z.to_nat w) false]) = JS.length g + 1)
        by (unfold JS.length; rewrite length_app; simpl; lia).
      rewrite IH by lia. rewrite Hlen. f_equal. rewrite <- app_assoc. f_equal.
      replace ((h - JS.length g - i + 1) / 2) with ((h - (JS.length g + 1) - (i + 1) + 1) / 2 + 1).
      * rewrite Z2Nat.inj_add; [|apply Z.div_pos; lia|lia].
        rewrite Nat.add_comm. done.
      * rewrite <- Z.div_add by lia. f_equal. lia.
    + replace (Z.to_nat _) with 0%nat; [by rewrite app_nil_r|].
      assert ((h - JS.length g - i + 1) / 2 ≤ 0); [|lia].
      apply Z.lt_succ_r, Z.div_lt_upper_bound; lia.
Qed.

Lemma fit_width_same (w : Z) (row : list bool) :
  JS.length row = w → fit_width w row = row.
Proof.
  intros <-. unfold fit_width, JS.length.
  rewrite Z.sub_diag, Nat2Z.id, take_ge by lia. apply app_nil_r.
Qed.

Lemma fit_width_cut (w : Z) (row : list bool) :
  w ≤ JS.length row → fit_width w row = JS.slice0 row w.
Proof.
  intros H. unfold fit_width, JS.slice0.
  replace (Z.to_nat (w - JS.length row)) with 0%nat by lia. apply app_nil_r.
Qed.

Lemma fit_width_pad (w : Z) (row : list bool) :
  JS.length row ≤ w → fit_width w row = row ++ replicate (Z.to_nat (w - JS.length row)) false.
Proof.
  intros H. unfold fit_width. rewrite take_ge; [done|]. unfold JS.length in H. lia.
Qed.

Lemma length_fit_width (w : Z) (row : list bool) :
  0 ≤ w → JS.length (fit_width w row) = w.
Proof.
  intros Hw. unfold fit_width, JS.length.
  rewrite length_app, length_take, length_replicate. lia.
Qed.

(** The width adjustment of [resize], on a rectangular grid *)
Lemma resize_width_step (w w0 h0 : Z) (g : Grid) :
  has_dims g w0 h0 → 1 ≤ w →
  (if w <? w0 then Ok ((λ row, JS.slice0 row w) <$> g)
   else if w >? w0 then
     mapR (λ row, pad ← JS.new_Array_fill (w - JS.length row) false; Ok (row ++ pad)) g
   else Ok g)
  = Ok (fit_width w <$> g).
Proof.
  intros [_ Hrows] Hw.
  destruct (Z.ltb_spec w w0) as [Hlt|Hge].
  - f_equal. apply Forall_fmap_ext. eapply Forall_impl; [exact Hrows|].
    intros row Hrow. simpl in *. rewrite fit_width_cut; [done|lia].
  - destruct (Z.gtb_spec w w0) as [Hgt|Hle].
    + apply mapR_fmap. intros row Hin.
      pose proof (proj1 (Forall_forall _ _) Hrows row Hin) as Hrow. simpl in Hrow.
      rewrite new_Array_fill_Ok by lia. simpl.
      rewrite fit_width_pad; [done|lia].
    + f_equal. rewrite <- (list_fmap_id g) at 1.
      apply Forall_fmap_ext. eapply Forall_impl; [exact Hrows|].
      intros row Hrow. simpl in *. rewrite fit_width_same; [done|lia].
Qed.

(** [resize] returns on a rectangular grid with a row, and what it leaves. *)
Lemma resize_eq (w h w0 h0 : Z) (a : Automata) :
  has_dims (grid a) w0 h0 → 1 ≤ h0 → 1 ≤ w → 1 ≤ h →
  resize w h a = Ok (mkAutomata (ruleset a) (neighborhood a) (resized w h (grid a))).
Proof.
  intros Hd Hh0 Hw Hh. unfold resize.
  rewrite (proj2 (Z.ltb_ge w 1)), (proj2 (Z.ltb_ge h 1)) by lia. simpl.
  rewrite (row0_length_dims _ _ _ Hd Hh0). simpl.
  pose proof Hd as [Hlen Hrows].
  assert (Hlen1 : JS.length (fit_width w <$> grid a) = h0)
    by (unfold JS.length in *; by rewrite length_fmap).
  destruct (Z.eqb_spec w w0) as [->|Hne]; simpl;
    [destruct (Z.eqb_spec h (JS.length (grid a))) as [->|Hne]|]; simpl.
  - destruct a as [rs nb g]. simpl in *. do 2 f_equal. unfold resized, pushed_rows.
    replace (fit_width w0 <$> g) with g.
    + rewrite take_ge by (unfold JS.length; lia).
      rewrite Z.sub_diag. simpl. by rewrite app_nil_r.
    + rewrite <- (list_fmap_id g) at 1.
      apply Forall_fmap_ext. eapply Forall_impl; [exact Hrows|].
      intros row Hrow. simpl in *. by rewrite fit_width_same.
  - rewrite (resize_width_step w0 w0 h0) by done. simpl.
    rewrite Hlen1. unfold resized, pushed_rows. rewrite Hlen.
    destruct (Z.ltb_spec h h0) as [Hlt|Hge].
    + simpl. do 2 f_equal. unfold JS.slice0.
      replace (Z.to_nat ((h - h0 + 1) / 2)) with 0%nat; [by rewrite app_nil_r|].
      assert ((h - h0 + 1) / 2 ≤ 0); [|lia].
      apply Z.lt_succ_r, Z.div_lt_upper_bound; lia.
    + rewrite (proj2 (Z.gtb_gt h h0)) by lia.
      rewrite push_rows_eq by lia. simpl. rewrite Hlen1.
      rewrite take_ge by (unfold JS.length in *; rewrite length_fmap; lia).
      by rewrite Z.sub_0_r.
  - rewrite (resize_width_step w w0 h0) by done. simpl.
    rewrite Hlen1. unfold resized, pushed_rows. rewrite Hlen.
    destruct (Z.ltb_spec h h0) as [Hlt|Hge].
    + simpl. do 2 f_equal. unfold JS.slice0.
      replace (Z.to_nat ((h - h0 + 1) / 2)) with 0%nat; [by rewrite app_nil_r|].
      assert ((h - h0 + 1) / 2 ≤ 0); [|lia].
      apply Z.lt_succ_r, Z.div_lt_upper_bound; lia.
    + destruct (Z.gtb_spec h h0) as [Hgt|Hle].
      * rewrite push_rows_eq by lia. simpl. rewrite Hlen1.
        rewrite take_ge by (unfold JS.length in *; rewrite length_fmap; lia).
        by rewrite Z.sub_0_r.
      * simpl. do 2 f_equal. assert (h = h0) as -> by lia.
        rewrite take_ge by (unfold JS.length in *; rewrite length_fmap; lia).
        rewrite Z.sub_diag. simpl. by rewrite app_nil_r.
Qed.

Lemma truthy_get_dead (n : nat) (x : Z) :
  JS.truthy (JS.get (replicate n false) x) = false.
Proof.
  unfold JS.get. destruct (x <? 0); [done|].
  destruct (replicate n false !! Z.to_nat x) as [c|] eqn:Hc; [|done].
  by apply lookup_replicate in Hc as [-> _].
Qed.

Lemma truthy_get_fit_width (w : Z) (row : list bool) (x : Z) :
  JS.truthy (JS.get (fit_width w row) x) = (x <? w) && JS.truthy (JS.get row x).
Proof.
  unfold JS.get. destruct (Z.ltb_spec x 0) as [Hneg|Hx]; [by rewrite andb_false_r|].
  unfold fit_width. destruct (Z.ltb_spec x w) as [Hlt|Hge]; simpl.
  - destruct (decide (Z.to_nat x < length row)%nat) as [Hin|Hout].
    + rewrite lookup_app_l by (rewrite length_take; lia).
      by rewrite lookup_take_lt by lia.
    + rewrite lookup_app_r by (rewrite length_take; lia).
      rewrite (lookup_ge_None_2 row) by lia.
      destruct (replicate _ false !! _) as [c|] eqn:Hc; [|done].
      by apply lookup_replicate in Hc as [-> _].
  - rewrite lookup_ge_None_2; [done|].
    rewrite length_app, length_take, length_replicate. unfold JS.length. lia.
Qed.

(** The cells of a resized grid: those of the old grid inside the new
    width and height, dead cells elsewhere. *)
Lemma cell_resized (w h : Z) (g : Grid) (x y : Z) :
  cell (resized w h g) x y = (x <? w) && (y <? h) && cell g x y.
Proof.
  unfold cell, resized.
  destruct (Z.ltb_spec y 0) as [Hneg|Hy].
  { rewrite !get_neg by done. simpl. by rewrite andb_false_r. }
  rewrite !get_in by done.
  assert (Hcut : length (take (Z.to_nat h) (fit_width w <$> g))
                 = (Z.to_nat h `min` length g)%nat)
    by (by rewrite length_take, length_fmap).
  destruct (decide (y < h ∧ (Z.to_nat y < length g)%nat)) as [[Hlt Hin]|Hout].
  - rewrite lookup_app_l by lia. rewrite lookup_take_lt by lia.
    rewrite list_lookup_fmap.
    destruct (lookup_lt_is_Some_2 g (Z.to_nat y) Hin) as [row ->]. simpl.
    rewrite truthy_get_fit_width. rewrite (proj2 (Z.ltb_lt y h)) by done.
    by rewrite andb_true_r.
  - rewrite lookup_app_r by lia.
    transitivity false.
    + destruct (replicate _ _ !! _) as [row|] eqn:Hrow; [|done].
      apply lookup_replicate in Hrow as [-> _]. simpl. apply truthy_get_dead.
    + destruct (Z.ltb_spec y h) as [Hlt|Hge]; [|by rewrite andb_false_r].
      rewrite (lookup_ge_None_2 g) by lia. simpl. by rewrite andb_false_r.
Qed.

Lemma resized_height_pos (h h0 : Z) : 1 ≤ h → 1 ≤ h0 → 1 ≤ resized_height h h0.
Proof.
  intros Hh Hh0. unfold resized_height, pushed_rows.
  destruct (Z.leb_spec h h0); [done|].
  assert (0 ≤ (h - h0 + 1) / 2) by (apply Z.div_pos; lia). lia.
Qed.

Lemma resized_dims (w h w0 h0 : Z) (g : Grid) :
  has_dims g w0 h0 → 0 ≤ w → 0 ≤ h →
  has_dims (resized w h g) w (resized_height h h0).
Proof.
  intros [Hlen Hrows] Hw Hh. unfold resized, resized_height, pushed_rows. split.
  - unfold JS.length in *. rewrite length_app, length_take, length_fmap, length_replicate.
    rewrite Hlen. destruct (Z.leb_spec h h0) as [Hle|Hgt].
    + assert ((h - h0 + 1) / 2 ≤ 0); [|lia].
      apply Z.lt_succ_r, Z.div_lt_upper_bound; lia.
    + assert (0 ≤ (h - h0 + 1) / 2) by (apply Z.div_pos; lia). lia.
  - apply Forall_app. split.
    + apply Forall_take, Forall_fmap, Forall_forall. intros row _. simpl.
      by apply length_fit_width.
    + apply Forall_replicate. by apply length_replicate_Z.
Qed.

(** The height a growing [resize] reaches falls short of the height asked
    for as soon as two rows or more are missing. *)
Lemma resized_height_short (h h0 : Z) :
  h0 + 2 ≤ h → resized_height h h0 < h.
Proof.
  intros H. unfold resized_height, pushed_rows.
  rewrite (proj2 (Z.leb_gt h h0)) by lia.
  assert ((h - h0 + 1) / 2 < h - h0); [|lia].
  apply Z.div_lt_upper_bound; lia.
Qed.

Lemma resized_height_exact (h h0 : Z) :
  h ≤ h0 + 1 → resized_height h h0 = h.
Proof.
  intros H. unfold resized_height, pushed_rows.
  destruct (Z.leb_spec h h0); [done|].
  assert (h = h0 + 1) as -> by lia.
  replace (h0 + 1 - h0 + 1) with 2 by lia. change (2 / 2) with 1. done.
Qed.

(** * The claims *)

(** ** C1: the ruleset at construction *)

(** C1, as the specification states it, fails: a ruleset of 8 entries and
    one of 10 are accepted, and the automaton is built with them. *)
Lemma constructor_accepts_ruleset_8_and_10 :
  constructor ruleset8 moore 3 3 false density_default never_random
    = Ok (mkAutomata ruleset8 moore seed3x3)
  ∧ constructor ruleset10 moore 3 3 false density_default never_random
    = Ok (mkAutomata ruleset10 moore seed3x3)
  ∧ constructor ruleset8 moore 3 3 false density_default never_random
    ≠ Err InvalidRuleset.
Proof. repeat split; [reflexivity..|discriminate]. Qed.

(** C1 (amended): the constructor checks no ruleset length and never fails
    with InvalidRuleset; with width >= 1 and height >= 1 it returns for a
    ruleset of any length and stores the ruleset as it was given. *)
Theorem constructor_ruleset_unchecked
    (rs : list Z) (nb : AutomataNeighborhood) (w h : Z)
    (initRand : bool) (density : float) (random : Z → Z → float) :
  constructor rs nb w h initRand density random ≠ Err InvalidRuleset
  ∧ (1 ≤ w → 1 ≤ h →
     ∃ g, constructor rs nb w h initRand density random = Ok (mkAutomata rs nb g)).
Proof.
  split.
  - intros He. by destruct (constructor_errors _ _ _ _ _ _ _ _ He).
  - intros Hw Hh.
    destruct (constructor_positive rs nb w h density random initRand Hw Hh) as (g & Hg & _).
    by exists g.
Qed.

Lemma constructor_ruleset_unchecked_witness :
  1 ≤ 3 ∧ length ruleset8 = 8%nat
  ∧ ∃ g, constructor ruleset8 moore 3 3 false density_default never_random
         = Ok (mkAutomata ruleset8 moore g).
Proof.
  split; [lia|]. split; [reflexivity|].
  apply (proj2 (constructor_ruleset_unchecked ruleset8 moore 3 3 false
                  density_default never_random)); lia.
Defined.

(** ** C2: the dimensions at construction *)

(** C2, as the specification states it, fails: width 0 with height 1 is
    accepted (the seed lands in a row that had no cell), and height 0 fails
    with the TypeError of the runtime, height -1 with its RangeError. *)
Lemma constructor_accepts_width_0 :
  constructor replicator moore 0 1 false density_default never_random
    = Ok (mkAutomata replicator moore [[true]])
  ∧ constructor replicator moore 3 0 false density_default never_random
    = Err TypeError
  ∧ constructor replicator moore 3 (-1) false density_default never_random
    = Err RangeError.
Proof. repeat split; reflexivity. Qed.

(** C2 (amended): the constructor checks no dimension and never fails with
    InvalidDimensions: its only errors are the RangeError and the TypeError
    of the runtime; for width >= 1 and height >= 1 it returns, with a grid
    of height rows of width cells. *)
Theorem constructor_dimensions
    (rs : list Z) (nb : AutomataNeighborhood) (w h : Z)
    (initRand : bool) (density : float) (random : Z → Z → float) :
  (∀ e, constructor rs nb w h initRand density random = Err e →
        e = RangeError ∨ e = TypeError)
  ∧ (1 ≤ w → 1 ≤ h →
     ∃ a, constructor rs nb w h initRand density random = Ok a
          ∧ has_dims (grid a) w h).
Proof.
  split.
  - intros e. apply constructor_errors.
  - intros Hw Hh.
    destruct (constructor_positive rs nb w h density random initRand Hw Hh) as (g & Hg & Hd).
    by exists (mkAutomata rs nb g).
Qed.

Lemma constructor_dimensions_witness :
  1 ≤ 4 ∧ 1 ≤ 2
  ∧ ∃ a, constructor replicator von_neumann 4 2 true density_default never_random = Ok a
         ∧ has_dims (grid a) 4 2.
Proof.
  split; [lia|]. split; [lia|].
  apply (proj2 (constructor_dimensions replicator von_neumann 4 2 true
                  density_default never_random)); lia.
Defined.

(** ** The neighbours of a cell, in the words of the specification *)

Lemma moore_offsets :
  filter (λ o, in_neighborhood moore o = true) square_offsets
  = [(-1, -1); (0, -1); (1, -1); (-1, 0); (1, 0); (-1, 1); (0, 1); (1, 1)].
Proof. reflexivity. Qed.

Lemma von_neumann_offsets :
  filter (λ o, in_neighborhood von_neumann o = true) square_offsets
  = [(0, -1); (-1, 0); (1, 0); (0, 1)].
Proof. reflexivity. Qed.

Lemma counted_alive_at (g : Grid) (w h nx ny : Z) :
  has_dims g w h → 1 ≤ h → counted g nx ny = alive_at g w h nx ny.
Proof.
  intros Hd Hh. unfold counted, alive_at.
  rewrite (width_dims _ _ _ Hd Hh). destruct Hd as [Hlen _].
  unfold height. rewrite Hlen.
  destruct (Z.geb_spec nx 0), (Z.ltb_spec nx w), (Z.geb_spec ny 0), (Z.ltb_spec ny h);
    simpl; case_bool_decide; try done; exfalso; lia.
Qed.

Lemma foldl_count_filter (P : Z * Z → bool) (offs : list (Z * Z)) (n : Z) :
  foldl (λ count o, if P o then count + 1 else count) n offs
  = n + Z.of_nat (length (filter (λ o, P o = true) offs)).
Proof.
  revert n. induction offs as [|o offs IH]; intros n; simpl; [lia|].
  rewrite IH, filter_cons. destruct (P o); simpl; lia.
Qed.

(** The offsets [getNeighbors] walks are those of the neighbourhood, in
    another order. *)
Lemma offsets_neighborhood (nb : AutomataNeighborhood) :
  offsets nb ≡ₚ filter (λ o, in_neighborhood nb o = true) square_offsets.
Proof.
  destruct nb; [rewrite moore_offsets|rewrite von_neumann_offsets];
    simpl; solve_Permutation.
Qed.

Lemma count_over_live_neighbors (nb : AutomataNeighborhood) (g : Grid) (w h x y : Z) :
  has_dims g w h → 1 ≤ h →
  count_over g x y (offsets nb) = live_neighbors nb g w h x y.
Proof.
  intros Hd Hh. unfold count_over, live_neighbors.
  rewrite foldl_count_filter, Z.add_0_l. f_equal.
  rewrite <- (offsets_neighborhood nb).
  f_equal. apply list_filter_iff. intros o.
  by rewrite (counted_alive_at g w h).
Qed.

(** ** C3: the rule of one step *)

Lemma grid_with_cell (g : Grid) (y : Z) : 0 ≤ y < height g → g ≠ [].
Proof. intros Hy ->. unfold height, JS.length in Hy. simpl in Hy. lia. Qed.

(** The cells of the grid [update] leaves *)
Lemma update_cells (a : Automata) :
  ∃ a', update a = Ok a'
    ∧ ruleset a' = ruleset a ∧ neighborhood a' = neighborhood a
    ∧ has_dims (grid a') (width (grid a)) (height (grid a))
    ∧ ∀ x y, 0 ≤ x < width (grid a) → 0 ≤ y < height (grid a) →
        cell (grid a') x y = next_state a x y.
Proof.
  eexists. split; [apply update_eq|]. simpl.
  split; [done|]. split; [done|]. split.
  - apply (update_grid_dims a _ (update_eq a)).
  - intros x y Hx Hy. by rewrite cell_tabulate.
Qed.

(** The same on a grid of w x h cells *)
Lemma update_on_dims (a a' : Automata) (w h : Z) :
  update a = Ok a' → has_dims (grid a) w h →
  has_dims (grid a') w h
  ∧ ∀ x y, 0 ≤ x < w → 0 ≤ y < h → cell (grid a') x y = next_state a x y.
Proof.
  rewrite update_eq. intros [= <-] Hd. simpl.
  destruct (decide (grid a = [])) as [Hnil|Hg].
  - destruct Hd as [Hlen _]. rewrite Hnil in *. unfold JS.length in Hlen. simpl in Hlen.
    subst h. split; [|intros; lia]. split; [done|]. unfold height. simpl. constructor.
  - assert (Hh : 1 ≤ h).
    { destruct Hd as [Hlen _]. destruct (grid a); [done|].
      unfold JS.length in Hlen. simpl in Hlen. lia. }
    rewrite (width_dims _ _ _ Hd Hh). unfold height. rewrite (proj1 Hd).
    assert (Hw : 0 ≤ w).
    { destruct Hd as [_ Hrows]. destruct (grid a) as [|row g]; [done|].
      apply Forall_cons in Hrows as [<- _]. unfold JS.length. lia. }
    split; [apply tabulate_dims; lia|].
    intros x y Hx Hy. by rewrite cell_tabulate.
Qed.

(** C3: for every grid, ruleset and neighbourhood, [update] returns, the
    ruleset and the neighbourhood are kept, the new grid has the dimensions
    of the old one, and its cell (x, y) is alive iff, with n the neighbour
    count of (x, y) on the grid before the step, the cell was alive and
    entry n has SURVIVE, or the cell was dead and entry n has BIRTH.  The
    count n is the one [getNeighbors] returns on the automaton before the
    step, and on a rectangular grid of w x h cells it is the number of live
    cells of the grid before the step among the neighbours of (x, y), a
    neighbour outside the grid being dead. *)
Theorem update_applies_rule (a : Automata) :
  ∃ a', update a = Ok a'
    ∧ ruleset a' = ruleset a ∧ neighborhood a' = neighborhood a
    ∧ has_dims (grid a') (width (grid a)) (height (grid a))
    ∧ (∀ x y, 0 ≤ x < width (grid a) → 0 ≤ y < height (grid a) →
         ∃ n, getNeighbors a x y = Ok n
           ∧ cell (grid a') x y
             = if cell (grid a) x y then has_flag (ruleset a) n SURVIVE
               else has_flag (ruleset a) n BIRTH)
    ∧ (∀ w h, has_dims (grid a) w h →
         has_dims (grid a') w h
         ∧ ∀ x y, 0 ≤ x < w → 0 ≤ y < h →
             cell (grid a') x y
             = if cell (grid a) x y
               then has_flag (ruleset a)
                      (live_neighbors (neighborhood a) (grid a) w h x y) SURVIVE
               else has_flag (ruleset a)
                      (live_neighbors (neighborhood a) (grid a) w h x y) BIRTH).
Proof.
  destruct (update_cells a) as (a' & Hup & Hrs & Hnb & Hd & Hcell).
  exists a'. do 4 (split; [done|]). split.
  - intros x y Hx Hy.
    eexists. split; [apply getNeighbors_count; by eapply grid_with_cell|].
    rewrite Hcell by done. unfold next_state.
    by rewrite rule_bit_survive, rule_bit_birth.
  - intros w h Hdims. destruct (update_on_dims a a' w h Hup Hdims) as [Hd' Hc'].
    split; [done|]. intros x y Hx Hy. rewrite Hc' by done. unfold next_state.
    rewrite (count_over_live_neighbors _ _ w h) by (done || lia).
    by rewrite rule_bit_survive, rule_bit_birth.
Qed.

Lemma update_applies_rule_witness :
  has_dims full3x3 3 3
  ∧ ∃ a', update (mkAutomata life moore full3x3) = Ok a'
      ∧ has_dims (grid a') 3 3
      ∧ getNeighbors (mkAutomata life moore full3x3) 1 1 = Ok 8
      ∧ live_neighbors moore full3x3 3 3 1 1 = 8
      ∧ live_neighbors moore full3x3 3 3 0 0 = 3
      ∧ cell (grid a') 1 1 = has_flag life 8 SURVIVE
      ∧ cell (grid a') 0 0 = has_flag life 3 SURVIVE.
Proof.
  assert (Hd : has_dims full3x3 3 3) by (split; [reflexivity|by repeat constructor]).
  split; [exact Hd|].
  destruct (update_applies_rule (mkAutomata life moore full3x3))
    as (a' & Hup & _ & _ & _ & _ & Hrect).
  destruct (Hrect 3 3 Hd) as [Hd' Hcell].
  exists a'. split; [exact Hup|]. split; [exact Hd'|].
  split; [reflexivity|]. split; [reflexivity|]. split; [reflexivity|].
  split; [apply (Hcell 1 1); lia|apply (Hcell 0 0); lia].
Defined.

(** ** C4: the neighbour count *)

(** C4: on a rectangular grid and at a cell inside it, [getNeighbors]
    returns the number of live cells among the offsets of the neighbourhood
    (the 8 of the square around the cell for Moore, the 4 orthogonal ones for
    von Neumann), a cell outside the grid counting as dead; the count is
    between 0 and 8, respectively 4. *)
Theorem getNeighbors_counts_live_neighbors (a : Automata) (w h x y : Z) :
  has_dims (grid a) w h → 0 ≤ x < w → 0 ≤ y < h →
  getNeighbors a x y = Ok (live_neighbors (neighborhood a) (grid a) w h x y)
  ∧ 0 ≤ live_neighbors (neighborhood a) (grid a) w h x y ≤ max_neighbors (neighborhood a).
Proof.
  intros Hd Hx Hy.
  assert (Hg : grid a ≠ []).
  { intros Hnil. destruct Hd as [Hlen _]. rewrite Hnil in Hlen.
    unfold JS.length in Hlen. simpl in Hlen. lia. }
  rewrite <- (count_over_live_neighbors _ _ _ _ _ _ Hd) by lia.
  split; [by apply getNeighbors_count|apply count_over_bounds].
Qed.

Lemma getNeighbors_counts_live_neighbors_witness :
  has_dims full3x3 3 3
  ∧ getNeighbors (mkAutomata replicator moore full3x3) 1 1 = Ok 8
  ∧ getNeighbors (mkAutomata replicator von_neumann full3x3) 0 0 = Ok 2.
Proof.
  assert (Hd : has_dims full3x3 3 3) by (split; [reflexivity|by repeat constructor]).
  split; [exact Hd|]. split.
  - apply (getNeighbors_counts_live_neighbors
             (mkAutomata replicator moore full3x3) 3 3 1 1 Hd); lia.
  - apply (getNeighbors_counts_live_neighbors
             (mkAutomata replicator von_neumann full3x3) 3 3 0 0 Hd); lia.
Defined.

(** ** C5 and C7: the height after a growing [resize] *)

(** C5: the 1 x 1 grid of [new Automata(rs, "moore", 1, 1)] resized to
    1 x 3 ends with 2 rows, not 3: the loop that adds the rows compares [i]
    with [height - grid.length] again after every push, so it adds one row
    for every two that are missing. *)
Theorem resize_grows_short_of_height :
  constructor replicator moore 1 1 false density_default never_random
    = Ok (mkAutomata replicator moore [[true]])
  ∧ resize 1 3 (mkAutomata replicator moore [[true]])
    = Ok (mkAutomata replicator moore [[true]; [false]]).
Proof. split; reflexivity. Qed.

(** C7: the 1 x 3 grid of [new Automata(rs, "moore", 1, 3, true)], all
    alive, resized to 1 x 1 and back to 1 x 3 ends with 2 rows, not the 3 it
    had, for the same reason. *)
Theorem resize_back_short_of_height :
  constructor replicator moore 1 3 true density_default always_random
    = Ok (mkAutomata replicator moore column3)
  ∧ (a ← resize 1 1 (mkAutomata replicator moore column3); resize 1 3 a)
    = Ok (mkAutomata replicator moore [[true]; [false]]).
Proof. split; reflexivity. Qed.

(** What [resize] does on a rectangular grid with a row, for positive
    arguments: the width is the one asked for, the height is
    [resized_height], the cells inside both rectangles are kept and all
    others are dead. *)
Lemma resize_rectangular (w h w0 h0 : Z) (a : Automata) :
  has_dims (grid a) w0 h0 → 1 ≤ h0 → 1 ≤ w → 1 ≤ h →
  ∃ a', resize w h a = Ok a'
    ∧ ruleset a' = ruleset a ∧ neighborhood a' = neighborhood a
    ∧ has_dims (grid a') w (resized_height h h0)
    ∧ ∀ x y, cell (grid a') x y = (x <? w) && (y <? h) && cell (grid a) x y.
Proof.
  intros Hd Hh0 Hw Hh. eexists. split; [by eapply resize_eq|]. simpl.
  split; [done|]. split; [done|]. split.
  - apply (resized_dims w h w0 h0); [done|lia|lia].
  - intros x y. apply cell_resized.
Qed.

(** In general: as soon as two rows or more are missing, a growing [resize]
    stops short of the height it was asked for. *)
Lemma resize_short_in_general (w h w0 h0 : Z) (a : Automata) :
  has_dims (grid a) w0 h0 → 1 ≤ h0 → 1 ≤ w → h0 + 2 ≤ h →
  ∃ a', resize w h a = Ok a' ∧ h0 < height (grid a') < h.
Proof.
  intros Hd Hh0 Hw Hh.
  destruct (resize_rectangular w h w0 h0 a) as (a' & Hr & _ & _ & [Hlen _] & _);
    [done|lia|lia|lia|].
  exists a'. split; [done|]. unfold height. rewrite Hlen.
  pose proof (resized_height_short h h0 Hh).
  unfold resized_height, pushed_rows in *.
  rewrite (proj2 (Z.leb_gt h h0)) in * by lia.
  assert (1 ≤ (h - h0 + 1) / 2) by (apply Z.div_le_lower_bound; lia). lia.
Qed.

Lemma mapR_Err {A B : Type} (f : A → result B) (l : list A) (e : error) :
  mapR f l = Err e → ∃ x, x ∈ l ∧ f x = Err e.
Proof.
  induction l as [|x l IH]; simpl; [done|].
  destruct (f x) as [y|e'] eqn:Hx; simpl.
  - destruct (mapR f l) as [ys|e'']; simpl; [done|].
    intros [= <-]. destruct (IH eq_refl) as (x' & Hin & Hx').
    exists x'. split; [by right|done].
  - intros [= <-]. exists x. split; [by left|done].
Qed.

(** The budget of the loop that adds rows is never used up: the errors of
    [resize] are those of the runtime. *)
Lemma resize_errors (w h : Z) (a : Automata) (e : error) :
  resize w h a = Err e → e = RangeError ∨ e = TypeError.
Proof.
  unfold resize.
  destruct (Z.ltb_spec w 1); simpl; [done|].
  destruct (Z.ltb_spec h 1); simpl; [done|].
  destruct (row0_length (grid a)) as [w0|e0] eqn:Hw0; simpl.
  2:{ unfold row0_length in Hw0. destruct (JS.get (grid a) 0); [done|].
      injection Hw0 as <-. intros [= <-]. by right. }
  destruct (_ && _); [done|].
  match goal with |- (?m ≫= _) = _ → _ => destruct m as [g|e1] eqn:Hg end; simpl.
  2:{ intros [= <-]. left.
      destruct (w <? w0); [done|]. destruct (w >? w0); [|done].
      apply mapR_Err in Hg as (row & _ & Hrow).
      unfold JS.new_Array_fill in Hrow.
      destruct (w - JS.length row <? 0); simpl in Hrow; [|done]. by injection Hrow. }
  destruct (h <? JS.length g); [done|].
  destruct (h >? JS.length g); [|done].
  rewrite push_rows_eq; [done|lia|lia|]. unfold JS.length. lia.
Qed.

(** ** C6: the calls [resize] ignores *)

(** C6: [resize] with a width or a height below 1, or with the dimensions
    the grid has (those of a rectangular grid, or those the class reads off
    any grid, [grid[0].length] and [grid.length]), returns without an error
    and leaves the automaton as it was. *)
Theorem resize_noop (a : Automata) (w h : Z) :
  w < 1 ∨ h < 1 ∨ has_dims (grid a) w h
  ∨ (w = width (grid a) ∧ h = height (grid a)) →
  resize w h a = Ok a.
Proof.
  intros [Hw|[Hh|[Hd|[-> ->]]]].
  - apply resize_ignored. by left.
  - apply resize_ignored. by right.
  - destruct (Z.lt_ge_cases h 1) as [Hh|Hh].
    + apply resize_ignored. by right.
    + rewrite <- (width_dims _ _ _ Hd Hh) at 1.
      destruct Hd as [<- _]. apply resize_same.
  - apply resize_same.
Qed.

Lemma resize_noop_witness :
  has_dims seed3x3 3 3
  ∧ resize 3 3 (mkAutomata replicator moore seed3x3) = Ok (mkAutomata replicator moore seed3x3)
  ∧ resize 0 5 (mkAutomata replicator moore seed3x3) = Ok (mkAutomata replicator moore seed3x3)
  ∧ resize 5 0 (mkAutomata replicator moore seed3x3) = Ok (mkAutomata replicator moore seed3x3).
Proof.
  assert (Hd : has_dims seed3x3 3 3) by (split; [reflexivity|by repeat constructor]).
  split; [exact Hd|]. split; [|split].
  - apply (resize_noop (mkAutomata replicator moore seed3x3) 3 3). right. right. left. exact Hd.
  - apply (resize_noop (mkAutomata replicator moore seed3x3) 0 5). left. lia.
  - apply (resize_noop (mkAutomata replicator moore seed3x3) 5 0). right. left. lia.
Defined.

(** ** C10: a ruleset with fewer than 9 entries *)

Lemma has_flag_missing (rs : list Z) (n : Z) (f : flag) :
  JS.length rs ≤ n → has_flag rs n f = false.
Proof. intros H. unfold has_flag. by rewrite get_beyond. Qed.

(** C10: [update] returns whatever the length of the ruleset, the new grid
    has the dimensions of the old one, and a cell whose neighbour count is
    not an index of the ruleset is a dead cell of the new grid, alive or
    dead before the step.  The count is the one [getNeighbors] returns, on a
    rectangular grid the number of live neighbours of the cell. *)
Theorem update_missing_entry_is_dead (a : Automata) :
  ∃ a', update a = Ok a'
    ∧ ruleset a' = ruleset a
    ∧ has_dims (grid a') (width (grid a)) (height (grid a))
    ∧ (∀ x y n, 0 ≤ x < width (grid a) → 0 ≤ y < height (grid a) →
         getNeighbors a x y = Ok n → JS.length (ruleset a) ≤ n →
         cell (grid a') x y = false)
    ∧ (∀ w h, has_dims (grid a) w h →
         has_dims (grid a') w h
         ∧ ∀ x y, 0 ≤ x < w → 0 ≤ y < h →
             JS.length (ruleset a) ≤ live_neighbors (neighborhood a) (grid a) w h x y →
             cell (grid a') x y = false).
Proof.
  destruct (update_cells a) as (a' & Hup & Hrs & _ & Hd & Hcell).
  exists a'. do 3 (split; [done|]). split.
  - intros x y n Hx Hy Hn Hlen.
    rewrite Hcell by done. unfold next_state.
    rewrite getNeighbors_count in Hn by (by eapply grid_with_cell).
    injection Hn as ->.
    rewrite rule_bit_survive, rule_bit_birth, !has_flag_missing by done.
    by destruct (cell (grid a) x y).
  - intros w h Hdims. destruct (update_on_dims a a' w h Hup Hdims) as [Hd' Hc'].
    split; [done|]. intros x y Hx Hy Hlen. rewrite Hc' by done. unfold next_state.
    rewrite (count_over_live_neighbors _ _ w h) by (done || lia).
    rewrite rule_bit_survive, rule_bit_birth, !has_flag_missing by done.
    by destruct (cell (grid a) x y).
Qed.

Lemma update_missing_entry_is_dead_witness :
  has_dims full3x3 3 3
  ∧ ∃ a', update (mkAutomata life3 moore full3x3) = Ok a'
      ∧ has_dims (grid a') 3 3
      ∧ getNeighbors (mkAutomata life3 moore full3x3) 0 0 = Ok 3
      ∧ live_neighbors moore full3x3 3 3 0 0 = 3
      ∧ JS.length life3 = 3
      ∧ cell full3x3 0 0 = true
      ∧ cell (grid a') 0 0 = false.
Proof.
  assert (Hd : has_dims full3x3 3 3) by (split; [reflexivity|by repeat constructor]).
  split; [exact Hd|].
  destruct (update_missing_entry_is_dead (mkAutomata life3 moore full3x3))
    as (a' & Hup & _ & _ & _ & Hrect).
  destruct (Hrect 3 3 Hd) as [Hd' Hdead].
  exists a'. split; [exact Hup|]. split; [exact Hd'|].
  split; [reflexivity|]. split; [reflexivity|]. split; [reflexivity|].
  split; [reflexivity|].
  apply (Hdead 0 0); [lia|lia|]. change (3 ≤ 3). lia.
Defined.

(** ** C8: rectangularity *)







(** ** C9: the blinker *)

Lemma tabulate_ext (w h : Z) (f f' : Z → Z → bool) :
  0 ≤ w → 0 ≤ h →
  (∀ x y, 0 ≤ x < w → 0 ≤ y < h → f x y = f' x y) →
  tabulate w h f = tabulate w h f'.
Proof.
  intros Hw Hh Hf. apply (grid_ext _ _ w h); [by apply tabulate_dims..|].
  intros x y Hx Hy. rewrite !cell_tabulate by done. by apply Hf.
Qed.

Lemma alive_at_tabulate (w h : Z) (f : Z → Z → bool) (x y : Z) :
  alive_at (tabulate w h f) w h x y = bool_decide (0 ≤ x < w ∧ 0 ≤ y < h) && f x y.
Proof.
  unfold alive_at. case_bool_decide as Hin; [|done].
  destruct Hin. by rewrite cell_tabulate.
Qed.

Lemma has_flag_life : B3S23 life.
Proof.
  intros n Hn.
  assert (n = 0 ∨ n = 1 ∨ n = 2 ∨ n = 3 ∨ n = 4 ∨ n = 5 ∨ n = 6 ∨ n = 7 ∨ n = 8)
    as Hcases by lia.
  repeat (destruct Hcases as [->|Hcases]; [split; reflexivity|]).
  subst n. split; reflexivity.
Qed.

(** One step under B3/S23 and Moore, on a table *)
Lemma life_step (rs : list Z) (w h : Z) (f : Z → Z → bool) :
  B3S23 rs → 1 ≤ w → 1 ≤ h →
  update (mkAutomata rs moore (tabulate w h f))
  = Ok (mkAutomata rs moore
          (tabulate w h (λ x y,
             life_rule (f x y) (count_over (tabulate w h f) x y (offsets moore))))).
Proof.
  intros Hlife Hw Hh. rewrite update_eq. simpl.
  pose proof (tabulate_dims w h f ltac:(lia) ltac:(lia)) as Hd.
  rewrite (width_dims _ _ _ Hd Hh). unfold height. rewrite (proj1 Hd).
  do 2 f_equal. apply tabulate_ext; [lia|lia|].
  intros x y Hx Hy. unfold next_state. simpl.
  rewrite cell_tabulate by done.
  rewrite rule_bit_survive, rule_bit_birth.
  pose proof (count_over_bounds (tabulate w h f) x y moore) as Hn. simpl in Hn.
  destruct (Hlife _ Hn) as [-> ->]. done.
Qed.

(** settles every [bool_decide] of the goal that [lia] can settle *)
Ltac decide_all :=
  repeat match goal with
    | |- context [bool_decide ?P] =>
        first [ rewrite (bool_decide_eq_true_2 P) by lia
              | rewrite (bool_decide_eq_false_2 P) by lia ]
    end.

Lemma foldl_count_sum (P : Z * Z → bool) (offs : list (Z * Z)) (n : Z) :
  foldl (λ count o, if P o then count + 1 else count) n offs
  = n + foldr (λ o acc, Z.b2z (P o) + acc) 0 offs.
Proof.
  revert n. induction offs as [|o offs IH]; intros n; simpl; [lia|].
  rewrite IH. destruct (P o); simpl; lia.
Qed.

(** the count around a cell of a table, as a sum of 8 decided conditions *)
Ltac count_lines w h :=
  unfold count_over; rewrite foldl_count_sum;
  cbn [offsets app foldr fst snd];
  rewrite !(counted_alive_at _ w h) by first [apply tabulate_dims; lia | lia];
  rewrite !alive_at_tabulate, <- !bool_decide_and.

Section blinker.
Variables (rs : list Z) (w h cx cy : Z).
Hypothesis (Hlife : B3S23 rs).
Hypotheses (Hleft : 1 ≤ cx - 1) (Hright : cx + 1 ≤ w - 2).
Hypotheses (Hup : 1 ≤ cy) (Hdown : cy ≤ h - 2).

Lemma hline_step :
  update (mkAutomata rs moore (hline w h cx cy))
  = Ok (mkAutomata rs moore (vline w h cx cy)).
Proof.
  unfold hline. rewrite life_step by (done || lia).
  do 2 f_equal. apply tabulate_ext; [lia|lia|].
  intros x y Hx Hy. count_lines w h.
  assert (x ≤ cx - 3 ∨ x = cx - 2 ∨ x = cx - 1 ∨ x = cx ∨ x = cx + 1
          ∨ x = cx + 2 ∨ cx + 3 ≤ x) as Hxs by lia.
  assert (y ≤ cy - 2 ∨ y = cy - 1 ∨ y = cy ∨ y = cy + 1 ∨ cy + 2 ≤ y) as Hys by lia.
  destruct Hxs as [Hxc|[Hxc|[Hxc|[Hxc|[Hxc|[Hxc|Hxc]]]]]];
    destruct Hys as [Hyc|[Hyc|[Hyc|[Hyc|Hyc]]]];
    decide_all; reflexivity.
Qed.

Lemma vline_step :
  update (mkAutomata rs moore (vline w h cx cy))
  = Ok (mkAutomata rs moore (hline w h cx cy)).
Proof.
  unfold vline. rewrite life_step by (done || lia).
  do 2 f_equal. apply tabulate_ext; [lia|lia|].
  intros x y Hx Hy. count_lines w h.
  assert (x ≤ cx - 2 ∨ x = cx - 1 ∨ x = cx ∨ x = cx + 1 ∨ cx + 2 ≤ x) as Hxs by lia.
  assert (y ≤ cy - 3 ∨ y = cy - 2 ∨ y = cy - 1 ∨ y = cy ∨ y = cy + 1
          ∨ y = cy + 2 ∨ cy + 3 ≤ y) as Hys by lia.
  destruct Hxs as [Hxc|[Hxc|[Hxc|[Hxc|Hxc]]]];
    destruct Hys as [Hyc|[Hyc|[Hyc|[Hyc|[Hyc|[Hyc|Hyc]]]]]];
    decide_all; reflexivity.
Qed.

End blinker.

Lemma hline_5x5 :
  hline 5 5 2 2
  = [[false; false; false; false; false];
     [false; false; false; false; false];
     [false; true;  true;  true;  false];
     [false; false; false; false; false];
     [false; false; false; false; false]].
Proof. reflexivity. Qed.

Lemma vline_5x5 :
  vline 5 5 2 2
  = [[false; false; false; false; false];
     [false; false; true;  false; false];
     [false; false; true;  false; false];
     [false; false; true;  false; false];
     [false; false; false; false; false]].
Proof. reflexivity. Qed.

(** C9: under B3/S23 and Moore, the grid whose live cells are exactly a
    horizontal line of 3 cells, with an empty column on its left and on its
    right and an empty row above and below, is after one step the grid with
    the vertical line of 3 cells on the same centre, and after two steps
    the grid it was. *)
Theorem blinker (rs : list Z) (w h cx cy : Z) :
  B3S23 rs →
  1 ≤ cx - 1 → cx + 1 ≤ w - 2 → 1 ≤ cy → cy ≤ h - 2 →
  update (mkAutomata rs moore (hline w h cx cy))
    = Ok (mkAutomata rs moore (vline w h cx cy))
  ∧ (a ← update (mkAutomata rs moore (hline w h cx cy)); update a)
    = Ok (mkAutomata rs moore (hline w h cx cy)).
Proof.
  intros Hlife Hleft Hright Hup Hdown.
  rewrite hline_step by done. split; [done|]. simpl.
  by apply vline_step.
Qed.

Lemma blinker_witness :
  B3S23 life ∧ 1 ≤ 2 - 1 ∧ 2 + 1 ≤ 5 - 2 ∧ 1 ≤ 2 ∧ 2 ≤ 5 - 2
  ∧ update (mkAutomata life moore (hline 5 5 2 2))
    = Ok (mkAutomata life moore (vline 5 5 2 2))
  ∧ (a ← update (mkAutomata life moore (hline 5 5 2 2)); update a)
    = Ok (mkAutomata life moore (hline 5 5 2 2)).
Proof.
  split; [exact has_flag_life|]. do 4 (split; [lia|]).
  apply (blinker life 5 5 2 2 has_flag_life); lia.
Defined.

(** * Beyond the claims *)

(** ** The seeding of the constructor *)

Lemma cell_seed_grid (w h x y : Z) :
  1 ≤ w → 1 ≤ h →
  cell (<[Z.to_nat (h / 2) := <[Z.to_nat (w / 2) := true]> (replicate (Z.to_nat w) false)]>
          (replicate (Z.to_nat h) (replicate (Z.to_nat w) false))) x y
  = (x =? w / 2) && (y =? h / 2).
Proof.
  intros Hw Hh.
  assert (0 ≤ h / 2 < h) by (split; [apply Z.div_pos|apply Z.div_lt_upper_bound]; lia).
  assert (0 ≤ w / 2 < w) by (split; [apply Z.div_pos|apply Z.div_lt_upper_bound]; lia).
  unfold cell.
  destruct (Z.ltb_spec y 0) as [Hneg|Hy].
  { rewrite get_neg by done. simpl. rewrite (proj2 (Z.eqb_neq y (h / 2))) by lia.
    by rewrite andb_false_r. }
  rewrite get_in by done.
  destruct (Z.eqb_spec y (h / 2)) as [->|Hne].
  - rewrite list_lookup_insert_eq by (rewrite length_replicate; lia). simpl.
    rewrite andb_true_r.
    destruct (Z.ltb_spec x 0) as [Hxneg|Hx].
    { rewrite get_neg by done. simpl. symmetry. apply Z.eqb_neq. lia. }
    rewrite get_in by done.
    destruct (Z.eqb_spec x (w / 2)) as [->|Hxne].
    + by rewrite list_lookup_insert_eq by (rewrite length_replicate; lia).
    + rewrite list_lookup_insert_ne by lia.
      destruct (replicate _ false !! _) as [c|] eqn:Hc; [|done].
      by apply lookup_replicate in Hc as [-> _].
  - rewrite list_lookup_insert_ne by lia. rewrite andb_false_r.
    destruct (replicate _ _ !! _) as [row|] eqn:Hrow; [|done].
    apply lookup_replicate in Hrow as [-> _]. simpl. apply truthy_get_dead.
Qed.

(** X1: without random seeding and with width >= 1 and height >= 1, the
    constructor returns a width x height grid whose only live cell is
    (floor(width / 2), floor(height / 2)). *)
Theorem constructor_single_seed
    (rs : list Z) (nb : AutomataNeighborhood) (w h : Z)
    (density : float) (random : Z → Z → float) :
  1 ≤ w → 1 ≤ h →
  ∃ a, constructor rs nb w h false density random = Ok a
    ∧ has_dims (grid a) w h
    ∧ ∀ x y, cell (grid a) x y = (x =? w / 2) && (y =? h / 2).
Proof.
  intros Hw Hh. eexists. split; [by apply constructor_seed|]. simpl.
  split; [by apply seed_grid_dims|]. intros x y. by apply cell_seed_grid.
Qed.

Lemma constructor_single_seed_witness :
  ∃ a, constructor replicator moore 4 3 false density_default always_random = Ok a
    ∧ has_dims (grid a) 4 3
    ∧ cell (grid a) 2 1 = true ∧ cell (grid a) 1 1 = false.
Proof.
  destruct (constructor_single_seed replicator moore 4 3 density_default always_random)
    as (a & Ha & Hd & Hc); [lia|lia|].
  exists a. split; [exact Ha|]. split; [exact Hd|].
  split; rewrite Hc; reflexivity.
Defined.

(** X2: with random seeding, width >= 0 and height >= 1, the constructor
    keeps the ruleset and the neighbourhood and returns a width x height
    grid in which the cell (x, y) is alive iff the value [Math.random()]
    returned for it is above 1 - density, the subtraction and the comparison
    being those of binary64 numbers: at the density 0.1 a draw of 0.9 leaves
    the cell dead, 1 - 0.1 being 0.9 there, and a NaN seeds no cell. *)
Theorem constructor_random_seeding
    (rs : list Z) (nb : AutomataNeighborhood) (w h : Z)
    (density : float) (random : Z → Z → float) :
  0 ≤ w → 1 ≤ h →
  ∃ a, constructor rs nb w h true density random = Ok a
    ∧ ruleset a = rs ∧ neighborhood a = nb
    ∧ has_dims (grid a) w h
    ∧ ∀ x y, 0 ≤ x < w → 0 ≤ y < h →
        cell (grid a) x y = (1 - density <? random x y)%float.
Proof.
  intros Hw Hh. eexists. split; [by apply constructor_random|]. simpl.
  split; [done|]. split; [done|].
  split; [apply tabulate_dims; lia|].
  intros x y Hx Hy. by rewrite cell_tabulate.
Qed.

Lemma constructor_random_seeding_witness :
  (∃ a, constructor replicator moore 2 2 true density_default always_random = Ok a
     ∧ has_dims (grid a) 2 2
     ∧ cell (grid a) 1 0 = true)
  ∧ (∃ a, constructor replicator moore 2 2 true 0.1%float (λ _ _, 0.9%float) = Ok a
       ∧ has_dims (grid a) 2 2
       ∧ cell (grid a) 1 0 = false)
  ∧ (∃ a, constructor replicator moore 2 2 true nan always_random = Ok a
       ∧ cell (grid a) 1 0 = false).
Proof.
  split; [|split].
  - destruct (constructor_random_seeding replicator moore 2 2 density_default always_random)
      as (a & Ha & _ & _ & Hd & Hc); [lia|lia|].
    exists a. split; [exact Ha|]. split; [exact Hd|].
    rewrite Hc by lia. reflexivity.
  - destruct (constructor_random_seeding replicator moore 2 2 0.1%float (λ _ _, 0.9%float))
      as (a & Ha & _ & _ & Hd & Hc); [lia|lia|].
    exists a. split; [exact Ha|]. split; [exact Hd|].
    rewrite Hc by lia. reflexivity.
  - destruct (constructor_random_seeding replicator moore 2 2 nan always_random)
      as (a & Ha & _ & _ & _ & Hc); [lia|lia|].
    exists a. split; [exact Ha|]. rewrite Hc by lia. reflexivity.
Defined.

(** X3: outside the positive dimensions the constructor does this: a negative
    height, or a negative width with height >= 1, fails with RangeError;
    height 0 fails with TypeError for the single seed and returns the grid
    with no row for the random seeding; width 0 with height >= 1 and the
    single seed returns rows with no cell but row floor(height / 2), which is
    [[true]]. *)
Theorem constructor_outcomes
    (rs : list Z) (nb : AutomataNeighborhood) (w h : Z)
    (initRand : bool) (density : float) (random : Z → Z → float) :
  (h < 0 → constructor rs nb w h initRand density random = Err RangeError)
  ∧ (h = 0 → initRand = false →
       constructor rs nb w h initRand density random = Err TypeError)
  ∧ (h = 0 → initRand = true →
       constructor rs nb w h initRand density random = Ok (mkAutomata rs nb []))
  ∧ (1 ≤ h → w < 0 → constructor rs nb w h initRand density random = Err RangeError)
  ∧ (1 ≤ h → w = 0 → initRand = false →
       constructor rs nb w h initRand density random
       = Ok (mkAutomata rs nb (<[Z.to_nat (h / 2) := [true]]> (replicate (Z.to_nat h) [])))).
Proof.
  repeat split.
  - apply constructor_height_negative.
  - intros Hh ->. by apply constructor_height_zero_seed.
  - intros Hh ->. by apply constructor_height_zero_random.
  - apply constructor_width_negative.
  - intros Hh Hw ->. by apply constructor_seed_no_column.
Qed.

Lemma constructor_outcomes_witness :
  constructor replicator moore 3 (-1) false density_default never_random = Err RangeError
  ∧ constructor replicator moore 3 0 false density_default never_random = Err TypeError
  ∧ constructor replicator moore (-2) 0 true density_default never_random
    = Ok (mkAutomata replicator moore [])
  ∧ constructor replicator moore (-1) 2 true density_default never_random = Err RangeError
  ∧ constructor replicator moore 0 3 false density_default never_random
    = Ok (mkAutomata replicator moore [[]; [true]; []]).
Proof.
  split; [|split; [|split; [|split]]].
  - apply (proj1 (constructor_outcomes replicator moore 3 (-1) false
                    density_default never_random)). lia.
  - apply (proj1 (proj2 (constructor_outcomes replicator moore 3 0 false
                    density_default never_random))); reflexivity.
  - apply (proj1 (proj2 (proj2 (constructor_outcomes replicator moore (-2) 0 true
                    density_default never_random)))); reflexivity.
  - apply (proj1 (proj2 (proj2 (proj2 (constructor_outcomes replicator moore (-1) 2 true
                    density_default never_random))))); lia.
  - apply (proj2 (proj2 (proj2 (proj2 (constructor_outcomes replicator moore 0 3 false
                    density_default never_random))))); (lia || reflexivity).
Defined.

(** ** More on [resize] *)

(** X4: on a rectangular grid of h0 >= 1 rows, [resize(w, h)] with w >= 1
    and h >= 1 returns; ruleset and neighbourhood are kept, every row has w
    cells, the number of rows is h when h <= h0 and h0 + ceil((h - h0) / 2)
    otherwise, the cells with x < w and y < h are those of the old grid and
    all others are dead. *)
Theorem resize_on_rectangular (w h w0 h0 : Z) (a : Automata) :
  has_dims (grid a) w0 h0 → 1 ≤ h0 → 1 ≤ w → 1 ≤ h →
  ∃ a', resize w h a = Ok a'
    ∧ ruleset a' = ruleset a ∧ neighborhood a' = neighborhood a
    ∧ has_dims (grid a') w (if h <=? h0 then h else h0 + (h - h0 + 1) / 2)
    ∧ (∀ x y, x < w → y < h → cell (grid a') x y = cell (grid a) x y)
    ∧ (∀ x y, w ≤ x ∨ h ≤ y → cell (grid a') x y = false).
Proof.
  intros Hd Hh0 Hw Hh.
  destruct (resize_rectangular w h w0 h0 a Hd Hh0 Hw Hh) as (a' & Hr & Hrs & Hnb & Hd' & Hc).
  exists a'. do 4 (split; [done|]). split.
  - intros x y Hx Hy. rewrite Hc.
    by rewrite (proj2 (Z.ltb_lt x w)), (proj2 (Z.ltb_lt y h)).
  - intros x y Hout. rewrite Hc.
    destruct (Z.ltb_spec x w), (Z.ltb_spec y h); try done. lia.
Qed.

Lemma resize_on_rectangular_witness :
  has_dims seed3x3 3 3
  ∧ ∃ a', resize 2 8 (mkAutomata replicator moore seed3x3) = Ok a'
      ∧ has_dims (grid a') 2 6
      ∧ cell (grid a') 1 1 = true.
Proof.
  assert (Hd : has_dims seed3x3 3 3) by (split; [reflexivity|by repeat constructor]).
  split; [exact Hd|].
  destruct (resize_on_rectangular 2 8 3 3 (mkAutomata replicator moore seed3x3))
    as (a' & Hr & _ & _ & Hd' & Hkept & _); [exact Hd|lia|lia|lia|].
  exists a'. split; [exact Hr|]. split; [exact Hd'|].
  rewrite Hkept by lia. reflexivity.
Defined.

(** X5: when the height asked for is at most one more than the height of
    the grid, [resize(w, h)] yields exactly a w x h grid, keeps every cell of
    the overlap and makes every new cell dead. *)
Theorem resize_exact (w h w0 h0 : Z) (a : Automata) :
  has_dims (grid a) w0 h0 → 1 ≤ h0 → 1 ≤ w → 1 ≤ h → h ≤ h0 + 1 →
  ∃ a', resize w h a = Ok a'
    ∧ has_dims (grid a') w h
    ∧ (∀ x y, 0 ≤ x < Z.min w0 w → 0 ≤ y < Z.min h0 h →
         cell (grid a') x y = cell (grid a) x y)
    ∧ (∀ x y, w0 ≤ x ∨ h0 ≤ y → cell (grid a') x y = false).
Proof.
  intros Hd Hh0 Hw Hh Hclose.
  destruct (resize_rectangular w h w0 h0 a Hd Hh0 Hw Hh) as (a' & Hr & _ & _ & Hd' & Hc).
  exists a'. split; [done|]. split; [|split].
  - by rewrite resized_height_exact in Hd'.
  - intros x y Hx Hy. rewrite Hc.
    by rewrite (proj2 (Z.ltb_lt x w)), (proj2 (Z.ltb_lt y h)) by lia.
  - intros x y Hout. rewrite Hc.
    rewrite (cell_outside _ _ _ _ _ Hd) by lia. by rewrite andb_false_r.
Qed.

Lemma resize_exact_witness :
  has_dims seed3x3 3 3
  ∧ ∃ a', resize 5 4 (mkAutomata replicator moore seed3x3) = Ok a'
      ∧ has_dims (grid a') 5 4.
Proof.
  assert (Hd : has_dims seed3x3 3 3) by (split; [reflexivity|by repeat constructor]).
  split; [exact Hd|].
  destruct (resize_exact 5 4 3 3 (mkAutomata replicator moore seed3x3))
    as (a' & Hr & Hd' & _); [exact Hd|lia|lia|lia|lia|].
  exists a'. by split.
Defined.

Lemma resize_times_reaches (n : nat) (w h w0 h0 : Z) (a : Automata) :
  has_dims (grid a) w0 h0 → 1 ≤ h0 → 1 ≤ w → 1 ≤ h →
  (1 ≤ n)%nat → h - h0 < 2 ^ Z.of_nat n →
  ∃ a', resize_times n w h a = Ok a'
    ∧ ruleset a' = ruleset a ∧ neighborhood a' = neighborhood a
    ∧ has_dims (grid a') w h
    ∧ ∀ x y, cell (grid a') x y = (x <? w) && (y <? h) && cell (grid a) x y.
Proof.
  revert a w0 h0. induction n as [|n IH]; intros a w0 h0 Hd Hh0 Hw Hh Hn Hgap; [lia|].
  simpl.
  destruct (resize_rectangular w h w0 h0 a Hd Hh0 Hw Hh) as (a1 & -> & Hrs & Hnb & Hd1 & Hc1).
  simpl.
  pose proof (resized_height_pos h h0 Hh Hh0) as Hpos.
  destruct n as [|n].
  - simpl. exists a1. do 3 (split; [done|]). split; [|done].
    rewrite resized_height_exact in Hd1; [done|].
    change (2 ^ Z.of_nat 1) with 2 in Hgap. lia.
  - destruct (IH a1 w (resized_height h h0) Hd1 Hpos Hw Hh) as (a' & Hr & Hrs' & Hnb' & Hd' & Hc');
      [lia| |].
    + unfold resized_height, pushed_rows. destruct (Z.leb_spec h h0) as [Hle|Hgt].
      * assert (0 < 2 ^ Z.of_nat (S n)) by (apply Z.pow_pos_nonneg; lia). lia.
      * rewrite (Nat2Z.inj_succ (S n)), Z.pow_succ_r in Hgap by lia.
        assert (h - h0 ≤ (h - h0 + 1) / 2 * 2).
        { pose proof (Z.div_mod (h - h0 + 1) 2 ltac:(lia)).
          pose proof (Z.mod_pos_bound (h - h0 + 1) 2 ltac:(lia)). lia. }
        lia.
    + exists a'. split; [done|]. split; [congruence|]. split; [congruence|].
      split; [done|]. intros x y. rewrite Hc', Hc1.
      destruct (x <? w), (y <? h); done.
Qed.

(** X6: calling [resize(w, h)] again and again gets there: after n >= 1
    calls with h - h0 < 2^n the grid is exactly w x h, the cells of the
    overlap with the first grid kept and all others dead. *)
Theorem resize_repeated_reaches_height (n : nat) (w h w0 h0 : Z) (a : Automata) :
  has_dims (grid a) w0 h0 → 1 ≤ h0 → 1 ≤ w → 1 ≤ h →
  (1 ≤ n)%nat → h - h0 < 2 ^ Z.of_nat n →
  ∃ a', resize_times n w h a = Ok a'
    ∧ has_dims (grid a') w h
    ∧ (∀ x y, 0 ≤ x < Z.min w0 w → 0 ≤ y < Z.min h0 h →
         cell (grid a') x y = cell (grid a) x y)
    ∧ (∀ x y, w0 ≤ x ∨ h0 ≤ y → cell (grid a') x y = false).
Proof.
  intros Hd Hh0 Hw Hh Hn Hgap.
  destruct (resize_times_reaches n w h w0 h0 a) as (a' & Hr & _ & _ & Hd' & Hc); try done.
  exists a'. split; [done|]. split; [done|]. split.
  - intros x y Hx Hy. rewrite Hc.
    by rewrite (proj2 (Z.ltb_lt x w)), (proj2 (Z.ltb_lt y h)) by lia.
  - intros x y Hout. rewrite Hc.
    rewrite (cell_outside _ _ _ _ _ Hd) by lia. by rewrite andb_false_r.
Qed.

Lemma resize_repeated_reaches_height_witness :
  has_dims seed3x3 3 3
  ∧ ∃ a', resize_times 3 2 8 (mkAutomata replicator moore seed3x3) = Ok a'
      ∧ has_dims (grid a') 2 8.
Proof.
  assert (Hd : has_dims seed3x3 3 3) by (split; [reflexivity|by repeat constructor]).
  split; [exact Hd|].
  destruct (resize_repeated_reaches_height 3 2 8 3 3 (mkAutomata replicator moore seed3x3))
    as (a' & Hr & Hd' & _); [exact Hd|lia|lia|lia|lia|reflexivity|].
  exists a'. by split.
Defined.

(** ** The errors of [resize] *)

Lemma resize_no_row (w h : Z) (a : Automata) :
  grid a = [] → 1 ≤ w → 1 ≤ h → resize w h a = Err TypeError.
Proof.
  intros Hg Hw Hh. unfold resize.
  rewrite (proj2 (Z.ltb_ge w 1)), (proj2 (Z.ltb_ge h 1)) by lia. simpl.
  by rewrite Hg.
Qed.

Lemma pad_rows_long (w : Z) (l : Grid) (long : list bool) :
  long ∈ l → w < JS.length long →
  mapR (λ row, pad ← JS.new_Array_fill (w - JS.length row) false; Ok (row ++ pad)) l
  = Err RangeError.
Proof.
  induction l as [|row l IH]; intros Hin Hlong; [by apply elem_of_nil in Hin|].
  simpl. destruct (Z.lt_ge_cases (w - JS.length row) 0) as [Hneg|Hok].
  - by rewrite new_Array_fill_Err.
  - rewrite (new_Array_fill_Ok (w - JS.length row)) by done. simpl.
    apply elem_of_cons in Hin as [->|Hin]; [lia|].
    by rewrite IH.
Qed.

Lemma resize_ragged (w h : Z) (a : Automata) (row0 long : list bool) (rest : Grid) :
  grid a = row0 :: rest → long ∈ rest →
  JS.length row0 < w < JS.length long → 1 ≤ h →
  resize w h a = Err RangeError.
Proof.
  intros Hg Hin [Hlo Hhi] Hh. unfold resize.
  assert (0 ≤ JS.length row0) by (unfold JS.length; lia).
  rewrite Hg, (pad_rows_long w (row0 :: rest) long); [|by right|done].
  rewrite (proj2 (Z.ltb_ge w 1)), (proj2 (Z.ltb_ge h 1)) by lia.
  rewrite row0_length_cons. cbn [orb mbind result_bind].
  rewrite (proj2 (Z.eqb_neq w (JS.length row0))) by lia. cbn [andb].
  rewrite (proj2 (Z.ltb_ge w (JS.length row0))) by lia.
  by rewrite (proj2 (Z.gtb_gt w (JS.length row0))) by lia.
Qed.

(** X7: [resize] with positive arguments fails with TypeError on a grid
    with no row, and with RangeError on a ragged grid whose first row is
    shorter than the width asked for while a later row is longer; it never
    fails with anything but these two. *)
Theorem resize_failures (w h : Z) (a : Automata) :
  (grid a = [] → 1 ≤ w → 1 ≤ h → resize w h a = Err TypeError)
  ∧ (∀ row0 rest long,
       grid a = row0 :: rest → long ∈ rest →
       JS.length row0 < w < JS.length long → 1 ≤ h →
       resize w h a = Err RangeError)
  ∧ (∀ e, resize w h a = Err e → e = RangeError ∨ e = TypeError).
Proof.
  split; [apply resize_no_row|]. split.
  - intros row0 rest long. apply resize_ragged.
  - intros e. apply resize_errors.
Qed.

Lemma resize_failures_witness :
  resize 1 1 (mkAutomata replicator moore []) = Err TypeError
  ∧ resize 2 2 (mkAutomata replicator moore [[true]; [true; true; true]]) = Err RangeError.
Proof.
  split.
  - apply (proj1 (resize_failures 1 1 (mkAutomata replicator moore []))); [reflexivity|lia|lia].
  - apply (proj1 (proj2 (resize_failures 2 2
             (mkAutomata replicator moore [[true]; [true; true; true]])))
             [true] [[true; true; true]] [true; true; true]);
      [reflexivity|by left|unfold JS.length; simpl; lia|lia].
Defined.

(** ** More on [update] *)

Lemma width_nonneg (g : Grid) : 0 ≤ width g.
Proof. destruct g; unfold width, JS.length; lia. Qed.

Lemma height_nonneg (g : Grid) : 0 ≤ height g.
Proof. unfold height, JS.length. lia. Qed.

(** X8: [update] reads the ruleset through the SURVIVE and BIRTH bits of
    the entries 0..8 only (0..4 under von Neumann): two rulesets that agree
    on these bits, whatever their other bits, other entries and lengths, lead
    from the same grid to the same grid. *)
Theorem update_reads_flags (rs rs' : list Z) (nb : AutomataNeighborhood) (g : Grid) :
  (∀ n, 0 ≤ n ≤ max_neighbors nb →
     has_flag rs n SURVIVE = has_flag rs' n SURVIVE
     ∧ has_flag rs n BIRTH = has_flag rs' n BIRTH) →
  ∃ g', update (mkAutomata rs nb g) = Ok (mkAutomata rs nb g')
      ∧ update (mkAutomata rs' nb g) = Ok (mkAutomata rs' nb g').
Proof.
  intros Hflags. eexists. split; [apply update_eq|].
  rewrite update_eq. simpl. do 2 f_equal.
  apply tabulate_ext; [apply width_nonneg|apply height_nonneg|].
  intros x y _ _. unfold next_state. simpl.
  rewrite !rule_bit_survive, !rule_bit_birth.
  destruct (Hflags _ (count_over_bounds g x y nb)) as [-> ->]. done.
Qed.

Lemma update_reads_flags_witness :
  ∃ g', update (mkAutomata replicator moore seed3x3) = Ok (mkAutomata replicator moore g')
      ∧ update (mkAutomata [4; 7; 8; 19; 0; 3; 0; 3; 0; 1; 1] moore seed3x3)
        = Ok (mkAutomata [4; 7; 8; 19; 0; 3; 0; 3; 0; 1; 1] moore g').
Proof.
  apply (update_reads_flags replicator [4; 7; 8; 19; 0; 3; 0; 3; 0; 1; 1] moore seed3x3).
  intros n Hn. simpl in Hn.
  assert (n = 0 ∨ n = 1 ∨ n = 2 ∨ n = 3 ∨ n = 4 ∨ n = 5 ∨ n = 6 ∨ n = 7 ∨ n = 8)
    as Hcases by lia.
  repeat (destruct Hcases as [->|Hcases]; [split; reflexivity|]).
  subst n. split; reflexivity.
Defined.

Lemma count_over_dead (g : Grid) (x y : Z) (offs : list (Z * Z)) :
  (∀ x y, cell g x y = false) → count_over g x y offs = 0.
Proof.
  intros Hdead. unfold count_over.
  rewrite foldl_count_sum, Z.add_0_l.
  induction offs as [|o offs IH]; [done|]. simpl.
  unfold counted at 1. by rewrite Hdead, andb_false_r.
Qed.

(** X9: one step from a grid of dead cells gives a grid of which every
    cell is alive iff entry 0 of the ruleset has BIRTH: the dead grid stays
    dead iff entry 0 has no BIRTH. *)
Theorem dead_grid_step (rs : list Z) (nb : AutomataNeighborhood) (g : Grid) (w h : Z) :
  has_dims g w h → 1 ≤ h →
  (∀ x y, cell g x y = false) →
  ∃ a', update (mkAutomata rs nb g) = Ok a'
    ∧ has_dims (grid a') w h
    ∧ ∀ x y, 0 ≤ x < w → 0 ≤ y < h → cell (grid a') x y = has_flag rs 0 BIRTH.
Proof.
  intros Hd Hh Hdead.
  destruct (update_cells (mkAutomata rs nb g)) as (a' & Hup & _ & _ & Hd' & Hc).
  simpl in *. rewrite (width_dims _ _ _ Hd Hh) in *.
  unfold height in *. rewrite (proj1 Hd) in *.
  exists a'. split; [done|]. split; [done|].
  intros x y Hx Hy. rewrite Hc by done. unfold next_state. simpl.
  rewrite Hdead, count_over_dead by done. apply rule_bit_birth.
Qed.

Lemma cell_dead_table (w h x y : Z) :
  0 ≤ w → 0 ≤ h → cell (tabulate w h (λ _ _, false)) x y = false.
Proof.
  intros Hw Hh. destruct (decide (0 ≤ x < w ∧ 0 ≤ y < h)) as [[Hx Hy]|Hout].
  - by rewrite cell_tabulate.
  - eapply cell_outside; [by apply tabulate_dims|done].
Qed.

Lemma dead_grid_step_witness :
  has_dims (tabulate 2 2 (λ _ _, false)) 2 2
  ∧ ∃ a', update (mkAutomata [2] moore (tabulate 2 2 (λ _ _, false))) = Ok a'
      ∧ has_flag [2] 0 BIRTH = true
      ∧ cell (grid a') 1 1 = true.
Proof.
  assert (Hd : has_dims (tabulate 2 2 (λ _ _, false)) 2 2) by (by apply tabulate_dims).
  split; [exact Hd|].
  destruct (dead_grid_step [2] moore (tabulate 2 2 (λ _ _, false)) 2 2)
    as (a' & Hup & _ & Hc); [exact Hd|lia| |].
  - intros x y. by apply cell_dead_table.
  - exists a'. split; [exact Hup|]. split; [reflexivity|].
    rewrite Hc by lia. reflexivity.
Defined.

(** ** More on [getNeighbors] *)

Lemma getNeighbors_no_row (a : Automata) (x y : Z) :
  grid a = [] →
  getNeighbors a x y = if -1 <=? x then Err TypeError else Ok 0.
Proof.
  intros Hg. unfold getNeighbors. rewrite Hg.
  destruct (neighborhood a); cbn [offsets app foldM fst snd];
    rewrite !Z.geb_leb;
    destruct (Z.leb_spec (-1) x) as [Hx|Hx];
    repeat match goal with
      | |- context [0 <=? ?n] =>
          first [ rewrite (proj2 (Z.leb_le 0 n)) by lia
                | rewrite (proj2 (Z.leb_gt 0 n)) by lia
                | destruct (Z.leb_spec 0 n) ]; cbn [mbind result_bind row0_length JS.get]
      end; try done; try lia.
Qed.

(** X10: on any grid with a row, rectangular or not, and at any
    coordinates, inside the grid or not, [getNeighbors] returns a count
    within [0, 8] (Moore) or [0, 4] (von Neumann); on the grid with no row it
    throws TypeError for x >= -1 and returns 0 for x < -1. *)
Theorem getNeighbors_any_grid (a : Automata) (x y : Z) :
  (grid a ≠ [] →
     ∃ n, getNeighbors a x y = Ok n ∧ 0 ≤ n ≤ max_neighbors (neighborhood a))
  ∧ (grid a = [] → -1 ≤ x → getNeighbors a x y = Err TypeError)
  ∧ (grid a = [] → x < -1 → getNeighbors a x y = Ok 0).
Proof.
  split; [|split].
  - intros Hg. eexists. split; [by apply getNeighbors_count|apply count_over_bounds].
  - intros Hg Hx. rewrite getNeighbors_no_row by done.
    by rewrite (proj2 (Z.leb_le (-1) x)).
  - intros Hg Hx. rewrite getNeighbors_no_row by done.
    by rewrite (proj2 (Z.leb_gt (-1) x)).
Qed.

Lemma getNeighbors_any_grid_witness :
  (∃ n, getNeighbors (mkAutomata replicator moore [[true]; [true; true; true]]) 7 (-3) = Ok n
        ∧ 0 ≤ n ≤ 8)
  ∧ getNeighbors (mkAutomata replicator moore []) 0 0 = Err TypeError
  ∧ getNeighbors (mkAutomata replicator moore []) (-2) 0 = Ok 0.
Proof.
  split; [|split].
  - apply (proj1 (getNeighbors_any_grid
             (mkAutomata replicator moore [[true]; [true; true; true]]) 7 (-3))). done.
  - apply (proj1 (proj2 (getNeighbors_any_grid (mkAutomata replicator moore []) 0 0)));
      [reflexivity|lia].
  - apply (proj2 (proj2 (getNeighbors_any_grid (mkAutomata replicator moore []) (-2) 0)));
      [reflexivity|lia].
Defined.

(** ** [update] is local *)

Lemma offsets_near (nb : AutomataNeighborhood) :
  Forall (λ o : Z * Z, -1 ≤ o.1 ≤ 1 ∧ -1 ≤ o.2 ≤ 1) (offsets nb).
Proof. destruct nb; repeat constructor; simpl; lia. Qed.

Lemma count_over_ext (g1 g2 : Grid) (x y : Z) (offs : list (Z * Z)) :
  Forall (λ o : Z * Z, counted g1 (x + o.1) (y + o.2) = counted g2 (x + o.1) (y + o.2)) offs →
  count_over g1 x y offs = count_over g2 x y offs.
Proof.
  intros Hall. unfold count_over. rewrite !foldl_count_sum. f_equal.
  induction Hall as [|o offs Ho _ IH]; [done|]. simpl. by rewrite Ho, IH.
Qed.

(** X11: [update] is local: on two grids of the same dimensions that agree
    on the 3 x 3 block around a cell, the cell has the same state after one
    step. *)
Theorem update_is_local (rs : list Z) (nb : AutomataNeighborhood)
    (g1 g2 : Grid) (w h x y : Z) :
  has_dims g1 w h → has_dims g2 w h →
  0 ≤ x < w → 0 ≤ y < h →
  (∀ dx dy, -1 ≤ dx ≤ 1 → -1 ≤ dy ≤ 1 →
     cell g1 (x + dx) (y + dy) = cell g2 (x + dx) (y + dy)) →
  ∃ a1 a2, update (mkAutomata rs nb g1) = Ok a1
         ∧ update (mkAutomata rs nb g2) = Ok a2
         ∧ cell (grid a1) x y = cell (grid a2) x y.
Proof.
  intros Hd1 Hd2 Hx Hy Hnear.
  assert (Hh : 1 ≤ h) by lia.
  destruct (update_cells (mkAutomata rs nb g1)) as (a1 & Hup1 & _ & _ & _ & Hc1).
  destruct (update_cells (mkAutomata rs nb g2)) as (a2 & Hup2 & _ & _ & _ & Hc2).
  simpl in *. exists a1, a2. do 2 (split; [done|]).
  rewrite (width_dims _ _ _ Hd1 Hh) in Hc1. rewrite (width_dims _ _ _ Hd2 Hh) in Hc2.
  unfold height in *. rewrite (proj1 Hd1) in Hc1. rewrite (proj1 Hd2) in Hc2.
  rewrite Hc1, Hc2 by done. unfold next_state. simpl.
  pose proof (Hnear 0 0 ltac:(lia) ltac:(lia)) as H0. rewrite !Z.add_0_r in H0.
  rewrite H0. rewrite (count_over_ext g1 g2); [done|].
  eapply Forall_impl; [apply offsets_near|]. intros [dx dy] [Hdx Hdy]. simpl in *.
  unfold counted, height.
  rewrite (width_dims _ _ _ Hd1 Hh), (width_dims _ _ _ Hd2 Hh), (proj1 Hd1), (proj1 Hd2).
  by rewrite Hnear.
Qed.

Lemma update_is_local_witness :
  ∃ a1 a2, update (mkAutomata replicator moore seed3x3) = Ok a1
         ∧ update (mkAutomata replicator moore
                     [[false; false; true]; [false; true; true]; [false; false; true]]) = Ok a2
         ∧ cell (grid a1) 0 1 = cell (grid a2) 0 1.
Proof.
  apply (update_is_local replicator moore seed3x3
           [[false; false; true]; [false; true; true]; [false; false; true]] 3 3 0 1).
  - split; [reflexivity|by repeat constructor].
  - split; [reflexivity|by repeat constructor].
  - lia.
  - lia.
  - intros dx dy Hdx Hdy.
    assert (dx = -1 ∨ dx = 0 ∨ dx = 1) as [->|[->| ->]] by lia;
    assert (dy = -1 ∨ dy = 0 ∨ dy = 1) as [->|[->| ->]] by lia; reflexivity.
Defined.

(** ** [update] has no preferred direction *)

Lemma get_reverse {A : Type} (l : list A) (i : Z) :
  JS.get (reverse l) i = JS.get l (JS.length l - 1 - i).
Proof.
  unfold JS.length.
  destruct (decide (0 ≤ i < Z.of_nat (length l))) as [Hi|Hout].
  - rewrite !get_in by lia. rewrite reverse_lookup by lia. f_equal. lia.
  - destruct (Z.ltb_spec i 0).
    + rewrite get_neg by done. symmetry. apply get_beyond. unfold JS.length. lia.
    + rewrite get_beyond by (unfold JS.length; rewrite length_reverse; lia).
      symmetry. apply get_neg. lia.
Qed.

Lemma mirror_columns_dims (g : Grid) (w h : Z) :
  has_dims g w h → has_dims (mirror_columns g) w h.
Proof.
  intros [Hlen Hrows]. split; unfold mirror_columns, JS.length in *.
  - by rewrite length_fmap.
  - apply Forall_fmap. eapply Forall_impl; [exact Hrows|].
    intros row Hrow. simpl. by rewrite length_reverse.
Qed.

Lemma mirror_rows_dims (g : Grid) (w h : Z) :
  has_dims g w h → has_dims (mirror_rows g) w h.
Proof.
  intros [Hlen Hrows]. split; unfold mirror_rows, JS.length in *.
  - by rewrite length_reverse.
  - by apply Forall_reverse.
Qed.

Lemma cell_mirror_columns (g : Grid) (w h x y : Z) :
  has_dims g w h → cell (mirror_columns g) x y = cell g (w - 1 - x) y.
Proof.
  intros Hd. unfold cell, mirror_columns.
  destruct (Z.ltb_spec y 0) as [Hneg|Hy]; [by rewrite !get_neg|].
  rewrite !get_in by done. rewrite list_lookup_fmap.
  destruct (g !! Z.to_nat y) as [row|] eqn:Hrow; simpl; [|done].
  rewrite get_reverse. by rewrite (has_dims_row _ _ _ _ _ Hd Hrow).
Qed.

Lemma cell_mirror_rows (g : Grid) (w h x y : Z) :
  has_dims g w h → cell (mirror_rows g) x y = cell g x (h - 1 - y).
Proof.
  intros [Hlen _]. unfold cell, mirror_rows. by rewrite get_reverse, Hlen.
Qed.

Lemma counted_mirror_columns (g : Grid) (w h nx ny : Z) :
  has_dims g w h → 1 ≤ h →
  counted (mirror_columns g) nx ny = counted g (w - 1 - nx) ny.
Proof.
  intros Hd Hh. pose proof (mirror_columns_dims _ _ _ Hd) as Hd'.
  rewrite !(counted_alive_at _ w h) by done. unfold alive_at.
  rewrite (cell_mirror_columns g w h) by done.
  repeat case_bool_decide; try done; exfalso; lia.
Qed.

Lemma counted_mirror_rows (g : Grid) (w h nx ny : Z) :
  has_dims g w h → 1 ≤ h →
  counted (mirror_rows g) nx ny = counted g nx (h - 1 - ny).
Proof.
  intros Hd Hh. pose proof (mirror_rows_dims _ _ _ Hd) as Hd'.
  rewrite !(counted_alive_at _ w h) by done. unfold alive_at.
  rewrite (cell_mirror_rows g w h) by done.
  repeat case_bool_decide; try done; exfalso; lia.
Qed.

Ltac mirrored_count :=
  unfold count_over; rewrite !foldl_count_sum;
  match goal with |- context [offsets ?nb] => destruct nb end;
  cbn [offsets app foldr fst snd].

Lemma count_over_mirror_columns (nb : AutomataNeighborhood) (g : Grid) (w h x y : Z) :
  has_dims g w h → 1 ≤ h →
  count_over (mirror_columns g) x y (offsets nb) = count_over g (w - 1 - x) y (offsets nb).
Proof.
  intros Hd Hh. mirrored_count;
    rewrite !(counted_mirror_columns g w h) by done;
    replace (w - 1 - (x + 0)) with (w - 1 - x + 0) by lia;
    replace (w - 1 - (x + 1)) with (w - 1 - x + -1) by lia;
    replace (w - 1 - (x + -1)) with (w - 1 - x + 1) by lia; lia.
Qed.

Lemma count_over_mirror_rows (nb : AutomataNeighborhood) (g : Grid) (w h x y : Z) :
  has_dims g w h → 1 ≤ h →
  count_over (mirror_rows g) x y (offsets nb) = count_over g x (h - 1 - y) (offsets nb).
Proof.
  intros Hd Hh. mirrored_count;
    rewrite !(counted_mirror_rows g w h) by done;
    replace (h - 1 - (y + 0)) with (h - 1 - y + 0) by lia;
    replace (h - 1 - (y + 1)) with (h - 1 - y + -1) by lia;
    replace (h - 1 - (y + -1)) with (h - 1 - y + 1) by lia; lia.
Qed.

Lemma update_dims (a : Automata) (w h : Z) :
  has_dims (grid a) w h → 1 ≤ h →
  ∃ g', update a = Ok (mkAutomata (ruleset a) (neighborhood a) g')
      ∧ has_dims g' w h
      ∧ ∀ x y, 0 ≤ x < w → 0 ≤ y < h → cell g' x y = next_state a x y.
Proof.
  intros Hd Hh. eexists. split; [apply update_eq|].
  rewrite (width_dims _ _ _ Hd Hh). unfold height. rewrite (proj1 Hd).
  assert (0 ≤ w).
  { rewrite <- (width_dims _ _ _ Hd Hh). destruct (grid a); unfold width, JS.length; lia. }
  split; [apply tabulate_dims; lia|].
  intros x y Hx Hy. by apply cell_tabulate.
Qed.

(** X12: [update] has no preferred direction: the step of the grid
    mirrored left to right, or top to bottom, is the mirrored step of the
    grid. *)
Theorem update_commutes_with_mirrors (rs : list Z) (nb : AutomataNeighborhood)
    (g : Grid) (w h : Z) :
  has_dims g w h → 1 ≤ h →
  ∃ g', update (mkAutomata rs nb g) = Ok (mkAutomata rs nb g')
      ∧ update (mkAutomata rs nb (mirror_columns g))
        = Ok (mkAutomata rs nb (mirror_columns g'))
      ∧ update (mkAutomata rs nb (mirror_rows g))
        = Ok (mkAutomata rs nb (mirror_rows g')).
Proof.
  intros Hd Hh.
  destruct (update_dims (mkAutomata rs nb g) w h Hd Hh) as (g' & Hup & Hd' & Hc).
  destruct (update_dims (mkAutomata rs nb (mirror_columns g)) w h
              (mirror_columns_dims _ _ _ Hd) Hh) as (gc & Hupc & Hdc & Hcc).
  destruct (update_dims (mkAutomata rs nb (mirror_rows g)) w h
              (mirror_rows_dims _ _ _ Hd) Hh) as (gr & Hupr & Hdr & Hcr).
  simpl in *. exists g'. split; [done|]. split.
  - rewrite Hupc. do 2 f_equal.
    apply (grid_ext _ _ w h); [done|by apply mirror_columns_dims|].
    intros x y Hx Hy. rewrite Hcc by done.
    rewrite (cell_mirror_columns g' w h), Hc by (done || lia).
    unfold next_state. simpl.
    rewrite (cell_mirror_columns g w h) by done.
    by rewrite (count_over_mirror_columns nb g w h).
  - rewrite Hupr. do 2 f_equal.
    apply (grid_ext _ _ w h); [done|by apply mirror_rows_dims|].
    intros x y Hx Hy. rewrite Hcr by done.
    rewrite (cell_mirror_rows g' w h), Hc by (done || lia).
    unfold next_state. simpl.
    rewrite (cell_mirror_rows g w h) by done.
    by rewrite (count_over_mirror_rows nb g w h).
Qed.

Lemma update_commutes_with_mirrors_witness :
  has_dims [[true; false; false]; [true; true; false]] 3 2
  ∧ ∃ g', update (mkAutomata life moore [[true; false; false]; [true; true; false]])
          = Ok (mkAutomata life moore g')
      ∧ update (mkAutomata life moore [[false; false; true]; [false; true; true]])
        = Ok (mkAutomata life moore (mirror_columns g'))
      ∧ update (mkAutomata life moore [[true; true; false]; [true; false; false]])
        = Ok (mkAutomata life moore (mirror_rows g')).
Proof.
  assert (Hd : has_dims [[true; false; false]; [true; true; false]] 3 2)
    by (split; [reflexivity|by repeat constructor]).
  split; [exact Hd|].
  apply (update_commutes_with_mirrors life moore
           [[true; false; false]; [true; true; false]] 3 2 Hd). lia.
Defined.

(** ** [flipboard.ts]: the board of flipping cells

    The DOM node of a cell is not modelled but for the one thing the class
    changes on it after its creation, the presence of the CSS class
    [flip-cell-active] ([active]).  A [state] is a boolean, or [undefined]
    ([None]) when it was read past the end of a row. *)

Section js_arrays.
Context {A : Type}.

Lemma get_insert_eq (l : list A) (i : Z) (v : A) :
  0 ≤ i < JS.length l → JS.get (<[Z.to_nat i := v]> l) i = Some v.
Proof.
  intros Hi. rewrite get_in by lia. apply list_lookup_insert_eq.
  unfold JS.length in Hi. lia.
Qed.

Lemma get_insert_ne (l : list A) (i j : Z) (v : A) :
  0 ≤ i → i ≠ j → JS.get (<[Z.to_nat i := v]> l) j = JS.get l j.
Proof.
  intros Hi Hne. unfold JS.get. destruct (j <? 0) eqn:Hj; [done|].
  apply Z.ltb_ge in Hj. apply list_lookup_insert_ne. lia.
Qed.

Lemma length_insert_Z (l : list A) (i : nat) (v : A) :
  JS.length (<[i := v]> l) = JS.length l.
Proof. unfold JS.length. by rewrite length_insert. Qed.

End js_arrays.

Lemma for_upto_ext {S : Type} (n : Z) (body1 body2 : Z → S → result S) (s : S) :
  (∀ i s, 0 ≤ i < n → body1 i s = body2 i s) →
  for_upto n body1 s = for_upto n body2 s.
Proof.
  intros Hext. unfold for_upto.
  assert (Hall : Forall (λ i, 0 ≤ i < n) (seqZ 0 n)).
  { apply Forall_forall. intros i Hi. apply list_elem_of_lookup in Hi as [k Hk].
    apply lookup_seqZ in Hk. lia. }
  revert s. induction Hall as [|i l Hi _ IH]; intros s; [done|].
  simpl. rewrite Hext by done. destruct (body2 i s); simpl; [apply IH|done].
Qed.

(** ** [setOne] *)

Lemma setOne_ignored (b : FlipBoard.t) (x y : Z) (st : option bool) (um : bool) :
  ¬ (0 ≤ x < FlipBoard.gridWidth b ∧ 0 ≤ y < FlipBoard.gridHeight b) →
  FlipBoard.setOne b x y st um = Ok b.
Proof.
  intros Hout. unfold FlipBoard.setOne.
  destruct (Z.ltb_spec x 0), (Z.geb_spec x (FlipBoard.gridWidth b)),
    (Z.ltb_spec y 0), (Z.geb_spec y (FlipBoard.gridHeight b)); simpl; try done.
  exfalso. lia.
Qed.

Lemma cell_index (gw gh x y : Z) :
  0 ≤ x < gw → 0 ≤ y < gh → 0 ≤ y * gw + x < gw * gh.
Proof. intros Hx Hy. nia. Qed.

Lemma cell_index_inj (gw x y x' y' : Z) :
  0 ≤ x < gw → 0 ≤ x' < gw → y * gw + x = y' * gw + x' → x = x' ∧ y = y'.
Proof. intros Hx Hx' Heq. assert (y = y') by nia. subst. lia. Qed.

Lemma setOne_written (b : FlipBoard.t) (x y : Z) (st : option bool) :
  well_formed b →
  0 ≤ x < FlipBoard.gridWidth b → 0 ≤ y < FlipBoard.gridHeight b →
  ∃ e column,
    element_at b x y = Some e
    ∧ JS.get (FlipBoard.displayMatrix b) x = Some column
    ∧ JS.length column = FlipBoard.gridHeight b
    ∧ FlipBoard.setOne b x y st true
      = Ok (FlipBoard.mk
              (<[Z.to_nat (y * FlipBoard.gridWidth b + x) := (FlipElement.set e st).1]>
                 (FlipBoard.board b))
              (FlipBoard.width b) (FlipBoard.height b)
              (<[Z.to_nat x := <[Z.to_nat y := st]> column]> (FlipBoard.displayMatrix b))
              (FlipBoard.gridWidth b) (FlipBoard.gridHeight b) (FlipBoard.cellSize b)).
Proof.
  intros (Hgw & Hgh & Hboard & Hcols & Hcol) Hx Hy.
  pose proof (cell_index _ _ _ _ Hx Hy) as Hi.
  destruct (get_is_Some (FlipBoard.board b) (y * FlipBoard.gridWidth b + x)) as [e He];
    [by rewrite Hboard|].
  destruct (get_is_Some (FlipBoard.displayMatrix b) x) as [column Hc]; [by rewrite Hcols|].
  assert (Hlen : JS.length column = FlipBoard.gridHeight b).
  { rewrite get_in in Hc by lia. by eapply (proj1 (Forall_lookup _ _) Hcol). }
  exists e, column. split; [done|]. split; [done|]. split; [done|].
  unfold FlipBoard.setOne.
  rewrite (proj2 (Z.ltb_ge x 0)), (proj2 (Z.ltb_ge y 0)) by lia.
  rewrite !Z.geb_leb, (proj2 (Z.leb_gt _ x)), (proj2 (Z.leb_gt _ y)) by lia. simpl.
  unfold element_at in He. rewrite He, Hc.
  by rewrite set_in by lia.
Qed.

Lemma painted_refl (b : FlipBoard.t) (v : Z → Z → option bool) :
  well_formed b → painted b b (λ _ _, False) v.
Proof.
  intros Hwf. do 6 (split; [done|]). intros x y _ _. by split.
Qed.

Lemma painted_ext (b b' : FlipBoard.t) (P P' : Z → Z → Prop) (v : Z → Z → option bool) :
  (∀ x y, 0 ≤ x < FlipBoard.gridWidth b → 0 ≤ y < FlipBoard.gridHeight b → P x y ↔ P' x y) →
  painted b b' P v → painted b b' P' v.
Proof.
  intros Hiff (Hwf & Hgw & Hgh & Hw & Hh & Hcs & Hcells).
  do 6 (split; [done|]). intros x y Hx Hy.
  destruct (Hcells x y Hx Hy) as [Hin Hout]. split.
  - intros HP. apply Hin. by apply Hiff.
  - intros HP. apply Hout. by rewrite Hiff.
Qed.

(** One more cell painted *)
Lemma painted_step (b s : FlipBoard.t) (P : Z → Z → Prop) (v : Z → Z → option bool) (x y : Z) :
  painted b s P v →
  (0 ≤ x < FlipBoard.gridWidth b → 0 ≤ y < FlipBoard.gridHeight b → ¬ P x y) →
  ∃ s', FlipBoard.setOne s x y (v x y) true = Ok s'
      ∧ painted b s' (λ x' y', P x' y' ∨ (x' = x ∧ y' = y)) v.
Proof.
  intros (Hwf & Hgw & Hgh & Hw & Hh & Hcs & Hcells) Hfresh.
  destruct (decide (0 ≤ x < FlipBoard.gridWidth s ∧ 0 ≤ y < FlipBoard.gridHeight s))
    as [[Hx Hy]|Hout].
  2:{ exists s. split; [by apply setOne_ignored|].
      do 6 (split; [done|]). intros x' y' Hx' Hy'.
      destruct (Hcells x' y' Hx' Hy') as [Hin Hkeep]. split.
      - intros [HP|[-> ->]]; [by apply Hin|]. exfalso. apply Hout. lia.
      - intros HP. apply Hkeep. tauto. }
  destruct (setOne_written s x y (v x y) Hwf Hx Hy) as (e & column & He & Hc & Hlen & ->).
  eexists. split; [done|].
  pose proof Hwf as (Hgw0 & Hgh0 & Hboard & Hcols & Hcol).
  pose proof (cell_index _ _ _ _ Hx Hy) as Hi.
  split.
  { repeat split; simpl; try done.
    - by rewrite length_insert_Z.
    - by rewrite length_insert_Z.
    - apply Forall_insert; [done|]. by rewrite length_insert_Z. }
  simpl. do 5 (split; [done|]). intros x' y' Hx' Hy'.
  rewrite <- Hgw in Hx'. rewrite <- Hgh in Hy'.
  unfold element_at, display_at. simpl.
  destruct (decide (x' = x ∧ y' = y)) as [[-> ->]|Hne].
  - split; [|intros HP; exfalso; apply HP; by right].
    intros _. rewrite !get_insert_eq by lia. simpl.
    rewrite get_insert_eq by lia. split; [done|].
    destruct (Hcells x y) as [_ Hkeep]; [lia|lia|].
    destruct (Hkeep (Hfresh ltac:(lia) ltac:(lia))) as [_ Hsame].
    change (JS.get (FlipBoard.board b) (y * FlipBoard.gridWidth b + x))
      with (element_at b x y).
    by rewrite <- Hsame, He.
  - assert (Hidx : y * FlipBoard.gridWidth s + x ≠ y' * FlipBoard.gridWidth s + x').
    { intros Heq. apply Hne. by destruct (cell_index_inj _ _ _ _ _ Hx Hx' Heq). }
    rewrite (get_insert_ne (FlipBoard.board s) (y * FlipBoard.gridWidth s + x)
               (y' * FlipBoard.gridWidth s + x')) by (lia || done).
    assert (Hdisp :
      (JS.get (<[Z.to_nat x := <[Z.to_nat y := v x y]> column]> (FlipBoard.displayMatrix s)) x'
         ≫= λ c, mjoin (JS.get c y'))
      = (JS.get (FlipBoard.displayMatrix s) x' ≫= λ c, mjoin (JS.get c y'))).
    { destruct (decide (x' = x)) as [->|Hxne].
      - rewrite get_insert_eq, Hc by lia. simpl.
        by rewrite get_insert_ne by lia.
      - by rewrite get_insert_ne by lia. }
    rewrite Hdisp.
    destruct (Hcells x' y') as [Hin Hkeep]; [lia|lia|].
    split.
    + intros [HP|Heq]; [exact (Hin HP)|done].
    + intros HP. apply Hkeep. tauto.
Qed.

(** A loop of [setOne] along the cells [c 0], ..., [c (n - 1)] *)
Lemma paint_line (b s : FlipBoard.t) (P : Z → Z → Prop) (v : Z → Z → option bool)
    (n : Z) (c : Z → Z * Z) :
  painted b s P v →
  (∀ i, 0 ≤ i < n → ¬ P (c i).1 (c i).2) →
  (∀ i j, 0 ≤ i < j → j < n → c i ≠ c j) →
  ∃ s', for_upto n (λ i s, FlipBoard.setOne s (c i).1 (c i).2 (v (c i).1 (c i).2) true) s = Ok s'
      ∧ painted b s' (λ x y, P x y ∨ ∃ i, 0 ≤ i < n ∧ c i = (x, y)) v.
Proof.
  intros Hs Hfresh Hinj.
  destruct (Z.lt_ge_cases n 0) as [Hneg|Hn].
  { exists s. split; [apply for_upto_nil; lia|].
    eapply painted_ext; [|exact Hs]. intros x y _ _. split; [by left|].
    intros [HP|(i & Hi & _)]; [done|lia]. }
  destruct (for_upto_inv
    (λ k s', painted b s' (λ x y, P x y ∨ ∃ i, 0 ≤ i < k ∧ c i = (x, y)) v) n
    (λ i s, FlipBoard.setOne s (c i).1 (c i).2 (v (c i).1 (c i).2) true) s)
    as (s' & Hrun & Hs'); [done| | |by exists s'].
  - eapply painted_ext; [|exact Hs]. intros x y _ _. split; [by left|].
    intros [HP|(i & Hi & _)]; [done|lia].
  - intros k s1 Hk Hs1.
    destruct (painted_step b s1 _ v (c k).1 (c k).2 Hs1) as (s2 & Hset & Hs2).
    + intros _ _ [HP|(i & Hi & Hci)].
      * by apply (Hfresh k).
      * apply (Hinj i k); [lia|lia|]. rewrite Hci. by destruct (c k).
    + exists s2. split; [done|].
      eapply painted_ext; [|exact Hs2]. intros x y _ _. simpl. split.
      * intros [[HP|(i & Hi & Hci)]|[-> ->]].
        -- by left.
        -- right. exists i. split; [lia|done].
        -- right. exists k. split; [lia|]. by destruct (c k).
      * intros [HP|(i & Hi & Hci)]; [by left; left|].
        destruct (decide (i = k)) as [->|Hne].
        -- right. by rewrite Hci.
        -- left. right. exists i. split; [lia|done].
Qed.

(** Two nested loops of [setOne] over the cells [c o i] *)
Lemma paint_rectangle (b : FlipBoard.t) (v : Z → Z → option bool)
    (n m : Z) (c : Z → Z → Z * Z) :
  well_formed b →
  (∀ o i o' i', c o i = c o' i' → o = o' ∧ i = i') →
  ∃ b', for_upto n (λ o s,
          for_upto m (λ i s,
            FlipBoard.setOne s (c o i).1 (c o i).2 (v (c o i).1 (c o i).2) true) s) b = Ok b'
      ∧ painted b b' (λ x y, ∃ o i, 0 ≤ o < n ∧ 0 ≤ i < m ∧ c o i = (x, y)) v.
Proof.
  intros Hwf Hinj.
  destruct (Z.lt_ge_cases n 0) as [Hneg|Hn].
  { exists b. split; [apply for_upto_nil; lia|].
    eapply painted_ext; [|by apply painted_refl]. intros x y _ _. split; [done|].
    intros (o & i & Ho & _). lia. }
  destruct (for_upto_inv
    (λ k s, painted b s (λ x y, ∃ o i, 0 ≤ o < k ∧ 0 ≤ i < m ∧ c o i = (x, y)) v) n
    (λ o s, for_upto m (λ i s,
       FlipBoard.setOne s (c o i).1 (c o i).2 (v (c o i).1 (c o i).2) true) s) b)
    as (b' & Hrun & Hb'); [done| | |by exists b'].
  - eapply painted_ext; [|by apply painted_refl]. intros x y _ _. split; [done|].
    intros (o & i & Ho & _). lia.
  - intros k s Hk Hs.
    destruct (paint_line b s _ v m (c k) Hs) as (s' & Hline & Hs').
    + intros i Hi (o & i' & Ho & Hi' & Heq).
      destruct (Hinj o i' k i) as [-> _]; [|lia]. rewrite Heq. by destruct (c k i).
    + intros i j Hi Hj Heq. destruct (Hinj k i k j Heq). lia.
    + exists s'. split; [done|].
      eapply painted_ext; [|exact Hs']. intros x y _ _. split.
      * intros [(o & i & Ho & Hi & Heq)|(i & Hi & Heq)].
        -- exists o, i. split; [lia|done].
        -- exists k, i. split; [lia|done].
      * intros (o & i & Ho & Hi & Heq).
        destruct (decide (o = k)) as [->|Hne].
        -- right. by exists i.
        -- left. exists o, i. split; [lia|done].
Qed.

(** ** [setMatrix] *)

Lemma setMatrix_transposed (b : FlipBoard.t) (matrix : Grid) :
  well_formed b →
  ∃ b', FlipBoard.setMatrix b matrix true = Ok b'
      ∧ painted b b' (λ x y, x < width matrix ∧ y < height matrix) (row_major matrix).
Proof.
  intros Hwf. unfold FlipBoard.setMatrix.
  destruct (decide (matrix = [])) as [->|Hm].
  { exists b. split; [done|]. eapply painted_ext; [|by apply painted_refl].
    intros x y Hx Hy. unfold width. split; [done|]. lia. }
  destruct (paint_rectangle b (row_major matrix) (JS.length matrix) (width matrix)
              (λ o i, (i, o)) Hwf) as (b' & Hrun & Hb').
  { intros o i o' i' [= -> ->]. done. }
  exists b'. split.
  - rewrite <- Hrun. apply for_upto_ext. intros y s Hy.
    rewrite width_row0_length by done. simpl.
    apply for_upto_ext. intros x s' Hx. simpl.
    destruct (get_is_Some matrix y Hy) as [row Hrow].
    unfold row_major. by rewrite Hrow.
  - eapply painted_ext; [|exact Hb']. intros x y Hx Hy. unfold height. split.
    + intros (o & i & Ho & Hi & [= <- <-]). lia.
    + intros [Hxm Hym]. exists y, x. split; [lia|]. split; [lia|done].
Qed.

Lemma setMatrix_direct (b : FlipBoard.t) (matrix : Grid) :
  well_formed b →
  ∃ b', FlipBoard.setMatrix b matrix false = Ok b'
      ∧ painted b b' (λ x y, x < height matrix ∧ y < width matrix) (column_major matrix).
Proof.
  intros Hwf. unfold FlipBoard.setMatrix.
  destruct (decide (matrix = [])) as [->|Hm].
  { exists b. split; [done|]. eapply painted_ext; [|by apply painted_refl].
    intros x y Hx Hy. unfold width. split; [done|]. lia. }
  destruct (paint_rectangle b (column_major matrix) (JS.length matrix) (width matrix)
              (λ o i, (o, i)) Hwf) as (b' & Hrun & Hb').
  { intros o i o' i' [= -> ->]. done. }
  exists b'. split.
  - rewrite <- Hrun. apply for_upto_ext. intros x s Hx.
    rewrite width_row0_length by done. simpl.
    apply for_upto_ext. intros y s' Hy. simpl.
    destruct (get_is_Some matrix x Hx) as [column Hcolumn].
    unfold column_major. by rewrite Hcolumn.
  - eapply painted_ext; [|exact Hb']. intros x y Hx Hy. unfold height. split.
    + intros (o & i & Ho & Hi & [= <- <-]). lia.
    + intros [Hxm Hym]. exists x, y. split; [lia|]. split; [lia|done].
Qed.

Lemma well_formed_board2x2 : well_formed board2x2.
Proof. repeat split; try done. by repeat constructor. Qed.

Lemma element_at_is_Some (b : FlipBoard.t) (x y : Z) :
  well_formed b →
  0 ≤ x < FlipBoard.gridWidth b → 0 ≤ y < FlipBoard.gridHeight b →
  is_Some (element_at b x y).
Proof.
  intros (_ & _ & Hboard & _) Hx Hy. apply get_is_Some.
  rewrite Hboard. by apply cell_index.
Qed.

Lemma painted_shows (b b' : FlipBoard.t) (P : Z → Z → Prop) (v : Z → Z → option bool)
    (x y : Z) (c : bool) :
  well_formed b → painted b b' P v →
  0 ≤ x < FlipBoard.gridWidth b → 0 ≤ y < FlipBoard.gridHeight b →
  P x y → v x y = Some c → shows b' x y c.
Proof.
  intros Hwf (_ & _ & _ & _ & _ & _ & Hcells) Hx Hy HP Hv.
  destruct (Hcells x y Hx Hy) as [Hin _]. destruct (Hin HP) as [Hd He].
  destruct (element_at_is_Some b x y Hwf Hx Hy) as [e0 He0].
  split; [by rewrite Hd|]. rewrite He, He0, Hv. simpl. by eexists.
Qed.

Lemma painted_same (b b' : FlipBoard.t) (P : Z → Z → Prop) (v : Z → Z → option bool)
    (x y : Z) :
  painted b b' P v →
  0 ≤ x < FlipBoard.gridWidth b → 0 ≤ y < FlipBoard.gridHeight b →
  ¬ P x y → same_cell b b' x y.
Proof.
  intros (_ & _ & _ & _ & _ & _ & Hcells) Hx Hy HP.
  destruct (Hcells x y Hx Hy) as [_ Hkeep]. by apply Hkeep.
Qed.

Lemma row_major_cell (matrix : Grid) (w h x y : Z) :
  has_dims matrix w h → 0 ≤ x < w → 0 ≤ y < h →
  row_major matrix x y = Some (cell matrix x y).
Proof.
  intros Hd Hx Hy. unfold row_major, cell.
  destruct (get_is_Some matrix y) as [row Hrow]; [by rewrite (proj1 Hd)|].
  rewrite Hrow. simpl.
  destruct (get_is_Some row x) as [c Hc].
  { rewrite get_in in Hrow by lia. by rewrite (has_dims_row _ _ _ _ _ Hd Hrow). }
  by rewrite Hc.
Qed.

(** X13: [setOne] outside the grid of the board changes nothing, whatever
    [updateMatrix]; inside, with [updateMatrix], it makes the cell show the
    state (display matrix, element and CSS class) and leaves every other cell
    as it was. *)
Theorem setOne_effect (b : FlipBoard.t) (x y : Z) (st : bool) :
  (¬ (0 ≤ x < FlipBoard.gridWidth b ∧ 0 ≤ y < FlipBoard.gridHeight b) →
     ∀ updateMatrix, FlipBoard.setOne b x y (Some st) updateMatrix = Ok b)
  ∧ (well_formed b →
     0 ≤ x < FlipBoard.gridWidth b → 0 ≤ y < FlipBoard.gridHeight b →
     ∃ b', FlipBoard.setOne b x y (Some st) true = Ok b'
       ∧ well_formed b'
       ∧ FlipBoard.dimensions b' = FlipBoard.dimensions b
       ∧ shows b' x y st
       ∧ ∀ x' y', 0 ≤ x' < FlipBoard.gridWidth b → 0 ≤ y' < FlipBoard.gridHeight b →
           ¬ (x' = x ∧ y' = y) → same_cell b b' x' y').
Proof.
  split; [intros Hout um; by apply setOne_ignored|].
  intros Hwf Hx Hy.
  destruct (painted_step b b (λ _ _, False) (λ _ _, Some st) x y) as (b' & Hset & Hb').
  { by apply painted_refl. }
  { tauto. }
  exists b'. split; [done|]. pose proof Hb' as (Hwf' & Hgw & Hgh & _).
  split; [done|]. split; [unfold FlipBoard.dimensions; congruence|]. split.
  - apply (painted_shows b b' _ _ x y st Hwf Hb'); [done|done|by right|done].
  - intros x' y' Hx' Hy' Hne. eapply painted_same; [exact Hb'|done|done|tauto].
Qed.

Lemma setOne_effect_witness :
  well_formed board2x2
  ∧ FlipBoard.setOne board2x2 2 0 (Some true) true = Ok board2x2
  ∧ ∃ b', FlipBoard.setOne board2x2 1 0 (Some true) true = Ok b'
      ∧ shows b' 1 0 true ∧ same_cell board2x2 b' 0 1.
Proof.
  split; [exact well_formed_board2x2|]. split.
  - apply (proj1 (setOne_effect board2x2 2 0 true)). simpl. lia.
  - destruct (proj2 (setOne_effect board2x2 1 0 true) well_formed_board2x2)
      as (b' & Hset & _ & _ & Hshow & Hsame); [simpl; lia|simpl; lia|].
    exists b'. split; [exact Hset|]. split; [exact Hshow|].
    apply Hsame; simpl; lia.
Defined.

(** ** [flipOne] *)

Lemma read_display_in (b : FlipBoard.t) (x y : Z) :
  well_formed b → 0 ≤ x < FlipBoard.gridWidth b →
  FlipBoard.read_display b x y = Ok (display_at b x y).
Proof.
  intros (_ & _ & _ & Hcols & _) Hx. unfold FlipBoard.read_display, display_at.
  destruct (get_is_Some (FlipBoard.displayMatrix b) x) as [column ->]; [by rewrite Hcols|].
  done.
Qed.

Lemma flipOne_inside (b : FlipBoard.t) (x y : Z) :
  well_formed b →
  0 ≤ x < FlipBoard.gridWidth b → 0 ≤ y < FlipBoard.gridHeight b →
  ∃ b', FlipBoard.flipOne b x y = Ok b'
      ∧ painted b b' (λ x' y', x' = x ∧ y' = y)
          (λ _ _, Some (negb (JS.truthy (display_at b x y)))).
Proof.
  intros Hwf Hx Hy. unfold FlipBoard.flipOne. rewrite read_display_in by done. simpl.
  destruct (painted_step b b (λ _ _, False)
              (λ _ _, Some (negb (JS.truthy (display_at b x y)))) x y)
    as (b' & Hset & Hb'); [by apply painted_refl|tauto|].
  exists b'. split; [done|]. eapply painted_ext; [|exact Hb']. intros; tauto.
Qed.

(** X14: [flipOne] throws TypeError for a column outside the board (where
    [setOne] ignores the call), changes nothing for a row outside the board,
    and inside turns the cell to the negation of its entry in the display
    matrix, leaving the other cells alone; two calls in a row bring the cell
    back to (the truth value of) that entry. *)
Theorem flipOne_effect (b : FlipBoard.t) (x y : Z) :
  well_formed b →
  (¬ (0 ≤ x < FlipBoard.gridWidth b) → FlipBoard.flipOne b x y = Err TypeError)
  ∧ (0 ≤ x < FlipBoard.gridWidth b → ¬ (0 ≤ y < FlipBoard.gridHeight b) →
       FlipBoard.flipOne b x y = Ok b)
  ∧ (0 ≤ x < FlipBoard.gridWidth b → 0 ≤ y < FlipBoard.gridHeight b →
       ∃ b', FlipBoard.flipOne b x y = Ok b'
         ∧ well_formed b'
         ∧ shows b' x y (negb (JS.truthy (display_at b x y)))
         ∧ (∀ x' y', 0 ≤ x' < FlipBoard.gridWidth b → 0 ≤ y' < FlipBoard.gridHeight b →
              ¬ (x' = x ∧ y' = y) → same_cell b b' x' y')
         ∧ ∃ b'', FlipBoard.flipOne b' x y = Ok b''
              ∧ shows b'' x y (JS.truthy (display_at b x y))).
Proof.
  intros Hwf. split; [|split].
  - intros Hx. unfold FlipBoard.flipOne, FlipBoard.read_display.
    destruct Hwf as (_ & _ & _ & Hcols & _).
    destruct (JS.get (FlipBoard.displayMatrix b) x) as [column|] eqn:Hc; [|done].
    apply get_Some_lt in Hc. rewrite Hcols in Hc. done.
  - intros Hx Hy. unfold FlipBoard.flipOne. rewrite read_display_in by done. simpl.
    apply setOne_ignored. tauto.
  - intros Hx Hy.
    destruct (flipOne_inside b x y Hwf Hx Hy) as (b' & Hflip & Hb').
    pose proof Hb' as (Hwf' & Hgw & Hgh & _).
    assert (Hshow : shows b' x y (negb (JS.truthy (display_at b x y))))
      by (by apply (painted_shows b b' _ _ x y _ Hwf Hb')).
    exists b'. split; [done|]. split; [done|]. split; [done|]. split.
    + intros x' y' Hx' Hy' Hne. eapply painted_same; [exact Hb'|done|done|tauto].
    + destruct (flipOne_inside b' x y Hwf') as (b'' & Hflip' & Hb''); [lia|lia|].
      exists b''. split; [done|].
      replace (JS.truthy (display_at b x y))
        with (negb (JS.truthy (display_at b' x y))).
      * apply (painted_shows b' b'' _ _ x y _ Hwf' Hb''); [lia|lia|done|done].
      * destruct Hshow as [-> _]. simpl. apply negb_involutive.
Qed.

Lemma flipOne_effect_witness :
  well_formed board2x2
  ∧ FlipBoard.flipOne board2x2 (-1) 0 = Err TypeError
  ∧ FlipBoard.flipOne board2x2 0 5 = Ok board2x2
  ∧ ∃ b', FlipBoard.flipOne board2x2 0 1 = Ok b' ∧ shows b' 0 1 true.
Proof.
  pose proof (flipOne_effect board2x2 (-1) 0 well_formed_board2x2) as (Hthrow & _).
  pose proof (flipOne_effect board2x2 0 5 well_formed_board2x2) as (_ & Hskip & _).
  pose proof (flipOne_effect board2x2 0 1 well_formed_board2x2) as (_ & _ & Hflip).
  split; [exact well_formed_board2x2|]. split; [apply Hthrow; simpl; lia|].
  split; [apply Hskip; simpl; lia|].
  destruct Hflip as (b' & Hb' & _ & Hshow & _); [simpl; lia|simpl; lia|].
  exists b'. split; [exact Hb'|exact Hshow].
Defined.

(** X15: [setMatrix(matrix, true)] with a rectangular row-major matrix
    never fails: every cell of the board that the matrix covers shows the
    cell of the matrix, and the cells of the board beyond the matrix are as
    they were. *)
Theorem setMatrix_shows_matrix (b : FlipBoard.t) (matrix : Grid) (w h : Z) :
  well_formed b → has_dims matrix w h →
  ∃ b', FlipBoard.setMatrix b matrix true = Ok b'
    ∧ well_formed b'
    ∧ FlipBoard.dimensions b' = FlipBoard.dimensions b
    ∧ ∀ x y, 0 ≤ x < FlipBoard.gridWidth b → 0 ≤ y < FlipBoard.gridHeight b →
        (x < w → y < h → shows b' x y (cell matrix x y))
        ∧ (w ≤ x ∨ h ≤ y → same_cell b b' x y).
Proof.
  intros Hwf Hd. destruct (setMatrix_transposed b matrix Hwf) as (b' & Hrun & Hb').
  exists b'. split; [done|]. pose proof Hb' as (Hwf' & Hgw & Hgh & _).
  split; [done|]. split; [unfold FlipBoard.dimensions; congruence|].
  intros x y Hx Hy. split.
  - intros Hxw Hyh. assert (Hh : 1 ≤ h) by lia.
    apply (painted_shows b b' _ _ x y _ Hwf Hb'); [done|done| |].
    + rewrite (width_dims _ _ _ Hd Hh). unfold height. rewrite (proj1 Hd). lia.
    + apply (row_major_cell matrix w h); [done|lia|lia].
  - intros Hout. eapply painted_same; [exact Hb'|done|done|].
    intros [Hxw Hyh]. unfold height in Hyh. rewrite (proj1 Hd) in Hyh.
    rewrite (width_dims _ _ _ Hd) in Hxw; lia.
Qed.

Lemma setMatrix_shows_matrix_witness :
  well_formed board2x2 ∧ has_dims seed3x3 3 3
  ∧ ∃ b', FlipBoard.setMatrix board2x2 seed3x3 true = Ok b'
      ∧ shows b' 1 1 true ∧ shows b' 0 1 false.
Proof.
  assert (Hd : has_dims seed3x3 3 3) by (split; [reflexivity|by repeat constructor]).
  split; [exact well_formed_board2x2|]. split; [exact Hd|].
  destruct (setMatrix_shows_matrix board2x2 seed3x3 3 3 well_formed_board2x2 Hd)
    as (b' & Hrun & _ & _ & Hcells).
  exists b'. split; [exact Hrun|]. split.
  - apply (proj1 (Hcells 1 1 ltac:(simpl; lia) ltac:(simpl; lia))); lia.
  - apply (proj1 (Hcells 0 1 ltac:(simpl; lia) ltac:(simpl; lia))); lia.
Defined.

(** X16: [setMatrix] never fails on a well-formed board, for any matrix
    (empty, ragged) and either orientation: a covered cell gets the value
    read at [matrix[y][x]] (transposed) or [matrix[x][y]], [undefined] past
    the end of a short row, the other cells are as they were. *)
Theorem setMatrix_any_matrix (b : FlipBoard.t) (matrix : Grid) (transposed : bool) :
  well_formed b →
  ∃ b', FlipBoard.setMatrix b matrix transposed = Ok b'
    ∧ well_formed b'
    ∧ FlipBoard.dimensions b' = FlipBoard.dimensions b
    ∧ ∀ x y, 0 ≤ x < FlipBoard.gridWidth b → 0 ≤ y < FlipBoard.gridHeight b →
        let inside := if transposed then x < width matrix ∧ y < height matrix
                      else x < height matrix ∧ y < width matrix in
        let value := if transposed then row_major matrix x y else column_major matrix x y in
        (inside →
           display_at b' x y = value
           ∧ element_at b' x y = (λ e, (FlipElement.set e value).1) <$> element_at b x y)
        ∧ (¬ inside → same_cell b b' x y).
Proof.
  intros Hwf. destruct transposed.
  - destruct (setMatrix_transposed b matrix Hwf) as (b' & Hrun & Hb').
    exists b'. split; [done|]. pose proof Hb' as (Hwf' & Hgw & Hgh & _ & _ & _ & Hcells).
    split; [done|]. split; [unfold FlipBoard.dimensions; congruence|].
    intros x y Hx Hy. exact (Hcells x y Hx Hy).
  - destruct (setMatrix_direct b matrix Hwf) as (b' & Hrun & Hb').
    exists b'. split; [done|]. pose proof Hb' as (Hwf' & Hgw & Hgh & _ & _ & _ & Hcells).
    split; [done|]. split; [unfold FlipBoard.dimensions; congruence|].
    intros x y Hx Hy. exact (Hcells x y Hx Hy).
Qed.

Lemma setMatrix_any_matrix_witness :
  well_formed board2x2
  ∧ ∃ b', FlipBoard.setMatrix board2x2 [[true; true]; [true]] false = Ok b'
      ∧ display_at b' 0 1 = Some true
      ∧ display_at b' 1 1 = None.
Proof.
  split; [exact well_formed_board2x2|].
  destruct (setMatrix_any_matrix board2x2 [[true; true]; [true]] false well_formed_board2x2)
    as (b' & Hrun & _ & _ & Hcells).
  exists b'. split; [exact Hrun|]. split.
  - apply (proj1 (Hcells 0 1 ltac:(simpl; lia) ltac:(simpl; lia))).
    unfold height, width, JS.length. simpl. lia.
  - apply (proj1 (Hcells 1 1 ltac:(simpl; lia) ltac:(simpl; lia))).
    unfold height, width, JS.length. simpl. lia.
Defined.

(** X17: [setOne] without [updateMatrix] turns the element but leaves the
    display matrix as it was, and the next [flipOne] goes by the display
    matrix: it turns the cell to the negation of the entry, whatever state
    the element was given. *)
Theorem setOne_unrecorded (b : FlipBoard.t) (x y : Z) (st : bool) :
  well_formed b →
  0 ≤ x < FlipBoard.gridWidth b → 0 ≤ y < FlipBoard.gridHeight b →
  ∃ b', FlipBoard.setOne b x y (Some st) false = Ok b'
    ∧ FlipBoard.displayMatrix b' = FlipBoard.displayMatrix b
    ∧ (∃ e, element_at b' x y = Some e
          ∧ FlipElement.state e = Some st ∧ FlipElement.active e = st)
    ∧ ∃ b'', FlipBoard.flipOne b' x y = Ok b''
         ∧ shows b'' x y (negb (JS.truthy (display_at b x y))).
Proof.
  intros Hwf Hx Hy.
  destruct (element_at_is_Some b x y Hwf Hx Hy) as [e He].
  pose proof Hwf as (Hgw & Hgh & Hboard & Hcols & Hcol).
  pose proof (cell_index _ _ _ _ Hx Hy) as Hi.
  eexists. split.
  { unfold FlipBoard.setOne.
    rewrite (proj2 (Z.ltb_ge x 0)), (proj2 (Z.ltb_ge y 0)) by lia.
    rewrite !Z.geb_leb, (proj2 (Z.leb_gt _ x)), (proj2 (Z.leb_gt _ y)) by lia. simpl.
    unfold element_at in He. by rewrite He. }
  simpl. split; [done|]. split.
  { eexists. unfold element_at. simpl.
    split; [apply get_insert_eq; by rewrite Hboard|done]. }
  match goal with |- ∃ b'', FlipBoard.flipOne ?b1 x y = _ ∧ _ => set (b' := b1) end.
  assert (Hwf' : well_formed b').
  { repeat split; simpl; try done. by rewrite length_insert_Z. }
  destruct (flipOne_inside b' x y Hwf' Hx Hy) as (b'' & Hflip & Hb'').
  exists b''. split; [done|].
  by apply (painted_shows b' b'' _ _ x y _ Hwf' Hb'').
Qed.

Lemma setOne_unrecorded_witness :
  well_formed board2x2
  ∧ ∃ b', FlipBoard.setOne board2x2 1 1 (Some true) false = Ok b'
      ∧ (∃ e, element_at b' 1 1 = Some e ∧ FlipElement.state e = Some true)
      ∧ ∃ b'', FlipBoard.flipOne b' 1 1 = Ok b'' ∧ shows b'' 1 1 true.
Proof.
  split; [exact well_formed_board2x2|].
  destruct (setOne_unrecorded board2x2 1 1 true well_formed_board2x2)
    as (b' & Hset & _ & (e & He & Hst & _) & b'' & Hflip & Hshow);
    [simpl; lia|simpl; lia|].
  exists b'. split; [exact Hset|]. split; [by exists e|].
  exists b''. split; [exact Hflip|exact Hshow].
Defined.

(** ** One tick of the page *)

(** X18: one tick of the page (resize to the board, show, step) returns;
    the board then shows, down to the height the resize reached, the
    automaton's grid as it was before the tick, its rows below that height
    are as they were, and the automaton has made one step on the resized
    grid. *)
Theorem tick_shows_grid (a : Automata) (b : FlipBoard.t) (w0 h0 : Z) :
  well_formed b →
  1 ≤ FlipBoard.gridWidth b → 1 ≤ FlipBoard.gridHeight b →
  has_dims (grid a) w0 h0 → 1 ≤ h0 →
  ∃ a1 a' b',
    resize (FlipBoard.gridWidth b) (FlipBoard.gridHeight b) a = Ok a1
    ∧ update a1 = Ok a'
    ∧ tick a b = Ok (a', b')
    ∧ well_formed b'
    ∧ FlipBoard.dimensions b' = FlipBoard.dimensions b
    ∧ has_dims (grid a') (FlipBoard.gridWidth b)
        (resized_height (FlipBoard.gridHeight b) h0)
    ∧ ∀ x y, 0 ≤ x < FlipBoard.gridWidth b → 0 ≤ y < FlipBoard.gridHeight b →
        (y < resized_height (FlipBoard.gridHeight b) h0 → shows b' x y (cell (grid a) x y))
        ∧ (resized_height (FlipBoard.gridHeight b) h0 ≤ y → same_cell b b' x y).
Proof.
  intros Hwf Hgw Hgh Hd Hh0.
  destruct (resize_rectangular _ _ w0 h0 a Hd Hh0 Hgw Hgh)
    as (a1 & Hr & _ & _ & Hd1 & Hc1).
  pose proof (resized_height_pos _ _ Hgh Hh0) as Hpos.
  destruct (update_cells a1) as (a' & Hup & _ & _ & Hd' & _).
  rewrite (width_dims _ _ _ Hd1 Hpos) in Hd'. unfold height in Hd'.
  rewrite (proj1 Hd1) in Hd'.
  destruct (setMatrix_transposed b (grid a1) Hwf) as (b' & Hset & Hb').
  exists a1, a', b'. split; [done|]. split; [done|]. split.
  { unfold tick, FlipBoard.dimensions. cbn [fst snd]. rewrite Hr.
    cbn [mbind result_bind]. unfold board. rewrite Hset.
    cbn [mbind result_bind]. by rewrite Hup. }
  pose proof Hb' as (Hwf' & Hgw' & Hgh' & _).
  split; [done|]. split; [unfold FlipBoard.dimensions; congruence|]. split; [done|].
  intros x y Hx Hy. split.
  - intros Hy'. apply (painted_shows b b' _ _ x y _ Hwf Hb'); [done|done| |].
    + rewrite (width_dims _ _ _ Hd1 Hpos). unfold height. rewrite (proj1 Hd1). lia.
    + rewrite (row_major_cell _ _ _ x y Hd1) by lia. f_equal. rewrite Hc1.
      rewrite (proj2 (Z.ltb_lt x _)), (proj2 (Z.ltb_lt y _)) by lia. done.
  - intros Hy'. eapply painted_same; [exact Hb'|done|done|].
    intros [_ Hyh]. unfold height in Hyh. rewrite (proj1 Hd1) in Hyh. lia.
Qed.

Lemma tick_shows_grid_witness :
  well_formed board2x2 ∧ has_dims seed3x3 3 3
  ∧ ∃ a' b', tick (mkAutomata replicator moore seed3x3) board2x2 = Ok (a', b')
      ∧ has_dims (grid a') 2 2
      ∧ shows b' 1 1 true ∧ shows b' 0 0 false.
Proof.
  assert (Hd : has_dims seed3x3 3 3) by (split; [reflexivity|by repeat constructor]).
  split; [exact well_formed_board2x2|]. split; [exact Hd|].
  destruct (tick_shows_grid (mkAutomata replicator moore seed3x3) board2x2 3 3
              well_formed_board2x2)
    as (a1 & a' & b' & _ & _ & Htick & _ & _ & Hd' & Hcells);
    [simpl; lia|simpl; lia|exact Hd|lia|].
  exists a', b'. split; [exact Htick|]. split; [exact Hd'|]. split.
  - apply (proj1 (Hcells 1 1 ltac:(simpl; lia) ltac:(simpl; lia))). reflexivity.
  - apply (proj1 (Hcells 0 0 ltac:(simpl; lia) ltac:(simpl; lia))). reflexivity.
Defined.

(** ** The loops of [reformatCells] *)

Lemma foldM_iter {S A : Type} (f : S → S) (l : list A) (s : S) :
  foldM (λ s _, Ok (f s)) s l = Ok (Nat.iter (length l) f s).
Proof.
  revert s. induction l as [|x l IH]; intros s; [done|]. simpl.
  rewrite IH. f_equal. clear IH. induction (length l); simpl; [done|]. by f_equal.
Qed.

Lemma for_upto_iter {S : Type} (f : S → S) (n : Z) (s : S) :
  for_upto n (λ _ s, Ok (f s)) s = Ok (Nat.iter (Z.to_nat n) f s).
Proof. unfold for_upto. by rewrite foldM_iter, length_seqZ. Qed.

Lemma iter_push {A : Type} (e : A) (n : nat) (l : list A) :
  Nat.iter n (λ l, l ++ [e]) l = l ++ replicate n e.
Proof.
  induction n as [|n IH]; simpl; [by rewrite app_nil_r|].
  rewrite IH, <- app_assoc. f_equal.
  clear IH. induction n; simpl; [done|]. by f_equal.
Qed.

Lemma iter_pop (n : nat) (l : list FlipElement.t) :
  Nat.iter n FlipBoard.pop l = take (length l - n) l.
Proof.
  induction n as [|n IH]; simpl.
  - rewrite Nat.sub_0_r. by rewrite take_ge.
  - rewrite IH. unfold FlipBoard.pop. rewrite length_take, take_take. f_equal. lia.
Qed.

(** A loop that rewrites the elements of an array one by one, in place *)
Lemma index_loop {A : Type} (n : Z) (body : Z → list A → result (list A)) (g : Z → A → A)
    (l : list A) :
  n = JS.length l →
  (∀ i s e, 0 ≤ i < n → JS.get s i = Some e →
     body i s = Ok (<[Z.to_nat i := g i e]> s)) →
  for_upto n body l = Ok (imap (λ k e, g (Z.of_nat k) e) l).
Proof.
  intros -> Hbody.
  destruct (for_upto_inv
    (λ k s, s = imap (λ k e, g (Z.of_nat k) e) (take (Z.to_nat k) l) ++ drop (Z.to_nat k) l)
    (JS.length l) body l) as (s' & -> & ->).
  - unfold JS.length. lia.
  - done.
  - intros k s Hk ->. eexists. split; [|reflexivity].
    unfold JS.length in Hk.
    destruct (lookup_lt_is_Some_2 l (Z.to_nat k)) as [e He]; [lia|].
    assert (Hpre : length (imap (λ k e, g (Z.of_nat k) e) (take (Z.to_nat k) l)) = Z.to_nat k)
      by (rewrite length_imap, length_take; lia).
    rewrite (Hbody k _ e); [|unfold JS.length; lia|].
    + f_equal. rewrite insert_app_r_alt by lia. rewrite Hpre, Nat.sub_diag.
      rewrite (drop_S _ _ _ He). simpl.
      replace (Z.to_nat (k + 1)) with (S (Z.to_nat k)) by lia.
      rewrite (take_S_r _ _ _ He), imap_app, <- app_assoc. simpl.
      rewrite length_take, Nat.min_l by lia. rewrite Nat.add_0_r.
      by rewrite Z2Nat.id by lia.
    + rewrite get_in by lia. rewrite lookup_app_r by lia.
      rewrite Hpre, Nat.sub_diag. by rewrite (drop_S _ _ _ He).
  - f_equal. unfold JS.length. rewrite Nat2Z.id, take_ge, drop_ge by lia.
    apply app_nil_r.
Qed.

(** ** The cell size *)

Lemma ceil_div_bounds (a b : Z) :
  0 < b → a ≤ FlipBoard.ceil_div a b * b < a + b.
Proof.
  intros Hb. unfold FlipBoard.ceil_div.
  pose proof (Z.div_mod (- a) b ltac:(lia)).
  pose proof (Z.mod_pos_bound (- a) b Hb). nia.
Qed.

Lemma ceil_div_nonneg (a b : Z) : 0 ≤ a → 0 < b → 0 ≤ FlipBoard.ceil_div a b.
Proof. intros Ha Hb. pose proof (ceil_div_bounds a b Hb). nia. Qed.

Lemma setCellSize_nonneg (cw ch : Z) : 0 ≤ cw → 0 ≤ ch → 0 ≤ FlipBoard.setCellSize cw ch.
Proof.
  intros Hcw Hch. unfold FlipBoard.setCellSize.
  destruct (negb _); Z.to_euclidean_division_equations; lia.
Qed.

Lemma grid_dims_nonneg (cw ch : Z) :
  0 ≤ cw → 0 ≤ ch → FlipBoard.setCellSize cw ch ≠ 0 →
  0 < FlipBoard.setCellSize cw ch
  ∧ 0 ≤ FlipBoard.ceil_div cw (FlipBoard.setCellSize cw ch)
  ∧ 0 ≤ FlipBoard.ceil_div ch (FlipBoard.setCellSize cw ch).
Proof.
  intros Hcw Hch Hcs. pose proof (setCellSize_nonneg cw ch Hcw Hch).
  assert (0 < FlipBoard.setCellSize cw ch) by lia.
  split; [done|]. split; by apply ceil_div_nonneg.
Qed.

Lemma index_split (gw x y : Z) :
  0 ≤ x < gw → (y * gw + x) mod gw = x ∧ (y * gw + x) / gw = y.
Proof.
  intros Hx. split.
  - rewrite Z.add_comm, Z_mod_plus_full. by apply Z.mod_small.
  - rewrite Z.div_add_l by lia. rewrite Z.div_small by done. lia.
Qed.

(** ** Arrays that grow or are cut *)

Section refit.
Context {A : Type}.
Implicit Types (l : list A) (v : A).

Lemma length_refit old new v l :
  JS.length l = old → 0 ≤ new → JS.length (refit old new v l) = new.
Proof.
  unfold refit, JS.length. intros Hl Hnew.
  destruct (Z.gtb_spec new old).
  - rewrite length_app, length_replicate. lia.
  - destruct (Z.ltb_spec new old); [|lia]. rewrite length_take. lia.
Qed.

Lemma get_refit old new v l i :
  JS.length l = old → 0 ≤ i < new →
  JS.get (refit old new v l) i = if i <? old then JS.get l i else Some v.
Proof.
  unfold refit, JS.length. intros Hl Hi. rewrite !get_in by lia.
  destruct (Z.gtb_spec new old).
  - destruct (Z.ltb_spec i old).
    + rewrite lookup_app_l by lia. done.
    + rewrite lookup_app_r by lia. apply lookup_replicate_2. lia.
  - destruct (Z.ltb_spec new old).
    + rewrite (proj2 (Z.ltb_lt i old)) by lia. apply lookup_take_lt. lia.
    + by rewrite (proj2 (Z.ltb_lt i old)) by lia.
Qed.

Lemma Forall_refit (P : A → Prop) old new v l :
  P v → Forall P l → Forall P (refit old new v l).
Proof.
  intros Hv Hl. unfold refit. destruct (new >? old).
  - apply Forall_app. split; [done|]. by apply Forall_replicate.
  - destruct (new <? old); [|done]. by apply Forall_take.
Qed.

End refit.

(** ** [reformatCells] *)

Lemma old_state_value (b : FlipBoard.t) (x y : Z) :
  well_formed b → 0 ≤ x → FlipBoard.old_state b x y = Ok (carried_over b x y).
Proof.
  intros Hwf Hx. unfold FlipBoard.old_state, carried_over.
  destruct (Z.ltb_spec x (FlipBoard.gridWidth b)); simpl; [|done].
  destruct (y <? FlipBoard.gridHeight b); [|done].
  by apply read_display_in.
Qed.

Lemma reformatCells_run (b : FlipBoard.t) (nw nh : Z) :
  well_formed b → 0 ≤ nw → 0 ≤ nh →
  FlipBoard.setCellSize nw nh ≠ 0 →
  nw ≠ FlipBoard.width b ∨ nh ≠ FlipBoard.height b →
  FlipBoard.reformatCells b nw nh = Some (Ok (reformatted b nw nh)).
Proof.
  intros Hwf Hnw Hnh Hcs Hne.
  destruct (grid_dims_nonneg nw nh Hnw Hnh Hcs) as (Hpos & Hngw & Hngh).
  pose proof Hwf as (Hgw & Hgh & Hboard & Hcols & Hcol).
  unfold FlipBoard.reformatCells, reformatted.
  set (cs := FlipBoard.setCellSize nw nh) in *.
  set (ngw := FlipBoard.ceil_div nw cs) in *.
  set (ngh := FlipBoard.ceil_div nh cs) in *.
  set (gw := FlipBoard.gridWidth b) in *.
  set (gh := FlipBoard.gridHeight b) in *.
  replace ((nw =? FlipBoard.width b) && (nh =? FlipBoard.height b)) with false
    by (symmetry; apply andb_false_iff; rewrite !Z.eqb_neq; tauto).
  rewrite (proj2 (Z.eqb_neq cs 0)) by done.
  set (board1 := refit (gw * gh) (ngw * ngh) (FlipElement.new 0 0) (FlipBoard.board b)).
  assert (Hcells :
    (if gw * gh <? ngw * ngh then
       for_upto (ngw * ngh - gw * gh)
         (λ _ board, Ok (board ++ [FlipElement.new 0 0])) (FlipBoard.board b)
     else if gw * gh >? ngw * ngh then
       for_upto (gw * gh - ngw * ngh) (λ _ board, Ok (FlipBoard.pop board)) (FlipBoard.board b)
     else Ok (FlipBoard.board b)) = Ok board1).
  { unfold board1, refit. rewrite !Z.gtb_ltb.
    destruct (Z.ltb_spec (gw * gh) (ngw * ngh)).
    - by rewrite for_upto_iter, iter_push.
    - destruct (Z.ltb_spec (ngw * ngh) (gw * gh)); [|done].
      rewrite for_upto_iter, iter_pop. do 2 f_equal.
      unfold JS.length in Hboard. nia. }
  rewrite Hcells. clear Hcells.
  assert (Hlen1 : JS.length board1 = ngw * ngh) by (apply length_refit; [done|nia]).
  replace ((ngw =? 0) && negb (JS.length board1 =? 0)) with false.
  2:{ symmetry. destruct (Z.eqb_spec ngw 0) as [H0|]; [|done]. simpl.
      rewrite Hlen1, H0. done. }
  f_equal.
  rewrite (index_loop (JS.length board1) _
    (λ i e, (FlipElement.set (FlipElement.setPosition e (i mod ngw) (i / ngw))
               (carried_over b (i mod ngw) (i / ngw))).1) board1 eq_refl).
  2:{ intros i s e Hi He. rewrite He.
      assert (0 < ngw) by nia.
      rewrite old_state_value; [done|done|]. by apply Z.mod_pos_bound. }
  cbn [mbind result_bind].
  set (dm1 := refit gw ngw (replicate (Z.to_nat gh) (Some false)) (FlipBoard.displayMatrix b)).
  assert (Hdm1 :
    (if ngw >? gw then
       for_upto (ngw - gw) (λ _ displayMatrix,
         column ← JS.new_Array_fill gh (Some false);
         Ok (displayMatrix ++ [column])) (FlipBoard.displayMatrix b)
     else if ngw <? gw then Ok (JS.slice0 (FlipBoard.displayMatrix b) ngw)
     else Ok (FlipBoard.displayMatrix b)) = Ok dm1).
  { unfold dm1, refit, JS.slice0. destruct (ngw >? gw); [|by destruct (ngw <? gw)].
    rewrite (for_upto_ext _ _
      (λ _ s, Ok (s ++ [replicate (Z.to_nat gh) (Some false)]))).
    - by rewrite for_upto_iter, iter_push.
    - intros i s _. by rewrite (new_Array_fill_Ok gh (Some false)) by done. }
  rewrite Hdm1. clear Hdm1. cbn [mbind result_bind].
  assert (Hlen2 : JS.length dm1 = ngw) by (by apply length_refit).
  assert (Hdm2 :
    (if ngh >? gh then
       for_upto ngw (λ x displayMatrix,
         match JS.get displayMatrix x with
         | None => Err TypeError
         | Some column =>
             pad ← JS.new_Array_fill (ngh - gh) (Some false);
             Ok (<[Z.to_nat x := column ++ pad]> displayMatrix)
         end) dm1
     else if ngh <? gh then
       for_upto ngw (λ x displayMatrix,
         match JS.get displayMatrix x with
         | None => Err TypeError
         | Some column => Ok (<[Z.to_nat x := JS.slice0 column ngh]> displayMatrix)
         end) dm1
     else Ok dm1) = Ok (refit gh ngh (Some false) <$> dm1)).
  { unfold refit at 1. destruct (Z.gtb_spec ngh gh).
    - rewrite (index_loop ngw _ (λ _ c, c ++ replicate (Z.to_nat (ngh - gh)) (Some false)) dm1);
        [f_equal; apply imap_const|done|].
      intros i s e _ ->. by rewrite (new_Array_fill_Ok (ngh - gh) (Some false)) by lia.
    - destruct (Z.ltb_spec ngh gh).
      + rewrite (index_loop ngw _ (λ _ c, take (Z.to_nat ngh) c) dm1);
          [f_equal; apply imap_const|done|].
        by intros i s e _ ->.
      + by rewrite list_fmap_id. }
  rewrite Hdm2. done.
Qed.

Lemma reformatted_well_formed (b : FlipBoard.t) (nw nh : Z) :
  well_formed b → 0 ≤ nw → 0 ≤ nh → FlipBoard.setCellSize nw nh ≠ 0 →
  well_formed (reformatted b nw nh) ∧ fits (reformatted b nw nh) nw nh.
Proof.
  intros (Hgw & Hgh & Hboard & Hcols & Hcol) Hnw Hnh Hcs.
  destruct (grid_dims_nonneg nw nh Hnw Hnh Hcs) as (Hpos & Hngw & Hngh).
  split; [|done].
  split; [done|]. split; [done|]. simpl. split; [|split].
  - unfold JS.length. rewrite length_imap. apply length_refit; [done|nia].
  - unfold JS.length. rewrite length_fmap. by apply length_refit.
  - apply Forall_fmap. apply Forall_refit; simpl.
    + apply length_refit; [|done]. by apply length_replicate_Z.
    + eapply Forall_impl; [exact Hcol|]. intros c Hc. simpl. by apply length_refit.
Qed.

Lemma reformatted_cell (b : FlipBoard.t) (nw nh x y : Z) :
  well_formed b → 0 ≤ nw → 0 ≤ nh → FlipBoard.setCellSize nw nh ≠ 0 →
  0 ≤ x < FlipBoard.gridWidth (reformatted b nw nh) →
  0 ≤ y < FlipBoard.gridHeight (reformatted b nw nh) →
  display_at (reformatted b nw nh) x y = carried_over b x y
  ∧ ∃ e, element_at (reformatted b nw nh) x y = Some e
      ∧ FlipElement.xpos e = x ∧ FlipElement.ypos e = y
      ∧ FlipElement.state e = carried_over b x y.
Proof.
  intros Hwf Hnw Hnh Hcs Hx Hy.
  pose proof Hwf as (Hgw & Hgh & Hboard & Hcols & Hcol).
  destruct (grid_dims_nonneg nw nh Hnw Hnh Hcs) as (Hpos & Hngw & Hngh).
  unfold display_at, element_at, carried_over, reformatted in *. simpl in *.
  set (cs := FlipBoard.setCellSize nw nh) in *.
  set (ngw := FlipBoard.ceil_div nw cs) in *.
  set (ngh := FlipBoard.ceil_div nh cs) in *.
  set (gw := FlipBoard.gridWidth b) in *.
  set (gh := FlipBoard.gridHeight b) in *.
  split.
  - rewrite get_in by lia. rewrite list_lookup_fmap, <- get_in by lia.
    rewrite (get_refit gw ngw) by done.
    destruct (Z.ltb_spec x gw); simpl.
    + destruct (get_is_Some (FlipBoard.displayMatrix b) x) as [c Hc]; [lia|].
      rewrite Hc. simpl.
      assert (Hlc : JS.length c = gh).
      { rewrite get_in in Hc by lia.
        by apply (proj1 (Forall_lookup _ _) Hcol _ _ Hc). }
      rewrite (get_refit gh ngh) by done.
      unfold display_at. rewrite Hc. by destruct (y <? gh).
    + rewrite (get_refit gh ngh) by (by rewrite ?length_replicate_Z).
      destruct (Z.ltb_spec y gh); [|done].
      rewrite get_in by lia. by rewrite lookup_replicate_2 by lia.
  - pose proof (cell_index ngw ngh x y Hx Hy).
    destruct (index_split ngw x y Hx) as [Hmod Hdiv].
    rewrite get_in by lia. rewrite list_lookup_imap.
    destruct (lookup_lt_is_Some_2
      (refit (gw * gh) (ngw * ngh) (FlipElement.new 0 0) (FlipBoard.board b))
      (Z.to_nat (y * ngw + x))) as [e He].
    { pose proof (length_refit (gw * gh) (ngw * ngh) (FlipElement.new 0 0)
        (FlipBoard.board b) Hboard ltac:(nia)) as Hl.
      unfold JS.length in Hl. lia. }
    rewrite He. simpl. rewrite Z2Nat.id by lia. rewrite Hmod, Hdiv.
    eexists. split; [reflexivity|]. done.
Qed.

(** ** The loops of [new FlipBoard] *)

Lemma constructor_board (gw gh : Z) :
  0 ≤ gw → 0 ≤ gh →
  for_upto gh (λ y board,
    for_upto gw (λ x board, Ok (board ++ [FlipElement.new x y])) board) []
  = Ok ((λ i, FlipElement.new (i mod gw) (i / gw)) <$> seqZ 0 (gw * gh)).
Proof.
  intros Hgw Hgh.
  set (f := λ i, FlipElement.new (i mod gw) (i / gw)).
  destruct (for_upto_inv (λ y s, s = f <$> seqZ 0 (y * gw)) gh
    (λ y board, for_upto gw (λ x board, Ok (board ++ [FlipElement.new x y])) board) [])
    as (s & -> & ->); [done|done| |by rewrite Z.mul_comm].
  intros y s Hy ->.
  destruct (for_upto_inv (λ x s, s = f <$> seqZ 0 (y * gw + x)) gw
    (λ x board, Ok (board ++ [FlipElement.new x y])) (f <$> seqZ 0 (y * gw)))
    as (s & -> & ->); [done|by rewrite Z.add_0_r| |].
  - intros x s Hx ->. eexists. split; [reflexivity|].
    rewrite Z.add_assoc. rewrite (seqZ_app 0 (y * gw + x) 1) by nia.
    rewrite fmap_app. f_equal. rewrite Z.add_0_l.
    replace (seqZ (y * gw + x) 1) with [y * gw + x]
      by (unfold seqZ; simpl; f_equal; lia).
    simpl. unfold f. destruct (index_split gw x y Hx) as [-> ->]. done.
  - eexists. split; [reflexivity|]. do 2 f_equal. lia.
Qed.

Lemma constructor_run (cw ch : Z) :
  0 ≤ cw → 0 ≤ ch → FlipBoard.setCellSize cw ch ≠ 0 →
  FlipBoard.constructor cw ch = Some (Ok (fresh cw ch)).
Proof.
  intros Hcw Hch Hcs.
  destruct (grid_dims_nonneg cw ch Hcw Hch Hcs) as (Hpos & Hgw & Hgh).
  unfold FlipBoard.constructor, fresh.
  rewrite (proj2 (Z.eqb_neq _ 0)) by done.
  rewrite (new_Array_fill_Ok _ 0) by done. cbn [mbind result_bind].
  rewrite (mapR_const _ (replicate (Z.to_nat
    (FlipBoard.ceil_div ch (FlipBoard.setCellSize cw ch))) (Some false))).
  2:{ intros x _. by apply new_Array_fill_Ok. }
  cbn [mbind result_bind]. rewrite constructor_board by done.
  cbn [mbind result_bind]. unfold FlipBoard.reformatCells. simpl.
  rewrite !Z.eqb_refl. simpl. by rewrite length_replicate.
Qed.

Lemma fresh_well_formed (cw ch : Z) :
  0 ≤ cw → 0 ≤ ch → FlipBoard.setCellSize cw ch ≠ 0 →
  well_formed (fresh cw ch) ∧ fits (fresh cw ch) cw ch.
Proof.
  intros Hcw Hch Hcs.
  destruct (grid_dims_nonneg cw ch Hcw Hch Hcs) as (Hpos & Hgw & Hgh).
  split; [|done]. split; [done|]. split; [done|]. simpl. split; [|split].
  - unfold JS.length. rewrite length_fmap, length_seqZ. nia.
  - by apply length_replicate_Z.
  - apply Forall_replicate. by apply length_replicate_Z.
Qed.

Lemma fresh_cell (cw ch x y : Z) :
  0 ≤ x < FlipBoard.gridWidth (fresh cw ch) →
  0 ≤ y < FlipBoard.gridHeight (fresh cw ch) →
  element_at (fresh cw ch) x y = Some (FlipElement.new x y)
  ∧ display_at (fresh cw ch) x y = Some false.
Proof.
  unfold element_at, display_at, fresh. simpl. intros Hx Hy.
  pose proof (cell_index _ _ x y Hx Hy).
  destruct (index_split _ x y Hx) as [Hmod Hdiv].
  split.
  - rewrite get_in by lia. rewrite list_lookup_fmap.
    erewrite (proj2 (lookup_seqZ _ _ _ _)); [|split; [reflexivity|lia]]. simpl.
    rewrite Z2Nat.id by lia. by rewrite !Z.add_0_l, Hmod, Hdiv.
  - rewrite get_in by lia. rewrite lookup_replicate_2 by lia. simpl.
    rewrite get_in by lia. by rewrite lookup_replicate_2 by lia.
Qed.

(** X19: for a parent whose [clientWidth] and [clientHeight] are not
    negative, [setCellSize] yields a multiple of 10 that is not negative.
    With an aspect ratio between 0.5 and 2, 30 cells of that size fit in
    the shorter side, and the size is 0 iff a side is below 300 pixels;
    with any other aspect ratio 30 cells fit in the longer side, and the
    size is 0 iff both sides are below 300 pixels. *)
Theorem setCellSize_facts (cw ch : Z) :
  0 ≤ cw → 0 ≤ ch →
  0 ≤ FlipBoard.setCellSize cw ch
  ∧ FlipBoard.setCellSize cw ch mod 10 = 0
  ∧ (ch ≤ 2 * cw → cw ≤ 2 * ch →
       30 * FlipBoard.setCellSize cw ch ≤ Z.min cw ch
       ∧ (FlipBoard.setCellSize cw ch = 0 ↔ cw < 300 ∨ ch < 300))
  ∧ (2 * cw < ch ∨ 2 * ch < cw →
       30 * FlipBoard.setCellSize cw ch ≤ Z.max cw ch
       ∧ (FlipBoard.setCellSize cw ch = 0 ↔ cw < 300 ∧ ch < 300)).
Proof.
  intros Hcw Hch. unfold FlipBoard.setCellSize.
  destruct (Z.ltb_spec (2 * cw) ch), (Z.ltb_spec (2 * ch) cw); simpl;
    repeat split; intros;
    try (exfalso; lia);
    Z.to_euclidean_division_equations; lia.
Qed.

Lemma setCellSize_facts_witness :
  FlipBoard.setCellSize 1280 720 = 20
  ∧ FlipBoard.setCellSize 375 667 = 10
  ∧ FlipBoard.setCellSize 299 500 = 0
  ∧ FlipBoard.setCellSize 200 1000 mod 10 = 0.
Proof.
  split; [reflexivity|]. split; [reflexivity|]. split; [reflexivity|].
  apply (setCellSize_facts 200 1000); lia.
Defined.

(** ** The board after [new FlipBoard] and after [reformatCells] *)

Lemma setCellSize_good_aspect (cw ch : Z) :
  0 ≤ cw → 0 ≤ ch → ch ≤ 2 * cw → cw ≤ 2 * ch →
  30 * FlipBoard.setCellSize cw ch ≤ Z.min cw ch.
Proof.
  intros Hcw Hch H1 H2. unfold FlipBoard.setCellSize.
  rewrite (proj2 (Z.ltb_ge (2 * cw) ch)), (proj2 (Z.ltb_ge (2 * ch) cw)) by lia. simpl.
  Z.to_euclidean_division_equations; lia.
Qed.

Lemma bind_Ok {A B : Type} (m : result A) (k : A → result B) (v : B) :
  (x ← m; k x) = Ok v → ∃ x, m = Ok x ∧ k x = Ok v.
Proof. destruct m as [x|e]; simpl; [eauto|done]. Qed.

Lemma reformatCells_sizes (b b' : FlipBoard.t) (nw nh : Z) :
  FlipBoard.reformatCells b nw nh = Some (Ok b') →
  FlipBoard.width b' = nw ∧ FlipBoard.height b' = nh
  ∧ FlipBoard.cellSize b' = FlipBoard.setCellSize nw nh.
Proof.
  unfold FlipBoard.reformatCells.
  destruct (Z.eqb_spec nw (FlipBoard.width b)), (Z.eqb_spec nh (FlipBoard.height b)); simpl;
    try (by intros [= <-]);
    (destruct (_ =? 0); [done|];
     match goal with |- context [match ?c with Ok _ => _ | Err _ => _ end] => destruct c end;
     [|done];
     destruct (_ && _); [done|];
     intros [= H];
     apply bind_Ok in H as (? & _ & H);
     apply bind_Ok in H as (? & _ & H);
     apply bind_Ok in H as (? & _ & H);
     by injection H as <-).
Qed.

(** X20: [new FlipBoard(parent)] throws a RangeError when the cell
    size is 0.  Otherwise it returns a well-formed board that fits the
    parent: its grid covers the parent with less than one cell to spare in
    each direction, has at least 30 x 30 cells when the aspect ratio is
    between 0.5 and 2, the element of the cell (x, y) is a new element at
    the position (x, y), and the display matrix is off everywhere. *)
Theorem constructor_builds (cw ch : Z) :
  0 ≤ cw → 0 ≤ ch →
  (FlipBoard.setCellSize cw ch = 0 → FlipBoard.constructor cw ch = Some (Err RangeError))
  ∧ (FlipBoard.setCellSize cw ch ≠ 0 →
     ∃ b, FlipBoard.constructor cw ch = Some (Ok b)
       ∧ fits b cw ch ∧ well_formed b
       ∧ cw ≤ FlipBoard.gridWidth b * FlipBoard.cellSize b < cw + FlipBoard.cellSize b
       ∧ ch ≤ FlipBoard.gridHeight b * FlipBoard.cellSize b < ch + FlipBoard.cellSize b
       ∧ (ch ≤ 2 * cw → cw ≤ 2 * ch →
            30 ≤ FlipBoard.gridWidth b ∧ 30 ≤ FlipBoard.gridHeight b)
       ∧ ∀ x y, 0 ≤ x < FlipBoard.gridWidth b → 0 ≤ y < FlipBoard.gridHeight b →
           element_at b x y = Some (FlipElement.new x y) ∧ display_at b x y = Some false).
Proof.
  intros Hcw Hch. split.
  - intros Hcs. unfold FlipBoard.constructor. by rewrite Hcs.
  - intros Hcs. exists (fresh cw ch).
    destruct (grid_dims_nonneg cw ch Hcw Hch Hcs) as (Hpos & Hgw & Hgh).
    destruct (fresh_well_formed cw ch Hcw Hch Hcs) as [Hwf Hfits].
    pose proof (ceil_div_bounds cw _ Hpos) as Hbw.
    pose proof (ceil_div_bounds ch _ Hpos) as Hbh.
    split; [by apply constructor_run|]. split; [done|]. split; [done|].
    split; [exact Hbw|]. split; [exact Hbh|]. split.
    + intros H1 H2. pose proof (setCellSize_good_aspect cw ch Hcw Hch H1 H2).
      simpl. split; nia.
    + intros x y. apply fresh_cell.
Qed.

Lemma constructor_builds_witness :
  FlipBoard.constructor 200 299 = Some (Err RangeError)
  ∧ ∃ b, FlipBoard.constructor 1280 720 = Some (Ok b)
      ∧ FlipBoard.dimensions b = (64, 36)
      ∧ element_at b 63 35 = Some (FlipElement.new 63 35).
Proof.
  split.
  - apply (constructor_builds 200 299); [lia|lia|reflexivity].
  - destruct (proj2 (constructor_builds 1280 720 ltac:(lia) ltac:(lia)))
      as (b & Hb & (_ & _ & Hcs & _ & Hw & Hh) & _ & _ & _ & _ & Hcell); [done|].
    assert (Hdim : FlipBoard.dimensions b = (64, 36)).
    { unfold FlipBoard.dimensions. by rewrite Hw, Hh, Hcs. }
    exists b. split; [exact Hb|]. split; [exact Hdim|].
    injection Hdim as Hgw Hgh. apply Hcell; lia.
Defined.

(** X21: a second [reformatCells] for the same size of the parent
    changes nothing: whatever board the first call returned, the second
    returns it as it is. *)
Theorem reformatCells_again (b b' : FlipBoard.t) (nw nh : Z) :
  FlipBoard.reformatCells b nw nh = Some (Ok b') →
  FlipBoard.reformatCells b' nw nh = Some (Ok b').
Proof.
  intros (Hw & Hh & Hcs)%reformatCells_sizes.
  destruct b'. simpl in *. subst.
  unfold FlipBoard.reformatCells. simpl. by rewrite !Z.eqb_refl.
Qed.

Lemma reformatCells_again_witness :
  FlipBoard.reformatCells board2x2 600 300 = Some (Ok (reformatted board2x2 600 300))
  ∧ FlipBoard.reformatCells (reformatted board2x2 600 300) 600 300
    = Some (Ok (reformatted board2x2 600 300)).
Proof.
  assert (H : FlipBoard.reformatCells board2x2 600 300
              = Some (Ok (reformatted board2x2 600 300))) by (vm_compute; reflexivity).
  split; [exact H|]. exact (reformatCells_again _ _ 600 300 H).
Defined.

(** X22: on a well-formed board, for a parent whose size has changed
    and a cell size that is not 0, [reformatCells] returns a well-formed
    board that fits the new size; the cell (x, y) of the new grid has an
    element at the position (x, y), and the element and the display matrix
    hold for it what the display matrix held for (x, y) before, and off
    where the old grid had no such cell. *)
Theorem reformatCells_carries_over (b : FlipBoard.t) (nw nh : Z) :
  well_formed b → 0 ≤ nw → 0 ≤ nh →
  FlipBoard.setCellSize nw nh ≠ 0 →
  nw ≠ FlipBoard.width b ∨ nh ≠ FlipBoard.height b →
  ∃ b', FlipBoard.reformatCells b nw nh = Some (Ok b')
    ∧ fits b' nw nh ∧ well_formed b'
    ∧ ∀ x y, 0 ≤ x < FlipBoard.gridWidth b' → 0 ≤ y < FlipBoard.gridHeight b' →
        display_at b' x y = carried_over b x y
        ∧ ∃ e, element_at b' x y = Some e
            ∧ FlipElement.xpos e = x ∧ FlipElement.ypos e = y
            ∧ FlipElement.state e = carried_over b x y.
Proof.
  intros Hwf Hnw Hnh Hcs Hne. exists (reformatted b nw nh).
  split; [by apply reformatCells_run|].
  destruct (reformatted_well_formed b nw nh Hwf Hnw Hnh Hcs) as [Hwf' Hfits].
  split; [done|]. split; [done|].
  intros x y. by apply reformatted_cell.
Qed.

Lemma reformatCells_carries_over_witness :
  well_formed board2x2
  ∧ ∃ b', FlipBoard.reformatCells board2x2 600 300 = Some (Ok b')
      ∧ FlipBoard.dimensions b' = (60, 30)
      ∧ display_at b' 1 1 = display_at board2x2 1 1
      ∧ display_at b' 59 29 = Some false.
Proof.
  split; [exact well_formed_board2x2|].
  destruct (reformatCells_carries_over board2x2 600 300 well_formed_board2x2)
    as (b' & Hb' & (_ & _ & Hcs & _ & Hw & Hh) & _ & Hcell);
    [lia|lia|done|left; done|].
  assert (Hdim : FlipBoard.dimensions b' = (60, 30)).
  { unfold FlipBoard.dimensions. by rewrite Hw, Hh, Hcs. }
  exists b'. split; [exact Hb'|]. split; [exact Hdim|].
  injection Hdim as Hgw Hgh.
  split; [apply (Hcell 1 1); lia|apply (Hcell 59 29); lia].
Defined.

(** X23: there and back: when the parent of a well-formed board that
    fits it changes its size and then returns to the old one, the two
    [reformatCells] give a board of the old grid dimensions, whose display
    matrix holds the old entry for every cell that the grid in between had
    too, and off for the cells that it had not. *)
Theorem reformatCells_there_and_back (b : FlipBoard.t) (w h nw nh : Z) :
  well_formed b → fits b w h → 0 ≤ w → 0 ≤ h → 0 ≤ nw → 0 ≤ nh →
  FlipBoard.setCellSize nw nh ≠ 0 →
  nw ≠ w ∨ nh ≠ h →
  ∃ b' b'', FlipBoard.reformatCells b nw nh = Some (Ok b')
    ∧ FlipBoard.reformatCells b' w h = Some (Ok b'')
    ∧ fits b' nw nh ∧ well_formed b'' ∧ fits b'' w h
    ∧ FlipBoard.dimensions b'' = FlipBoard.dimensions b
    ∧ ∀ x y, 0 ≤ x < FlipBoard.gridWidth b → 0 ≤ y < FlipBoard.gridHeight b →
        display_at b'' x y
        = if (x <? FlipBoard.gridWidth b') && (y <? FlipBoard.gridHeight b')
          then display_at b x y else Some false.
Proof.
  intros Hwf (Hbw & Hbh & Hbcs & Hbpos & Hbgw & Hbgh) Hw Hh Hnw Hnh Hcs Hne.
  assert (Hcs0 : FlipBoard.setCellSize w h ≠ 0) by lia.
  destruct (reformatted_well_formed b nw nh Hwf Hnw Hnh Hcs) as [Hwf' Hfits'].
  destruct (reformatted_well_formed (reformatted b nw nh) w h Hwf' Hw Hh Hcs0)
    as [Hwf'' Hfits''].
  exists (reformatted b nw nh), (reformatted (reformatted b nw nh) w h).
  split; [apply reformatCells_run; try done; lia|].
  split; [apply reformatCells_run; try done; simpl; lia|].
  split; [done|]. split; [done|]. split; [done|].
  assert (Hgw : FlipBoard.gridWidth (reformatted (reformatted b nw nh) w h)
                = FlipBoard.gridWidth b) by (simpl; by rewrite Hbgw, Hbcs).
  assert (Hgh : FlipBoard.gridHeight (reformatted (reformatted b nw nh) w h)
                = FlipBoard.gridHeight b) by (simpl; by rewrite Hbgh, Hbcs).
  split; [unfold FlipBoard.dimensions; by rewrite Hgw, Hgh|].
  intros x y Hx Hy.
  destruct (reformatted_cell (reformatted b nw nh) w h x y Hwf' Hw Hh Hcs0) as [-> _];
    [by rewrite Hgw|by rewrite Hgh|].
  unfold carried_over at 1.
  destruct (Z.ltb_spec x (FlipBoard.gridWidth (reformatted b nw nh))); [|done].
  destruct (Z.ltb_spec y (FlipBoard.gridHeight (reformatted b nw nh)));
    cbn [andb]; [|done].
  destruct (reformatted_cell b nw nh x y Hwf Hnw Hnh Hcs) as [-> _]; [lia|lia|].
  unfold carried_over.
  by rewrite (proj2 (Z.ltb_lt x _)), (proj2 (Z.ltb_lt y _)) by lia.
Qed.

Lemma reformatCells_there_and_back_witness :
  well_formed (fresh 600 300) ∧ fits (fresh 600 300) 600 300
  ∧ ∃ b' b'', FlipBoard.reformatCells (fresh 600 300) 300 300 = Some (Ok b')
      ∧ FlipBoard.reformatCells b' 600 300 = Some (Ok b'')
      ∧ FlipBoard.dimensions b' = (30, 30)
      ∧ FlipBoard.dimensions b'' = (60, 30)
      ∧ display_at b'' 10 10 = display_at (fresh 600 300) 10 10
      ∧ display_at b'' 45 10 = Some false.
Proof.
  assert (Hwf : well_formed (fresh 600 300)).
  { split; [done|]. split; [done|]. split; [done|]. split; [done|].
    apply Forall_replicate. done. }
  assert (Hfits : fits (fresh 600 300) 600 300) by done.
  split; [exact Hwf|]. split; [exact Hfits|].
  destruct (reformatCells_there_and_back (fresh 600 300) 600 300 300 300 Hwf Hfits)
    as (b' & b'' & H1 & H2 & (_ & _ & Hcs & _ & Hw & Hh) & _ & _ & Hdim & Hcell);
    [lia|lia|lia|lia|done|left; done|].
  assert (Hdim' : FlipBoard.dimensions b' = (30, 30)).
  { unfold FlipBoard.dimensions. by rewrite Hw, Hh, Hcs. }
  exists b', b''. split; [exact H1|]. split; [exact H2|].
  split; [exact Hdim'|]. split; [exact Hdim|].
  injection Hdim' as Hgw Hgh.
  split.
  - rewrite (Hcell 10 10) by (split; [lia|reflexivity]). by rewrite Hgw, Hgh.
  - rewrite (Hcell 45 10) by (split; [lia|reflexivity]). by rewrite Hgw, Hgh.
Defined.

(** ** The start of the page *)

Lemma alive_at_seed (g : Grid) (w h cx cy x y : Z) :
  0 ≤ cx < w → 0 ≤ cy < h →
  (∀ x y, 0 ≤ x < w → 0 ≤ y < h → cell g x y = (x =? cx) && (y =? cy)) →
  alive_at g w h x y = (x =? cx) && (y =? cy).
Proof.
  intros Hcx Hcy Hcell. unfold alive_at. case_bool_decide as Hin.
  - destruct Hin. by apply Hcell.
  - symmetry. apply andb_false_iff. rewrite !Z.eqb_neq. lia.
Qed.

Ltac decide_eqb :=
  repeat match goal with
  | |- context [?a =? ?b] =>
      first [rewrite (proj2 (Z.eqb_eq a b)) by lia | rewrite (proj2 (Z.eqb_neq a b)) by lia]
  end.

(** One step of the replicator on a grid whose only live cell is (cx, cy) *)
Lemma seed_next_state (g : Grid) (w h cx cy x y : Z) :
  has_dims g w h → 1 ≤ h →
  0 ≤ cx < w → 0 ≤ cy < h →
  (∀ x y, 0 ≤ x < w → 0 ≤ y < h → cell g x y = (x =? cx) && (y =? cy)) →
  0 ≤ x < w → 0 ≤ y < h →
  next_state (mkAutomata replicator moore g) x y = ring cx cy x y.
Proof.
  intros Hd Hh Hcx Hcy Hcell Hx Hy. unfold next_state. simpl.
  rewrite (Hcell x y Hx Hy).
  unfold count_over. rewrite foldl_count_sum. cbn [offsets app foldr fst snd].
  rewrite !(counted_alive_at g w h) by done.
  rewrite !(alive_at_seed g w h cx cy) by done.
  unfold ring.
  assert (Hdx : x - cx ≤ -2 ∨ x - cx = -1 ∨ x - cx = 0 ∨ x - cx = 1 ∨ 2 ≤ x - cx) by lia.
  assert (Hdy : y - cy ≤ -2 ∨ y - cy = -1 ∨ y - cy = 0 ∨ y - cy = 1 ∨ 2 ≤ y - cy) by lia.
  destruct Hdx as [?|[?|[?|[?|?]]]], Hdy as [?|[?|[?|[?|?]]]];
    decide_eqb; cbn [andb Z.b2z Z.add Pos.add Pos.succ];
    (rewrite bool_decide_eq_true_2 by lia) || (rewrite bool_decide_eq_false_2 by lia);
    reflexivity.
Qed.

(** X24: the start of the page, for a parent of at least 1 x 1 pixels
    and a cell size that is not 0: [new FlipBoard] returns a board, [new
    Automata] with the replicator ruleset, the Moore neighbourhood and the
    dimensions of the board returns an automaton, and the first tick
    returns; the board then shows one live cell, at (floor(gridWidth / 2),
    floor(gridHeight / 2)), and the automaton holds the next generation:
    the cells around that one alive, that one and all others dead. *)
Theorem page_start (cw ch : Z) (random : Z → Z → float) :
  1 ≤ cw → 1 ≤ ch → FlipBoard.setCellSize cw ch ≠ 0 →
  ∃ b a a' b',
    FlipBoard.constructor cw ch = Some (Ok b)
    ∧ fits b cw ch
    ∧ constructor replicator moore (FlipBoard.dimensions b).1 (FlipBoard.dimensions b).2
        false density_default random = Ok a
    ∧ tick a b = Ok (a', b')
    ∧ well_formed b'
    ∧ FlipBoard.dimensions b' = FlipBoard.dimensions b
    ∧ has_dims (grid a') (FlipBoard.gridWidth b) (FlipBoard.gridHeight b)
    ∧ ∀ x y, 0 ≤ x < FlipBoard.gridWidth b → 0 ≤ y < FlipBoard.gridHeight b →
        shows b' x y ((x =? FlipBoard.gridWidth b / 2) && (y =? FlipBoard.gridHeight b / 2))
        ∧ cell (grid a') x y
          = ring (FlipBoard.gridWidth b / 2) (FlipBoard.gridHeight b / 2) x y.
Proof.
  intros Hcw Hch Hcs.
  destruct (grid_dims_nonneg cw ch ltac:(lia) ltac:(lia) Hcs) as (Hpos & _ & _).
  destruct (fresh_well_formed cw ch ltac:(lia) ltac:(lia) Hcs) as [Hwf Hfits].
  pose proof (ceil_div_bounds cw _ Hpos) as Hbw.
  pose proof (ceil_div_bounds ch _ Hpos) as Hbh.
  set (b := fresh cw ch) in *.
  assert (Hgw : 1 ≤ FlipBoard.gridWidth b) by (simpl; nia).
  assert (Hgh : 1 ≤ FlipBoard.gridHeight b) by (simpl; nia).
  set (gw := FlipBoard.gridWidth b) in *. set (gh := FlipBoard.gridHeight b) in *.
  pose proof (constructor_seed replicator moore gw gh density_default random Hgw Hgh) as Hcons.
  pose proof (seed_grid_dims gw gh Hgw Hgh) as Hd.
  pose proof (λ x y, cell_seed_grid gw gh x y Hgw Hgh) as Hseed.
  set (g := <[Z.to_nat (gh / 2) := <[Z.to_nat (gw / 2) := true]> (replicate (Z.to_nat gw) false)]>
              (replicate (Z.to_nat gh) (replicate (Z.to_nat gw) false))) in *.
  set (a := mkAutomata replicator moore g) in *.
  destruct (resize_rectangular gw gh gw gh a Hd Hgh Hgw Hgh)
    as (a1 & Hr & Hrs & Hnb & Hd1 & Hc1).
  rewrite (resized_height_exact gh gh) in Hd1 by lia.
  destruct (update_cells a1) as (a' & Hup & _ & _ & Hd' & Hc').
  rewrite (width_dims _ _ _ Hd1 Hgh) in Hd', Hc'. unfold height in Hd', Hc'.
  rewrite (proj1 Hd1) in Hd', Hc'.
  destruct (setMatrix_transposed b (grid a1) Hwf) as (b' & Hset & Hb').
  exists b, a, a', b'.
  split; [apply constructor_run; [lia|lia|done]|]. split; [exact Hfits|].
  split; [exact Hcons|]. split.
  { unfold tick, FlipBoard.dimensions. cbn [fst snd]. fold gw gh. rewrite Hr.
    cbn [mbind result_bind]. unfold board. rewrite Hset.
    cbn [mbind result_bind]. by rewrite Hup. }
  pose proof Hb' as (Hwf' & Hgw' & Hgh' & _).
  split; [done|]. split; [unfold FlipBoard.dimensions; congruence|]. split; [done|].
  assert (Hcell1 : ∀ x y, 0 ≤ x < gw → 0 ≤ y < gh →
            cell (grid a1) x y = (x =? gw / 2) && (y =? gh / 2)).
  { intros x y Hx Hy. rewrite Hc1.
    rewrite (proj2 (Z.ltb_lt x _)), (proj2 (Z.ltb_lt y _)) by lia. apply Hseed. }
  intros x y Hx Hy. split.
  - apply (painted_shows b b' _ _ x y _ Hwf Hb'); [done|done| |].
    + rewrite (width_dims _ _ _ Hd1 Hgh). unfold height. rewrite (proj1 Hd1). lia.
    + rewrite (row_major_cell _ _ _ x y Hd1) by lia. f_equal. by apply Hcell1.
  - rewrite Hc' by done.
    assert (0 ≤ gh / 2 < gh) by (split; [apply Z.div_pos|apply Z.div_lt_upper_bound]; lia).
    assert (0 ≤ gw / 2 < gw) by (split; [apply Z.div_pos|apply Z.div_lt_upper_bound]; lia).
    destruct a1 as [rs1 nb1 g1]. simpl in *. subst rs1 nb1.
    by apply (seed_next_state g1 gw gh).
Qed.

Lemma page_start_witness :
  ∃ b a a' b',
    FlipBoard.constructor 1280 720 = Some (Ok b)
    ∧ constructor replicator moore (FlipBoard.dimensions b).1 (FlipBoard.dimensions b).2
        false density_default never_random = Ok a
    ∧ tick a b = Ok (a', b')
    ∧ FlipBoard.dimensions b = (64, 36)
    ∧ shows b' 32 18 true ∧ shows b' 33 18 false
    ∧ cell (grid a') 32 18 = false ∧ cell (grid a') 33 19 = true.
Proof.
  destruct (page_start 1280 720 never_random)
    as (b & a & a' & b' & Hb & (_ & _ & Hcs & _ & Hw & Hh) & Ha & Ht & _ & _ & _ & Hc);
    [lia|lia|done|].
  assert (Hdim : FlipBoard.dimensions b = (64, 36)).
  { unfold FlipBoard.dimensions. by rewrite Hw, Hh, Hcs. }
  exists b, a, a', b'. split; [exact Hb|]. split; [exact Ha|]. split; [exact Ht|].
  split; [exact Hdim|].
  injection Hdim as Hgw Hgh. rewrite Hgw, Hgh in Hc.
  destruct (Hc 32 18) as [H1 H2]; [lia|lia|].
  destruct (Hc 33 18) as [H3 _]; [lia|lia|].
  destruct (Hc 33 19) as [_ H4]; [lia|lia|].
  split; [exact H1|]. split; [exact H3|]. split; [exact H2|exact H4].
Defined.

(** ** [FlipElement.flip] and [FlipBoard.flipOne] *)

(** X25: on a well-formed board and for a cell (x, y) of its grid whose
    element holds the entry of the display matrix, [flipOne(x, y)] leaves
    the element as [FlipElement.flip] would, and the element and the
    display matrix still agree; and [flip] twice gives back an element
    whose CSS class goes with its state. *)
Theorem flipOne_flips_element (b : FlipBoard.t) (x y : Z) (e : FlipElement.t) :
  well_formed b →
  0 ≤ x < FlipBoard.gridWidth b → 0 ≤ y < FlipBoard.gridHeight b →
  element_at b x y = Some e →
  FlipElement.state e = display_at b x y →
  (∃ b', FlipBoard.flipOne b x y = Ok b'
     ∧ element_at b' x y = Some (FlipElement.flip e)
     ∧ FlipElement.state (FlipElement.flip e) = display_at b' x y)
  ∧ (∀ c, FlipElement.state e = Some c → FlipElement.active e = c →
       FlipElement.flip (FlipElement.flip e) = e).
Proof.
  intros Hwf Hx Hy He Hst. split.
  - unfold FlipBoard.flipOne. rewrite read_display_in by done. cbn [mbind result_bind].
    destruct (setOne_written b x y (Some (negb (JS.truthy (display_at b x y)))) Hwf Hx Hy)
      as (e0 & column & He0 & Hcol & Hlen & ->).
    rewrite He in He0. injection He0 as <-.
    pose proof Hwf as (_ & _ & Hboard & Hcols & _).
    pose proof (cell_index _ _ _ _ Hx Hy) as Hi.
    rewrite <- Hst. eexists. split; [reflexivity|]. split.
    + unfold element_at. cbn [FlipBoard.board FlipBoard.gridWidth].
      by rewrite get_insert_eq by (rewrite Hboard; lia).
    + unfold display_at. cbn [FlipBoard.displayMatrix].
      rewrite get_insert_eq by (rewrite Hcols; lia).
      change (FlipElement.state (FlipElement.flip e)
              = mjoin (JS.get (<[Z.to_nat y := Some (negb (JS.truthy (FlipElement.state e)))]>
                                 column) y)).
      by rewrite get_insert_eq by (rewrite Hlen; lia).
  - clear He Hst. intros c Hc Ha. destruct e as [st xp yp act]. simpl in *. subst.
    unfold FlipElement.flip. simpl. by rewrite negb_involutive.
Qed.

Lemma flipOne_flips_element_witness :
  well_formed board2x2
  ∧ ∃ b', FlipBoard.flipOne board2x2 1 0 = Ok b'
      ∧ element_at b' 1 0 = Some (FlipElement.flip (FlipElement.new 1 0))
      ∧ FlipElement.flip (FlipElement.flip (FlipElement.new 1 0)) = FlipElement.new 1 0.
Proof.
  split; [exact well_formed_board2x2|].
  destruct (flipOne_flips_element board2x2 1 0 (FlipElement.new 1 0) well_formed_board2x2)
    as [(b' & Hb' & He & _) Hflip]; [simpl; lia|simpl; lia|reflexivity|reflexivity|].
  exists b'. split; [exact Hb'|]. split; [exact He|].
  by apply (Hflip false).
Defined.
